(** * Stock-addition use case: a shallow embedding and its properties

    The development follows the layering of the Go sources:

    - [internal/domain/entities.go], [internal/domain/errors.go]:
      value objects, entities, domain events and errors;
    - [internal/application/interfaces]: the ports the use case consumes;
    - [internal/application/usecases/add_stock_usecase.go]: the
      orchestrator [Execute];
    - [internal/infrastructure/persistence/mongo_repository.go]: the
      transaction control of the Mongo unit of work;
    - [internal/testutil/mocks]: the in-memory test doubles.

    Go's [int] is taken at its 64-bit width and kept as [Z] with the
    wrap-around written out; [float64] is Rocq's binary64 [float];
    pointers to entities are locations of an explicit heap, so that the
    aliasing between the use case and a repository holding the same
    pointer is visible. *)

From Stdlib Require Import ZArith String List Lia Uint63 PrimFloat.
From stdpp Require Import base option gmap strings pretty.

Local Open Scope string_scope.
Local Open Scope list_scope.
Local Open Scope Z_scope.

(** ** Machine integers and floats *)

Definition int_min : Z := - 2 ^ 63.
Definition int_max : Z := 2 ^ 63 - 1.

Definition is_int (z : Z) : Prop := int_min <= z <= int_max.

(** Two's complement wrap-around of a 64-bit signed integer. *)
Definition wrap (z : Z) : Z := (z + 2 ^ 63) mod 2 ^ 64 - 2 ^ 63.

(** Go's [a + b] on [int]. *)
Definition int_add (a b : Z) : Z := wrap (a + b).

(** Go's conversion [float64(n)] of an [int]: the nearest binary64 value. *)
Definition float64_of_int (n : Z) : float :=
  if n <? 0 then
    if n =? int_min
    then PrimFloat.opp (PrimFloat.mul (PrimFloat.of_uint63 (Uint63.of_Z (2 ^ 62))) 2%float)
    else PrimFloat.opp (PrimFloat.of_uint63 (Uint63.of_Z (- n)))
  else PrimFloat.of_uint63 (Uint63.of_Z n).

(** ** Time *)

(** [time.Time] and [time.Duration], both counted in nanoseconds. *)
Definition Time : Type := Z.
Definition Duration : Type := Z.
Definition time_Minute : Duration := 60 * 1000000000.

(** ** internal/domain/errors.go *)

Inductive error : Type :=
| ErrProductNotFound
| ErrTenantNotFound
| ErrTenantInactive
| ErrInvalidQuantity
| ErrInvalidProductID
| ErrStockExceedsLimit (Current Adding WouldBe MaxAllowed : Z)
| errors_New (msg : string).

(** ** internal/domain/entities.go: value objects *)

Record StockQuantity : Type := mkStockQuantity { value : Z }.

(** The zero value [StockQuantity{}]. *)
Definition StockQuantity_zero : StockQuantity := {| value := 0 |}.

(** Go returns the pair [(StockQuantity, error)]; a [None] error is [nil]. *)
Definition NewStockQuantity (q : Z) : StockQuantity * option error :=
  if q <? 0
  then (StockQuantity_zero, Some (errors_New "quantity cannot be negative"))
  else ({| value := q |}, None).

Definition Value (q : StockQuantity) : Z := value q.

Definition Add (q other : StockQuantity) : StockQuantity :=
  {| value := int_add (value q) (value other) |}.

Definition Exceeds (q limit : StockQuantity) : bool :=
  value limit <? value q.

(** ** internal/domain/entities.go: entities and events *)

Record Product : Type := mkProduct {
  Product_ID : string;
  Product_Name : string;
  CurrentStock : StockQuantity;
  LastUpdated : Time;
  Product_TenantID : string
}.

Record Tenant : Type := mkTenant {
  Tenant_ID : string;
  Tenant_Name : string;
  MaxStock : StockQuantity;
  IsActive : bool
}.

(** Entities are handled through pointers; [None] is the nil pointer. *)
Definition loc : Type := nat.
Definition ptr : Type := option loc.

Record StockAddedEvent : Type := mkStockAddedEvent {
  sae_ProductID : string;
  sae_TenantID : string;
  sae_Quantity : StockQuantity;
  sae_Previous : StockQuantity;
  sae_Current : StockQuantity;
  sae_AddedBy : string;
  sae_Timestamp : Time;
  sae_Notes : string
}.

Record StockLimitAlertEvent : Type := mkStockLimitAlertEvent {
  slae_ProductID : string;
  slae_ProductName : string;
  slae_Current : StockQuantity;
  slae_MaxLimit : StockQuantity;
  slae_Utilization : float;
  slae_TenantID : string;
  slae_Timestamp : Time
}.

(** The read-only methods of [*Product] and [*Tenant], on the value the
    receiver points to. *)

(** [time.Since(p.LastUpdated) < threshold], with [now] the clock reading
    taken by [time.Since]. *)
Definition Product_IsRecentlyUpdated (p : Product) (now : Time) (threshold : Duration) : bool :=
  now - LastUpdated p <? threshold.

Definition Product_IsLowStock (p : Product) (threshold : Z) : bool :=
  Value (CurrentStock p) <? threshold.

Definition Product_UtilizationPercentage (p : Product) (maxLimit : StockQuantity) : float :=
  if Value maxLimit =? 0 then 0%float
  else PrimFloat.mul
         (PrimFloat.div (float64_of_int (Value (CurrentStock p)))
                        (float64_of_int (Value maxLimit)))
         100%float.

Definition Tenant_CanReceiveStock (t : Tenant) : option error :=
  if negb (IsActive t) then Some ErrTenantInactive else None.

(** ** Execution model

    A run threads the heap of entities and the state of the collaborators
    behind the ports ([World]), and records every call made through a
    port ([trace]), the goroutines started and the number of clock
    readings taken. A Go function returning [(T, error)] either returns a
    value with a nil error, returns a non-nil error, or panics. *)

Inductive outcome (A : Type) : Type :=
| Return (a : A)
| Fail (err : error)
| Panic.

Arguments Return {A} a.
Arguments Fail {A} err.
Arguments Panic {A}.

Inductive status : Type :=
| returned_nil
| returned_err (err : error)
| panicked
| started.

Definition status_of {A : Type} (r : outcome A) : status :=
  match r with
  | Return _ => returned_nil
  | Fail e => returned_err e
  | Panic => panicked
  end.

(** The calls the orchestrator makes through its ports. [Products_Save]
    carries the pointer handed over together with the product it points
    to at the time of the call; the two [go_] calls are the goroutines
    started for the notification service. *)
Inductive Call : Type :=
| uow_Begin
| uow_Commit
| uow_Rollback
| Tenants_FindByID (tenantID : string)
| Products_FindByID (productID : string)
| Products_Save (product : ptr) (pointee : option Product)
| StockHistory_Create (event : StockAddedEvent)
| go_SendStockAlert (event : StockLimitAlertEvent)
| go_SendLowStockAlert (product : ptr) (threshold : Z)
| eventPublisher_Publish (event : StockAddedEvent).

Definition Event : Type := Call * status.

(** Computations over a state [X]: the one monad used for the
    collaborators (over the world), for the orchestrator (over a run) and
    for the database driver. *)
Definition SO (X A : Type) : Type := X -> outcome A * X.

Definition ret {X A : Type} (a : A) : SO X A := fun x => (Return a, x).

Definition bind {X A B : Type} (m : SO X A) (k : A -> SO X B) : SO X B :=
  fun x =>
    match m x with
    | (Return a, x') => k a x'
    | (Fail e, x') => (Fail e, x')
    | (Panic, x') => (Panic, x')
    end.

Notation "x <- m ;; k" := (bind m (fun x => k))
  (at level 100, m at next level, right associativity).
Notation "m ;;; k" := (bind m (fun _ => k))
  (at level 100, right associativity).

(** [if err != nil { return nil, err }] *)
Definition check {X : Type} (err : option error) : SO X unit :=
  fun x => match err with
           | Some e => (Fail e, x)
           | None => (Return tt, x)
           end.

(** A Go pair [(v, err)] followed by [if err != nil { return nil, err }]. *)
Definition checked {X A : Type} (r : A * option error) : SO X A :=
  check (snd r) ;;; ret (fst r).

(** [_ = f(...)]: the error result is dropped. *)
Definition discard_error {X : Type} (m : SO X unit) : SO X unit :=
  fun x =>
    match m x with
    | (Fail _, x') => (Return tt, x')
    | r => r
    end.

(** [defer d] in front of [m]: [d] runs when [m] returns or panics, its
    result is dropped, and a panic of [d] is the panic of the function. *)
Definition defer {X A : Type} (d : SO X unit) (m : SO X A) : SO X A :=
  fun x =>
    let (r, x1) := m x in
    match d x1 with
    | (Panic, x2) => (Panic, x2)
    | (_, x2) => (r, x2)
    end.

Section UseCase.

(** State of the collaborators behind the ports. *)
Variable S : Type.

(** The [n]-th reading of the wall clock by [time.Now()]. *)
Variable wallclock : nat -> Time.

Record World : Type := mkWorld {
  products : gmap loc Product;
  tenants : gmap loc Tenant;
  ext : S
}.

(** What a collaborator does when called. *)
Definition Op (A : Type) : Type := SO World A.

(** A collaborator that keeps to its own state. *)
Definition on_ext {A : Type} (f : SO S A) : Op A :=
  fun w =>
    let (r, s) := f (ext w) in
    (r, {| products := products w; tenants := tenants w; ext := s |}).

Record St : Type := mkSt {
  world : World;
  trace : list Event;
  goroutines : list (Op unit);
  ticks : nat
}.

Definition M (A : Type) : Type := SO St A.

(** A call through a port: the collaborator runs on the world and the
    call is recorded with its result. *)
Definition call_at {A : Type} (c : World -> Call) (op : Op A) : M A :=
  fun st =>
    let (r, w) := op (world st) in
    (r, {| world := w;
           trace := trace st ++ [(c (world st), status_of r)];
           goroutines := goroutines st;
           ticks := ticks st |}).

Definition call {A : Type} (c : Call) (op : Op A) : M A := call_at (fun _ => c) op.

(** [go func() { _ = f(...) }()]: the goroutine is started, not awaited. *)
Definition go (c : Call) (f : Op unit) : M unit :=
  fun st =>
    (Return tt, {| world := world st;
                   trace := trace st ++ [(c, started)];
                   goroutines := goroutines st ++ [f];
                   ticks := ticks st |}).

Definition time_Now : M Time :=
  fun st =>
    (Return (wallclock (ticks st)),
     {| world := world st; trace := trace st;
        goroutines := goroutines st; ticks := Datatypes.S (ticks st) |}).

Definition product_at (w : World) (p : ptr) : option Product :=
  match p with
  | Some l => products w !! l
  | None => None
  end.

Definition tenant_at (w : World) (t : ptr) : option Tenant :=
  match t with
  | Some l => tenants w !! l
  | None => None
  end.

(** Reading through a pointer; nil panics. *)
Definition deref_product (p : ptr) : M Product :=
  fun st => match product_at (world st) p with
            | Some v => (Return v, st)
            | None => (Panic, st)
            end.

Definition deref_tenant (t : ptr) : M Tenant :=
  fun st => match tenant_at (world st) t with
            | Some v => (Return v, st)
            | None => (Panic, st)
            end.

(** Writing through a pointer. *)
Definition store_product (p : ptr) (f : Product -> Product) : M unit :=
  fun st => match p, product_at (world st) p with
            | Some l, Some v =>
                (Return tt,
                 {| world := {| products := <[l := f v]> (products (world st));
                                tenants := tenants (world st);
                                ext := ext (world st) |};
                    trace := trace st;
                    goroutines := goroutines st;
                    ticks := ticks st |})
            | _, _ => (Panic, st)
            end.

(** [func (p *Product) AddStock(quantity, maxLimit StockQuantity) error] *)
Definition Product_AddStock (p : ptr) (quantity maxLimit : StockQuantity) : M (option error) :=
  cur <- deref_product p ;;
  let newStock := Add (CurrentStock cur) quantity in
  if Exceeds newStock maxLimit then
    ret (Some (ErrStockExceedsLimit (Value (CurrentStock cur)) (Value quantity)
                                    (Value newStock) (Value maxLimit)))
  else
    store_product p (fun v => mkProduct (Product_ID v) (Product_Name v) newStock
                                        (LastUpdated v) (Product_TenantID v)) ;;;
    now <- time_Now ;;
    store_product p (fun v => mkProduct (Product_ID v) (Product_Name v) (CurrentStock v)
                                        now (Product_TenantID v)) ;;;
    ret None.

(** ** internal/application/interfaces: the ports *)

Record ProductRepository : Type := mkProductRepository {
  Products_FindByID_op : string -> Op ptr;
  Products_Save_op : ptr -> Op unit;
  Products_UpdateStock_op : string -> StockQuantity -> Op unit
}.

Record TenantRepository : Type := mkTenantRepository {
  Tenants_FindByID_op : string -> Op ptr
}.

Record StockHistoryRepository : Type := mkStockHistoryRepository {
  StockHistory_Create_op : StockAddedEvent -> Op unit
}.

Record UnitOfWork : Type := mkUnitOfWork {
  Begin : Op unit;
  Commit : Op unit;
  Rollback : Op unit;
  Products : ProductRepository;
  Tenants : TenantRepository;
  StockHistory : StockHistoryRepository
}.

Record NotificationService : Type := mkNotificationService {
  SendStockAlert : StockLimitAlertEvent -> Op unit;
  SendLowStockAlert : ptr -> Z -> Op unit
}.

Record EventPublisher : Type := mkEventPublisher {
  Publish : StockAddedEvent -> Op unit
}.

(** ** internal/application/usecases/add_stock_usecase.go *)

Record AddStockRequest : Type := mkAddStockRequest {
  ProductID : string;
  Quantity : Z;
  TenantID : string;
  Notes : string;
  AddedBy : string
}.

Record AddStockResponse : Type := mkAddStockResponse {
  resp_ProductID : string;
  resp_ProductName : string;
  PreviousStock : Z;
  NewStock : Z;
  Added : Z;
  MaxAllowed : Z;
  Utilization : float
}.

(** [eventPublisher] may be nil. *)
Record addStockUseCase : Type := mkAddStockUseCase {
  uow : UnitOfWork;
  notificationSvc : NotificationService;
  eventPublisher : option EventPublisher;
  recentUpdateThreshold : Duration
}.

Definition NewAddStockUseCase (u : UnitOfWork) (n : NotificationService)
  (e : option EventPublisher) : addStockUseCase :=
  {| uow := u;
     notificationSvc := n;
     eventPublisher := e;
     recentUpdateThreshold := 5 * time_Minute |}.

Definition validateRequest (req : AddStockRequest) : option error :=
  if String.eqb (ProductID req) EmptyString then Some ErrInvalidProductID
  else if String.eqb (TenantID req) EmptyString then Some ErrTenantNotFound
  else if Quantity req <=? 0 then Some ErrInvalidQuantity
  else None.

(** Steps 3 to 15 of [Execute]: what runs under the deferred rollback. *)
Definition Execute_in_transaction (uc : addStockUseCase) (req : AddStockRequest)
  : M AddStockResponse :=
  (* 3. Get tenant *)
  tenant <- call (Tenants_FindByID (TenantID req))
                 (Tenants_FindByID_op (Tenants (uow uc)) (TenantID req)) ;;
  (* 4. Validate tenant *)
  t <- deref_tenant tenant ;;
  check (Tenant_CanReceiveStock t) ;;;
  (* 5. Get product *)
  product <- call (Products_FindByID (ProductID req))
                  (Products_FindByID_op (Products (uow uc)) (ProductID req)) ;;
  (* 6. Create quantity value object *)
  quantity <- checked (NewStockQuantity (Quantity req)) ;;
  (* 7. Business rule: check if product was recently updated *)
  p <- deref_product product ;;
  now <- time_Now ;;
  let _ := Product_IsRecentlyUpdated p now (recentUpdateThreshold uc) in
  (* 8. Add stock with business logic *)
  p <- deref_product product ;;
  let previousStock := CurrentStock p in
  t <- deref_tenant tenant ;;
  err <- Product_AddStock product quantity (MaxStock t) ;;
  check err ;;;
  (* 9. Save updated product *)
  call_at (fun w => Products_Save product (product_at w product))
          (Products_Save_op (Products (uow uc)) product) ;;;
  (* 10. Create audit log *)
  p <- deref_product product ;;
  now <- time_Now ;;
  let stockEvent :=
    {| sae_ProductID := Product_ID p;
       sae_TenantID := TenantID req;
       sae_Quantity := quantity;
       sae_Previous := previousStock;
       sae_Current := CurrentStock p;
       sae_AddedBy := AddedBy req;
       sae_Timestamp := now;
       sae_Notes := Notes req |} in
  call (StockHistory_Create stockEvent)
       (StockHistory_Create_op (StockHistory (uow uc)) stockEvent) ;;;
  (* 11. Check if stock limit alert needed *)
  p <- deref_product product ;;
  t <- deref_tenant tenant ;;
  let utilization := Product_UtilizationPercentage p (MaxStock t) in
  (if PrimFloat.ltb 80%float utilization then
     now <- time_Now ;;
     let alertEvent :=
       {| slae_ProductID := Product_ID p;
          slae_ProductName := Product_Name p;
          slae_Current := CurrentStock p;
          slae_MaxLimit := MaxStock t;
          slae_Utilization := utilization;
          slae_TenantID := TenantID req;
          slae_Timestamp := now |} in
     go (go_SendStockAlert alertEvent)
        (SendStockAlert (notificationSvc uc) alertEvent)
   else ret tt) ;;;
  (* 12. Check for low stock *)
  p <- deref_product product ;;
  (if Product_IsLowStock p 10 then
     go (go_SendLowStockAlert product 10)
        (SendLowStockAlert (notificationSvc uc) product 10)
   else ret tt) ;;;
  (* 13. Publish domain event *)
  match eventPublisher uc with
  | Some pub =>
      discard_error (call (eventPublisher_Publish stockEvent) (Publish pub stockEvent))
  | None => ret tt
  end ;;;
  (* 14. Commit transaction *)
  call uow_Commit (Commit (uow uc)) ;;;
  (* 15. Return response *)
  p <- deref_product product ;;
  t <- deref_tenant tenant ;;
  ret {| resp_ProductID := Product_ID p;
         resp_ProductName := Product_Name p;
         PreviousStock := Value previousStock;
         NewStock := Value (CurrentStock p);
         Added := Value quantity;
         MaxAllowed := Value (MaxStock t);
         Utilization := utilization |}.

Definition Execute (uc : addStockUseCase) (req : AddStockRequest) : M AddStockResponse :=
  (* 1. Validate input *)
  check (validateRequest req) ;;;
  (* 2. Begin transaction *)
  call uow_Begin (Begin (uow uc)) ;;;
  defer (call uow_Rollback (Rollback (uow uc)))
        (Execute_in_transaction uc req).

(** A fresh run: nothing recorded yet. *)
Definition start (w : World) : St :=
  {| world := w; trace := []; goroutines := []; ticks := 0 |}.

End UseCase.

Arguments mkWorld {S} _ _ _.
Arguments products {S} _.
Arguments tenants {S} _.
Arguments ext {S} _.
Arguments on_ext {S A} _ _.
Arguments mkSt {S} _ _ _ _.
Arguments world {S} _.
Arguments trace {S} _.
Arguments goroutines {S} _.
Arguments ticks {S} _.
Arguments product_at {S} _ _.
Arguments tenant_at {S} _ _.
Arguments start {S} _.
Arguments Begin {S} _.
Arguments Commit {S} _.
Arguments Rollback {S} _.
Arguments Products {S} _.
Arguments Tenants {S} _.
Arguments StockHistory {S} _.
Arguments Products_FindByID_op {S} _.
Arguments Products_Save_op {S} _.
Arguments Tenants_FindByID_op {S} _.
Arguments StockHistory_Create_op {S} _.
Arguments Publish {S} _.
Arguments uow {S} _.
Arguments notificationSvc {S} _.
Arguments eventPublisher {S} _.
Arguments recentUpdateThreshold {S} _.
Arguments Execute {S} _ _ _.
Arguments Execute_in_transaction {S} _ _ _.
Arguments Product_AddStock {S} _ _ _ _.

(** ** internal/infrastructure/persistence/mongo_repository.go

    The transaction control of [mongoUnitOfWork]. The MongoDB driver is
    an external library: its state and the session methods the unit of
    work calls are parameters. *)

Section MongoUnitOfWork.

Variable Driver : Type.
Variable Session : Type.
Variable client_StartSession : SO Driver Session.
Variable session_StartTransaction : Session -> SO Driver unit.
Variable session_CommitTransaction : Session -> SO Driver unit.
Variable session_AbortTransaction : Session -> SO Driver unit.
Variable session_EndSession : Session -> Driver -> Driver.

(** [session] is nil outside a transaction. *)
Record mongoUnitOfWork : Type := mkMongoUnitOfWork {
  session : option Session;
  driver : Driver
}.

Definition on_driver {A : Type} (f : SO Driver A) : SO mongoUnitOfWork A :=
  fun u =>
    let (r, d) := f (driver u) in
    (r, {| session := session u; driver := d |}).

Definition EndSession (s : Session) : SO mongoUnitOfWork unit :=
  fun u => (Return tt, {| session := session u; driver := session_EndSession s (driver u) |}).

Definition set_session (s : option Session) : SO mongoUnitOfWork unit :=
  fun u => (Return tt, {| session := s; driver := driver u |}).

Definition mongo_Begin : SO mongoUnitOfWork unit :=
  s <- on_driver client_StartSession ;;
  fun u =>
    match on_driver (session_StartTransaction s) u with
    | (Fail e, u1) => (Fail e, snd (EndSession s u1))
    | (Return _, u1) => set_session (Some s) u1
    | (Panic, u1) => (Panic, u1)
    end.

Definition mongo_Commit : SO mongoUnitOfWork unit :=
  fun u =>
    match session u with
    | None => (Return tt, u)
    | Some s =>
        (on_driver (session_CommitTransaction s) ;;;
         EndSession s ;;;
         set_session None) u
    end.

Definition mongo_Rollback : SO mongoUnitOfWork unit :=
  fun u =>
    match session u with
    | None => (Return tt, u)
    | Some s =>
        (on_driver (session_AbortTransaction s) ;;;
         EndSession s ;;;
         set_session None) u
    end.

(** The unit of work next to the state [X] of its collections. *)
Record Backend (X : Type) : Type := mkBackend {
  uow_state : mongoUnitOfWork;
  collections : X
}.

Arguments mkBackend {X} _ _.
Arguments uow_state {X} _.
Arguments collections {X} _.

Definition on_uow {X A : Type} (f : SO mongoUnitOfWork A) : SO (Backend X) A :=
  fun b =>
    let (r, u) := f (uow_state b) in
    (r, {| uow_state := u; collections := collections b |}).

(** [NewMongoUnitOfWork], with the three repositories it hands out given. *)
Definition NewMongoUnitOfWork {X : Type}
  (P : ProductRepository (Backend X)) (T : TenantRepository (Backend X))
  (H : StockHistoryRepository (Backend X)) : UnitOfWork (Backend X) :=
  {| Begin := on_ext (on_uow mongo_Begin);
     Commit := on_ext (on_uow mongo_Commit);
     Rollback := on_ext (on_uow mongo_Rollback);
     Products := P;
     Tenants := T;
     StockHistory := H |}.

End MongoUnitOfWork.

Arguments mkMongoUnitOfWork {Driver Session} _ _.
Arguments session {Driver Session} _.
Arguments driver {Driver Session} _.
Arguments mkBackend {Driver Session X} _ _.
Arguments uow_state {Driver Session X} _.
Arguments collections {Driver Session X} _.

(** ** internal/testutil/mocks: the test doubles *)

Record MockProductRepo : Type := mkMockProductRepo {
  mock_Product : ptr;
  mock_product_FindErr : option error;
  mock_SaveErr : option error
}.

Record MockTenantRepo : Type := mkMockTenantRepo {
  mock_Tenant : ptr;
  mock_tenant_FindErr : option error
}.

Record MockStockHistoryRepo : Type := mkMockStockHistoryRepo {
  mock_CreateErr : option error;
  mock_Events : list StockAddedEvent
}.

Record MockEventPublisher : Type := mkMockEventPublisher {
  mock_Published : list StockAddedEvent;
  mock_PublishErr : option error
}.

Record MockNotificationService : Type := mkMockNotificationService {
  mock_SendStockAlertErr : option error;
  mock_SendLowStockAlertErr : option error;
  mock_StockAlerts : list StockLimitAlertEvent;
  mock_LowStockCalls : Z
}.

Definition result_of (err : option error) : outcome unit :=
  match err with
  | Some e => Fail e
  | None => Return tt
  end.

Definition MockProductRepo_FindByID (m : MockProductRepo) (productID : string) : outcome ptr :=
  match mock_product_FindErr m with
  | Some e => Fail e
  | None => Return (mock_Product m)
  end.

(** [*m.Product = *product] writes through the pointer the mock holds,
    which is the one [FindByID] gave out. *)
Definition MockProductRepo_Save {S : Type} (m : MockProductRepo) (product : ptr) : Op S unit :=
  fun w =>
    match mock_SaveErr m with
    | Some e => (Fail e, w)
    | None =>
        match mock_Product m with
        | None => (Return tt, w)
        | Some l =>
            match product_at w product with
            | Some v =>
                (Return tt,
                 {| products := <[l := v]> (products w);
                    tenants := tenants w;
                    ext := ext w |})
            | None => (Panic, w)
            end
        end
    end.

Definition MockProductRepo_UpdateStock (m : MockProductRepo) (productID : string)
  (newStock : StockQuantity) : outcome unit :=
  Return tt.

Definition MockTenantRepo_FindByID (m : MockTenantRepo) (tenantID : string) : outcome ptr :=
  match mock_tenant_FindErr m with
  | Some e => Fail e
  | None => Return (mock_Tenant m)
  end.

Definition MockStockHistoryRepo_Create (event : StockAddedEvent) : SO MockStockHistoryRepo unit :=
  fun m =>
    match mock_CreateErr m with
    | Some e => (Fail e, m)
    | None => (Return tt, {| mock_CreateErr := mock_CreateErr m;
                             mock_Events := mock_Events m ++ [event] |})
    end.

Definition MockEventPublisher_Publish (event : StockAddedEvent) : SO MockEventPublisher unit :=
  fun m =>
    (result_of (mock_PublishErr m),
     {| mock_Published := mock_Published m ++ [event];
        mock_PublishErr := mock_PublishErr m |}).

Definition MockNotificationService_SendStockAlert (event : StockLimitAlertEvent)
  : SO MockNotificationService unit :=
  fun m =>
    (result_of (mock_SendStockAlertErr m),
     {| mock_SendStockAlertErr := mock_SendStockAlertErr m;
        mock_SendLowStockAlertErr := mock_SendLowStockAlertErr m;
        mock_StockAlerts := mock_StockAlerts m ++ [event];
        mock_LowStockCalls := mock_LowStockCalls m |}).

Definition MockNotificationService_SendLowStockAlert (product : ptr) (threshold : Z)
  : SO MockNotificationService unit :=
  fun m =>
    (result_of (mock_SendLowStockAlertErr m),
     {| mock_SendStockAlertErr := mock_SendStockAlertErr m;
        mock_SendLowStockAlertErr := mock_SendLowStockAlertErr m;
        mock_StockAlerts := mock_StockAlerts m;
        mock_LowStockCalls := int_add (mock_LowStockCalls m) 1 |}).

(** ** A test bench

    The mock repositories, publisher and notifier behind the ports, with
    the transaction control of the Mongo unit of work over a driver that
    answers from a script and logs what it is asked. *)

Module Bench.

Record ScriptedDriver : Type := mkScriptedDriver {
  StartSession_err : option error;
  StartTransaction_err : option error;
  CommitTransaction_err : option error;
  AbortTransaction_err : option error;
  driver_log : list string
}.

Definition logged (name : string) (d : ScriptedDriver) : ScriptedDriver :=
  {| StartSession_err := StartSession_err d;
     StartTransaction_err := StartTransaction_err d;
     CommitTransaction_err := CommitTransaction_err d;
     AbortTransaction_err := AbortTransaction_err d;
     driver_log := driver_log d ++ [name] |}.

Definition StartSession : SO ScriptedDriver nat :=
  fun d =>
    (match StartSession_err d with Some e => Fail e | None => Return 1%nat end,
     logged "StartSession" d).

Definition StartTransaction (s : nat) : SO ScriptedDriver unit :=
  fun d => (result_of (StartTransaction_err d), logged "StartTransaction" d).

Definition CommitTransaction (s : nat) : SO ScriptedDriver unit :=
  fun d => (result_of (CommitTransaction_err d), logged "CommitTransaction" d).

Definition AbortTransaction (s : nat) : SO ScriptedDriver unit :=
  fun d => (result_of (AbortTransaction_err d), logged "AbortTransaction" d).

Definition EndSession (s : nat) (d : ScriptedDriver) : ScriptedDriver :=
  logged "EndSession" d.

Record Mocks : Type := mkMocks {
  ProductsRepo : MockProductRepo;
  TenantsRepo : MockTenantRepo;
  StockHistRepo : MockStockHistoryRepo;
  Publisher : MockEventPublisher;
  Notifier : MockNotificationService
}.

Definition State : Type := Backend ScriptedDriver nat Mocks.

Definition mocks_of (w : World State) : Mocks := collections (ext w).

Definition with_mocks (f : Mocks -> Mocks) (w : World State) : World State :=
  {| products := products w;
     tenants := tenants w;
     ext := {| uow_state := uow_state (ext w);
               collections := f (collections (ext w)) |} |}.

Definition products_repo : ProductRepository State :=
  {| Products_FindByID_op := fun productID w =>
       (MockProductRepo_FindByID (ProductsRepo (mocks_of w)) productID, w);
     Products_Save_op := fun product w =>
       MockProductRepo_Save (ProductsRepo (mocks_of w)) product w;
     Products_UpdateStock_op := fun productID newStock w =>
       (MockProductRepo_UpdateStock (ProductsRepo (mocks_of w)) productID newStock, w) |}.

Definition tenants_repo : TenantRepository State :=
  {| Tenants_FindByID_op := fun tenantID w =>
       (MockTenantRepo_FindByID (TenantsRepo (mocks_of w)) tenantID, w) |}.

Definition history_repo : StockHistoryRepository State :=
  {| StockHistory_Create_op := fun event w =>
       let (r, h) := MockStockHistoryRepo_Create event (StockHistRepo (mocks_of w)) in
       (r, with_mocks (fun m => mkMocks (ProductsRepo m) (TenantsRepo m) h
                                        (Publisher m) (Notifier m)) w) |}.

Definition publisher : EventPublisher State :=
  {| Publish := fun event w =>
       let (r, p) := MockEventPublisher_Publish event (Publisher (mocks_of w)) in
       (r, with_mocks (fun m => mkMocks (ProductsRepo m) (TenantsRepo m) (StockHistRepo m)
                                        p (Notifier m)) w) |}.

Definition notifier : NotificationService State :=
  {| SendStockAlert := fun event w =>
       let (r, n) := MockNotificationService_SendStockAlert event (Notifier (mocks_of w)) in
       (r, with_mocks (fun m => mkMocks (ProductsRepo m) (TenantsRepo m) (StockHistRepo m)
                                        (Publisher m) n) w);
     SendLowStockAlert := fun product threshold w =>
       let (r, n) := MockNotificationService_SendLowStockAlert product threshold
                       (Notifier (mocks_of w)) in
       (r, with_mocks (fun m => mkMocks (ProductsRepo m) (TenantsRepo m) (StockHistRepo m)
                                        (Publisher m) n) w) |}.

Definition unit_of_work : UnitOfWork State :=
  NewMongoUnitOfWork ScriptedDriver nat StartSession StartTransaction
    CommitTransaction AbortTransaction EndSession
    products_repo tenants_repo history_repo.

Definition usecase (with_publisher : bool) : addStockUseCase State :=
  NewAddStockUseCase State unit_of_work notifier
    (if with_publisher then Some publisher else None).

(** The clock reads one hour plus one second per reading. *)
Definition clock (n : nat) : Time := 3600000000000 + 1000000000 * Z.of_nat n.

(** One tenant at location 0 and one product at location 0, as in the
    use-case tests: product "p1" of tenant "t1", last updated at time 0. *)
Definition bench (maxStock stock : Z) (active : bool) (commitErr : option error)
  : World State :=
  {| products := {[ 0%nat := mkProduct "p1" "Widget" (mkStockQuantity stock) 0 "t1" ]};
     tenants := {[ 0%nat := mkTenant "t1" "Tenant" (mkStockQuantity maxStock) active ]};
     ext := {| uow_state := {| session := None;
                               driver := mkScriptedDriver None None commitErr None [] |};
               collections :=
                 {| ProductsRepo := mkMockProductRepo (Some 0%nat) None None;
                    TenantsRepo := mkMockTenantRepo (Some 0%nat) None;
                    StockHistRepo := mkMockStockHistoryRepo None [];
                    Publisher := mkMockEventPublisher [] None;
                    Notifier := mkMockNotificationService None None [] 0 |} |} |}.

(** The product repository mock left empty: [FindByID] then returns a nil
    product with a nil error. *)
Definition without_product (w : World State) : World State :=
  with_mocks (fun m => mkMocks (mkMockProductRepo None None None) (TenantsRepo m)
                               (StockHistRepo m) (Publisher m) (Notifier m)) w.

Definition request (quantity : Z) : AddStockRequest :=
  {| ProductID := "p1"; Quantity := quantity; TenantID := "t1";
     Notes := "restock"; AddedBy := "u1" |}.

Definition run (with_publisher : bool) (req : AddStockRequest) (w : World State)
  : outcome AddStockResponse * St State :=
  Execute clock (usecase with_publisher) req (start w).

(** The goroutines a run has started, run one after the other on the
    world the run left. *)
Definition drain (st : St State) : World State :=
  fold_left (fun w (g : Op State unit) => snd (g w)) (goroutines st) (world st).

End Bench.

(** ** Vocabulary of the properties *)

(** The calls that reach outside the transaction: the two alert
    goroutines and the event publication. *)
Definition is_notification (c : Call) : bool :=
  match c with
  | go_SendStockAlert _ | go_SendLowStockAlert _ _ | eventPublisher_Publish _ => true
  | _ => false
  end.

Definition returned_ok (s : status) : bool :=
  match s with
  | returned_nil => true
  | _ => false
  end.

(** A monitor over a trace: every notification comes after a [Save] and
    a [Create] that returned nil and before any [Commit]. The flags tell
    what has been seen so far. *)
Fixpoint notifications_in_order (saved created committing : bool) (tr : list Event) : bool :=
  match tr with
  | [] => true
  | (c, s) :: rest =>
      match c with
      | Products_Save _ _ =>
          notifications_in_order (saved || returned_ok s) created committing rest
      | StockHistory_Create _ =>
          notifications_in_order saved (created || returned_ok s) committing rest
      | uow_Commit =>
          notifications_in_order saved created true rest
      | go_SendStockAlert _ | go_SendLowStockAlert _ _ | eventPublisher_Publish _ =>
          saved && created && negb committing &&
          notifications_in_order saved created committing rest
      | _ => notifications_in_order saved created committing rest
      end
  end.

(** A collaborator that leaves alone what the pointer [p] points to. *)
Definition keeps_product {S : Type} (p : ptr) (op : Op S unit) : Prop :=
  forall (w w' : World S) (r : outcome unit),
    op w = (r, w') -> product_at w' p = product_at w p.

(** The product loaded by a run belongs to that run: the collaborators
    called between the stock addition and the response do not write
    through the pointer they are handed or hold. *)
Definition product_left_alone {S : Type} (uc : addStockUseCase S) : Prop :=
  forall p : ptr,
    keeps_product p (Products_Save_op (Products (uow uc)) p) /\
    (forall ev, keeps_product p (StockHistory_Create_op (StockHistory (uow uc)) ev)) /\
    (forall pub ev, eventPublisher uc = Some pub -> keeps_product p (Publish pub ev)) /\
    keeps_product p (Commit (uow uc)).

(** The utilization as the specification words it,
    [100 * currentStock / maxLimit] as a floating value, zero for a zero
    limit. *)
Definition utilization_as_specified (currentStock maxLimit : Z) : float :=
  if maxLimit =? 0 then 0%float
  else PrimFloat.div (PrimFloat.mul 100%float (float64_of_int currentStock))
                     (float64_of_int maxLimit).

(** ** The protocol of the ports

    The order in which [Execute] calls its ports, as a state machine over
    the trace: a call is made only after the one before it went through,
    a call that fails or panics is followed by nothing but the deferred
    [Rollback], and nothing follows [Rollback] or a [Begin] that failed. *)

Inductive phase : Type :=
| Idle
| Begun
| TenantLoaded
| ProductLoaded
| Saved
| Recorded
| StockAlertStarted
| LowStockAlertStarted
| Published
| Leaving
| Closed.

Definition advance (s : status) (next : phase) : phase :=
  if returned_ok s then next else Leaving.

Definition protocol_step (ph : phase) (e : Event) : option phase :=
  match ph, e with
  | Idle, (uow_Begin, s) => Some (if returned_ok s then Begun else Closed)
  | Begun, (Tenants_FindByID _, s) => Some (advance s TenantLoaded)
  | TenantLoaded, (Products_FindByID _, s) => Some (advance s ProductLoaded)
  | ProductLoaded, (Products_Save _ _, s) => Some (advance s Saved)
  | Saved, (StockHistory_Create _, s) => Some (advance s Recorded)
  | Recorded, (go_SendStockAlert _, started) => Some StockAlertStarted
  | (Recorded | StockAlertStarted), (go_SendLowStockAlert _ _, started) =>
      Some LowStockAlertStarted
  | (Recorded | StockAlertStarted | LowStockAlertStarted), (eventPublisher_Publish _, s) =>
      Some (match s with panicked => Leaving | _ => Published end)
  | (Recorded | StockAlertStarted | LowStockAlertStarted | Published), (uow_Commit, _) =>
      Some Leaving
  | (Begun | TenantLoaded | ProductLoaded | Saved | Recorded | StockAlertStarted
     | LowStockAlertStarted | Published | Leaving), (uow_Rollback, _) => Some Closed
  | _, _ => None
  end.

Fixpoint protocol_run (ph : phase) (tr : list Event) : option phase :=
  match tr with
  | [] => Some ph
  | e :: rest =>
      match protocol_step ph e with
      | Some ph' => protocol_run ph' rest
      | None => None
      end
  end.

(** A finished run has made no call at all or has closed what it began. *)
Definition follows_protocol (tr : list Event) : bool :=
  match protocol_run Idle tr with
  | Some Idle | Some Closed => true
  | _ => false
  end.

(** ** More benches *)

(** The bench with another driver script or another product mock. *)
Definition bench_with_driver (d : Bench.ScriptedDriver) (w : World Bench.State)
  : World Bench.State :=
  {| products := products w;
     tenants := tenants w;
     ext := {| uow_state := {| session := session (uow_state (ext w)); driver := d |};
               collections := collections (ext w) |} |}.

Definition bench_with_product_repo (m : MockProductRepo) (w : World Bench.State)
  : World Bench.State :=
  Bench.with_mocks (fun ms => Bench.mkMocks m (Bench.TenantsRepo ms) (Bench.StockHistRepo ms)
                                            (Bench.Publisher ms) (Bench.Notifier ms)) w.

(** The ports whose error [Execute] returns to its caller. *)
Definition returns_error_of (c : Call) : bool :=
  match c with
  | uow_Begin | uow_Commit | Tenants_FindByID _ | Products_FindByID _
  | Products_Save _ _ | StockHistory_Create _ => true
  | _ => false
  end.

Definition bench_with_publisher (m : MockEventPublisher) (w : World Bench.State)
  : World Bench.State :=
  Bench.with_mocks (fun ms => Bench.mkMocks (Bench.ProductsRepo ms) (Bench.TenantsRepo ms)
                                            (Bench.StockHistRepo ms) m (Bench.Notifier ms)) w.

(** A collaborator that leaves the entities in memory as they are. *)
Definition keeps_entities {S : Type} (op : Op S unit) : Prop :=
  forall (w w' : World S) (r : outcome unit),
    op w = (r, w') -> products w' = products w /\ tenants w' = tenants w.

(** The entities a run has loaded belong to that run: the collaborators
    called after the stock addition write to none of them. *)
Definition entities_left_alone {S : Type} (uc : addStockUseCase S) : Prop :=
  (forall p, keeps_entities (Products_Save_op (Products (uow uc)) p)) /\
  (forall ev, keeps_entities (StockHistory_Create_op (StockHistory (uow uc)) ev)) /\
  (forall pub ev, eventPublisher uc = Some pub -> keeps_entities (Publish pub ev)) /\
  keeps_entities (Commit (uow uc)).

(** ** Calling in a row *)

(** One call per element of a list, in order, stopping at the first one
    that fails or panics. *)
Fixpoint for_each {X A : Type} (f : A -> SO X unit) (l : list A) : SO X unit :=
  match l with
  | [] => ret tt
  | a :: rest => f a ;;; for_each f rest
  end.

(** ** internal/domain/errors.go: the messages *)

(** [fmt.Sprintf("%d", n)]: decimal digits, with a minus sign in front
    of a negative number. *)
Definition fmt_d (n : Z) : string := pretty n.

(** [err.Error()]. *)
Definition error_Error (err : error) : string :=
  match err with
  | ErrProductNotFound => "product not found"
  | ErrTenantNotFound => "tenant not found"
  | ErrTenantInactive => "tenant is inactive"
  | ErrInvalidQuantity => "invalid quantity"
  | ErrInvalidProductID => "invalid product id"
  | ErrStockExceedsLimit current adding wouldBe maxAllowed =>
      "cannot exceed max stock of " +:+ fmt_d maxAllowed +:+
      ". Current: " +:+ fmt_d current +:+
      ", Adding: " +:+ fmt_d adding +:+
      ", Would be: " +:+ fmt_d wouldBe
  | errors_New msg => msg
  end.

(** ** internal/interfaces/http: the DTOs and the handler

    Fiber is an external library. Of the request context the handler uses
    the outcome of [BodyParser] and the local ["user_id"] as a string; what
    it writes is a status and a JSON body. The request's deadline is not
    modelled: [Execute] only hands its context on. *)

Record http_AddStockRequest : Type := mkHttpAddStockRequest {
  body_product_id : string;
  body_quantity : Z;
  body_tenant_id : string;
  body_notes : string
}.

Record http_AddStockResponse : Type := mkHttpAddStockResponse {
  json_success : bool;
  json_product_id : string;
  json_product_name : string;
  json_previous_stock : Z;
  json_new_stock : Z;
  json_added : Z;
  json_max_allowed : Z;
  json_utilization_percentage : float;
  json_message : string;
  json_timestamp : string
}.

Record ErrorResponse : Type := mkErrorResponse {
  json_error : string;
  json_code : string;
  json_details : string
}.

Inductive json_body : Type :=
| json_AddStockResponse (r : http_AddStockResponse)
| json_ErrorResponse (e : ErrorResponse).

(** [BodyParser c] is [None] when the body does not parse;
    [Locals_user_id c] is [None] when [c.Locals("user_id")] is not a
    string, which makes the type assertion panic. *)
Record fiber_Ctx : Type := mkFiberCtx {
  BodyParser : option http_AddStockRequest;
  Locals_user_id : option string
}.

(** What a handler has done when it returns: the status and body it
    wrote, and the lines it sent to the log. *)
Record Handled : Type := mkHandled {
  reply_status : Z;
  reply_body : json_body;
  logged : list string
}.

Definition handleError (err : error) : Handled :=
  match err with
  | ErrStockExceedsLimit _ _ _ _ =>
      {| reply_status := 400;
         reply_body := json_ErrorResponse
                         (mkErrorResponse (error_Error err) "STOCK_LIMIT_EXCEEDED" EmptyString);
         logged := [] |}
  | ErrProductNotFound =>
      {| reply_status := 404;
         reply_body := json_ErrorResponse
                         (mkErrorResponse "Product not found" "PRODUCT_NOT_FOUND" EmptyString);
         logged := [] |}
  | ErrTenantNotFound =>
      {| reply_status := 404;
         reply_body := json_ErrorResponse
                         (mkErrorResponse "Tenant not found" "TENANT_NOT_FOUND" EmptyString);
         logged := [] |}
  | ErrTenantInactive =>
      {| reply_status := 400;
         reply_body := json_ErrorResponse
                         (mkErrorResponse "Tenant is inactive" "TENANT_INACTIVE" EmptyString);
         logged := [] |}
  | ErrInvalidQuantity =>
      {| reply_status := 400;
         reply_body := json_ErrorResponse
                         (mkErrorResponse "Quantity must be positive" "INVALID_QUANTITY"
                                          EmptyString);
         logged := [] |}
  | _ =>
      {| reply_status := 500;
         reply_body := json_ErrorResponse
                         (mkErrorResponse "Internal server error" EmptyString EmptyString);
         logged := ["Internal error: " +:+ error_Error err] |}
  end.

Section StockHandler.

Variable S : Type.
Variable wallclock : nat -> Time.

(** [t.Format(time.RFC3339)], a function of the standard library. *)
Variable format_RFC3339 : Time -> string.

(** The [AddStockUseCase] the handler is built on; the response is a
    pointer, [None] when nil. *)
Variable addStockUseCase_Execute : AddStockRequest -> M S (option AddStockResponse).

Definition StockHandler_AddStock (c : fiber_Ctx) : M S Handled :=
  (* 1. Parse HTTP request *)
  match BodyParser c with
  | None =>
      ret {| reply_status := 400;
             reply_body := json_ErrorResponse
                             (mkErrorResponse "Invalid request format" EmptyString EmptyString);
             logged := [] |}
  | Some req =>
      (* 2. Get user from context *)
      match Locals_user_id c with
      | None => fun st => (Panic, st)
      | Some userID =>
          (* 3. Convert HTTP DTO to Application DTO *)
          let appReq :=
            {| ProductID := body_product_id req;
               Quantity := body_quantity req;
               TenantID := body_tenant_id req;
               Notes := body_notes req;
               AddedBy := userID |} in
          (* 4. Call use case *)
          fun st =>
            match addStockUseCase_Execute appReq st with
            | (Fail err, st') => (Return (handleError err), st')
            | (Panic, st') => (Panic, st')
            | (Return None, st') => (Panic, st')
            | (Return (Some response), st') =>
                (* 5. Convert Application Response to HTTP Response *)
                (now <- time_Now S wallclock ;;
                 ret {| reply_status := 200;
                        reply_body :=
                          json_AddStockResponse
                            {| json_success := true;
                               json_product_id := resp_ProductID response;
                               json_product_name := resp_ProductName response;
                               json_previous_stock := PreviousStock response;
                               json_new_stock := NewStock response;
                               json_added := Added response;
                               json_max_allowed := MaxAllowed response;
                               json_utilization_percentage := Utilization response;
                               json_message := "Stock updated successfully";
                               json_timestamp := format_RFC3339 now |};
                        logged := [] |}) st'
            end
      end
  end.

End StockHandler.

(** [addStockUseCase] as the [AddStockUseCase] the handler is given in
    [main]: [Execute] returns a response that is never nil. *)
Definition AddStockUseCase_Execute {S : Type} (wallclock : nat -> Time)
  (uc : addStockUseCase S) (req : AddStockRequest) : M S (option AddStockResponse) :=
  fun st =>
    match Execute wallclock uc req st with
    | (Return response, st') => (Return (Some response), st')
    | (Fail err, st') => (Fail err, st')
    | (Panic, st') => (Panic, st')
    end.

(** The handler of [main]: [NewStockHandler(NewAddStockUseCase(...))]. *)
Definition AddStock_handler {S : Type} (wallclock : nat -> Time)
  (format_RFC3339 : Time -> string) (uc : addStockUseCase S) (c : fiber_Ctx)
  : M S Handled :=
  StockHandler_AddStock S wallclock format_RFC3339 (AddStockUseCase_Execute wallclock uc) c.

(** A request context of the bench: the body parsed, the user "u1". *)
Definition bench_ctx (product_id : string) (quantity : Z) (tenant_id : string) : fiber_Ctx :=
  {| BodyParser := Some (mkHttpAddStockRequest product_id quantity tenant_id "restock");
     Locals_user_id := Some "u1" |}.

(** A stand-in for the formatting of timestamps. *)
Definition bench_format (t : Time) : string := pretty t.

(** ** internal/infrastructure/persistence/mongo_repository.go: the repositories

    The repositories that the unit of work hands out read the session of
    the unit of work at the moment they are asked for, and pass it with
    every call to the driver. The driver's collections are parameters: a
    query on a collection with the session of the context, decoded into
    the document the code declares. *)

(** [&domain.Product{...}] and [&domain.Tenant{...}]: a new location. *)
Definition new_product {S : Type} (v : Product) : Op S ptr :=
  fun w =>
    let l := fresh (dom (products w)) in
    (Return (Some l),
     {| products := <[l := v]> (products w); tenants := tenants w; ext := ext w |}).

Definition new_tenant {S : Type} (v : Tenant) : Op S ptr :=
  fun w =>
    let l := fresh (dom (tenants w)) in
    (Return (Some l),
     {| products := products w; tenants := <[l := v]> (tenants w); ext := ext w |}).

(** [mongo.ErrNoDocuments], and the comparison [err == mongo.ErrNoDocuments]. *)
Definition mongo_ErrNoDocuments : error := errors_New "mongo: no documents in result".

Definition is_ErrNoDocuments (err : error) : bool :=
  match err with
  | errors_New msg => String.eqb msg "mongo: no documents in result"
  | _ => false
  end.

(** [fmt.Errorf("database error: %w", err)]. *)
Definition database_error (err : error) : error :=
  errors_New ("database error: " +:+ error_Error err).

Section MongoRepositories.

Variable Driver : Type.
Variable Session : Type.
Variable ObjectID : Type.
Variable X : Type.

(** [primitive.ObjectIDFromHex] returns an ObjectID also beside an error;
    [Save], [UpdateStock] and [Create] use it whatever the error. *)
Variable primitive_ObjectIDFromHex : string -> ObjectID * option error.
Variable ObjectID_Hex : ObjectID -> string.

(** The anonymous struct [FindByID] decodes a product into. *)
Record product_document : Type := mkProductDocument {
  bson_id : ObjectID;
  bson_name : string;
  bson_current_stock : Z;
  bson_last_updated : Time;
  bson_tenant_id : string
}.

(** The anonymous struct [FindByID] decodes a tenant into. *)
Record tenant_document : Type := mkTenantDocument {
  tenant_bson_id : string;
  tenant_bson_name : string;
  bson_max_stock : Z;
  bson_is_active : bool
}.

(** The update document of [Save]: [$set] of two fields, [$inc] of one. *)
Record product_update : Type := mkProductUpdate {
  set_current_stock : Z;
  set_last_updated : Time;
  inc_total_added : Z
}.

(** The document [Create] inserts. *)
Record history_document : Type := mkHistoryDocument {
  bson_product_id : ObjectID;
  history_bson_tenant_id : string;
  bson_quantity : Z;
  bson_previous_stock : Z;
  bson_new_stock : Z;
  bson_added_by : string;
  bson_notes : string;
  bson_created_at : Time;
  bson_operation : string
}.

(** [collection.FindOne(ctx, bson.M{"_id": id}).Decode(&result)],
    [collection.UpdateOne(ctx, bson.M{"_id": id}, update)] and
    [collection.InsertOne(ctx, document)], with the session that [ctx]
    carries, if any. *)
Variable products_FindOne : option Session -> ObjectID -> SO Driver product_document.
Variable products_UpdateOne : option Session -> ObjectID -> product_update -> SO Driver unit.
Variable tenants_FindOne : option Session -> string -> SO Driver tenant_document.
Variable stock_history_InsertOne : option Session -> history_document -> SO Driver unit.

(** A call to the driver with the session the repository was given. *)
Definition with_session {A : Type} (f : option Session -> SO Driver A)
  : Op (Backend Driver Session X) A :=
  on_ext (on_uow Driver Session (fun u => on_driver Driver Session (f (session u)) u)).

Definition mongoProductRepository_FindByID (productID : string)
  : Op (Backend Driver Session X) ptr :=
  fun w =>
    match primitive_ObjectIDFromHex productID with
    | (_, Some _) => (Fail ErrInvalidProductID, w)
    | (objID, None) =>
        match with_session (fun s => products_FindOne s objID) w with
        | (Fail err, w1) =>
            if is_ErrNoDocuments err
            then (Fail ErrProductNotFound, w1)
            else (Fail (database_error err), w1)
        | (Panic, w1) => (Panic, w1)
        | (Return result, w1) =>
            let stock := fst (NewStockQuantity (bson_current_stock result)) in
            new_product {| Product_ID := ObjectID_Hex (bson_id result);
                           Product_Name := bson_name result;
                           CurrentStock := stock;
                           LastUpdated := bson_last_updated result;
                           Product_TenantID := bson_tenant_id result |} w1
        end
    end.

Definition mongoProductRepository_Save (product : ptr)
  : Op (Backend Driver Session X) unit :=
  fun w =>
    match product_at w product with
    | None => (Panic, w)
    | Some p =>
        let objID := fst (primitive_ObjectIDFromHex (Product_ID p)) in
        let update := {| set_current_stock := Value (CurrentStock p);
                         set_last_updated := LastUpdated p;
                         inc_total_added := Value (CurrentStock p) |} in
        with_session (fun s => products_UpdateOne s objID update) w
    end.

Definition mongoTenantRepository_FindByID (tenantID : string)
  : Op (Backend Driver Session X) ptr :=
  fun w =>
    match with_session (fun s => tenants_FindOne s tenantID) w with
    | (Fail err, w1) =>
        if is_ErrNoDocuments err
        then (Fail ErrTenantNotFound, w1)
        else (Fail (database_error err), w1)
    | (Panic, w1) => (Panic, w1)
    | (Return result, w1) =>
        let maxStock := fst (NewStockQuantity (bson_max_stock result)) in
        new_tenant {| Tenant_ID := tenant_bson_id result;
                      Tenant_Name := tenant_bson_name result;
                      MaxStock := maxStock;
                      IsActive := bson_is_active result |} w1
    end.

Definition mongoStockHistoryRepository_Create (event : StockAddedEvent)
  : Op (Backend Driver Session X) unit :=
  let productID := fst (primitive_ObjectIDFromHex (sae_ProductID event)) in
  let document := {| bson_product_id := productID;
                     history_bson_tenant_id := sae_TenantID event;
                     bson_quantity := Value (sae_Quantity event);
                     bson_previous_stock := Value (sae_Previous event);
                     bson_new_stock := Value (sae_Current event);
                     bson_added_by := sae_AddedBy event;
                     bson_notes := sae_Notes event;
                     bson_created_at := sae_Timestamp event;
                     bson_operation := "stock_add" |} in
  with_session (fun s => stock_history_InsertOne s document).

(** [Products()], [Tenants()] and [StockHistory()]. [UpdateStock] reads
    the clock, which a collaborator of the use case has no part in; the
    use case never calls it, and it is left as given. *)
Definition mongoProductRepository
  (UpdateStock : string -> StockQuantity -> Op (Backend Driver Session X) unit)
  : ProductRepository (Backend Driver Session X) :=
  {| Products_FindByID_op := mongoProductRepository_FindByID;
     Products_Save_op := mongoProductRepository_Save;
     Products_UpdateStock_op := UpdateStock |}.

Definition mongoTenantRepository : TenantRepository (Backend Driver Session X) :=
  {| Tenants_FindByID_op := mongoTenantRepository_FindByID |}.

Definition mongoStockHistoryRepository : StockHistoryRepository (Backend Driver Session X) :=
  {| StockHistory_Create_op := mongoStockHistoryRepository_Create |}.

End MongoRepositories.

Arguments bson_id {ObjectID} _.
Arguments bson_name {ObjectID} _.
Arguments bson_current_stock {ObjectID} _.
Arguments bson_last_updated {ObjectID} _.
Arguments bson_tenant_id {ObjectID} _.
Arguments mkProductDocument {ObjectID} _ _ _ _ _.
Arguments bson_product_id {ObjectID} _.
Arguments history_bson_tenant_id {ObjectID} _.
Arguments bson_quantity {ObjectID} _.
Arguments bson_previous_stock {ObjectID} _.
Arguments bson_new_stock {ObjectID} _.
Arguments bson_added_by {ObjectID} _.
Arguments bson_notes {ObjectID} _.
Arguments bson_created_at {ObjectID} _.
Arguments bson_operation {ObjectID} _.
Arguments mkHistoryDocument {ObjectID} _ _ _ _ _ _ _ _ _.

(** ** The Mongo wiring on the bench

    A driver in memory: the sessions of the scripted driver, one tenant
    document and one product document, and a record of the writes. Hex
    strings stand for the ObjectIDs. *)

Module MongoBench.

Record MemoryDriver : Type := mkMemoryDriver {
  sessions : Bench.ScriptedDriver;
  stored_tenant : tenant_document;
  stored_product : product_document string;
  updates : list (string * product_update);
  inserted : list (history_document string)
}.

Definition on_sessions {A : Type} (f : SO Bench.ScriptedDriver A) : SO MemoryDriver A :=
  fun d =>
    let (r, s) := f (sessions d) in
    (r, mkMemoryDriver s (stored_tenant d) (stored_product d) (updates d) (inserted d)).

Definition ObjectIDFromHex (s : string) : string * option error :=
  if (String.length s =? 24)%nat
  then (s, None)
  else ("000000000000000000000000",
        Some (errors_New "the provided hex string is not a valid ObjectID")).

Definition Hex (objID : string) : string := objID.

Definition products_FindOne (s : option nat) (objID : string)
  : SO MemoryDriver (product_document string) :=
  fun d =>
    (if String.eqb (bson_id (stored_product d)) objID
     then Return (stored_product d)
     else Fail mongo_ErrNoDocuments, d).

Definition tenants_FindOne (s : option nat) (tenantID : string)
  : SO MemoryDriver tenant_document :=
  fun d =>
    (if String.eqb (tenant_bson_id (stored_tenant d)) tenantID
     then Return (stored_tenant d)
     else Fail mongo_ErrNoDocuments, d).

Definition products_UpdateOne (s : option nat) (objID : string) (update : product_update)
  : SO MemoryDriver unit :=
  fun d =>
    (Return tt,
     mkMemoryDriver (sessions d) (stored_tenant d) (stored_product d)
                    (updates d ++ [(objID, update)]) (inserted d)).

Definition stock_history_InsertOne (s : option nat) (document : history_document string)
  : SO MemoryDriver unit :=
  fun d =>
    (Return tt,
     mkMemoryDriver (sessions d) (stored_tenant d) (stored_product d)
                    (updates d) (inserted d ++ [document])).

Definition State : Type := Backend MemoryDriver nat unit.

Definition unit_of_work : UnitOfWork State :=
  NewMongoUnitOfWork MemoryDriver nat
    (on_sessions Bench.StartSession)
    (fun s => on_sessions (Bench.StartTransaction s))
    (fun s => on_sessions (Bench.CommitTransaction s))
    (fun s => on_sessions (Bench.AbortTransaction s))
    (fun s d => mkMemoryDriver (Bench.EndSession s (sessions d)) (stored_tenant d)
                               (stored_product d) (updates d) (inserted d))
    (mongoProductRepository MemoryDriver nat string unit ObjectIDFromHex Hex
       products_FindOne products_UpdateOne (fun _ _ w => (Return tt, w)))
    (mongoTenantRepository MemoryDriver nat unit tenants_FindOne)
    (mongoStockHistoryRepository MemoryDriver nat string unit ObjectIDFromHex
       stock_history_InsertOne).

(** No notification is sent and no event is published. *)
Definition usecase : addStockUseCase State :=
  NewAddStockUseCase State unit_of_work
    (mkNotificationService State (fun _ w => (Return tt, w)) (fun _ _ w => (Return tt, w)))
    None.

(** Tenant "t1" and the product of ObjectID 65f0...01, nothing loaded yet. *)
Definition bench (max_stock current_stock : Z) : World State :=
  {| products := ∅;
     tenants := ∅;
     ext := {| uow_state :=
                 {| session := None;
                    driver :=
                      mkMemoryDriver
                        (Bench.mkScriptedDriver None None None None [])
                        (mkTenantDocument "t1" "Tenant" max_stock true)
                        (mkProductDocument "65f000000000000000000001" "Widget"
                                           current_stock 0 "t1")
                        [] [] |};
               collections := tt |} |}.

Definition request (quantity : Z) : AddStockRequest :=
  {| ProductID := "65f000000000000000000001"; Quantity := quantity; TenantID := "t1";
     Notes := "restock"; AddedBy := "u1" |}.

End MongoBench.

(** * Properties *)

(** ** Machine arithmetic *)

Lemma wrap_id (z : Z) : is_int z -> wrap z = z.
Proof.
  unfold is_int, int_min, int_max, wrap. intros Hz.
  rewrite Z.mod_small by lia. lia.
Qed.

Lemma int_add_exact (a b : Z) : is_int (a + b) -> int_add a b = a + b.
Proof. apply wrap_id. Qed.

Lemma wrap_is_int (z : Z) : is_int (wrap z).
Proof.
  unfold is_int, int_min, int_max, wrap.
  pose proof (Z.mod_pos_bound (z + 2 ^ 63) (2 ^ 64)). lia.
Qed.

(** ** The value object *)

Lemma NewStockQuantity_negative (q : Z) :
  q < 0 ->
  NewStockQuantity q = (StockQuantity_zero, Some (errors_New "quantity cannot be negative")).
Proof.
  intros Hq. unfold NewStockQuantity.
  destruct (Z.ltb_spec q 0); [reflexivity | lia].
Qed.

Lemma NewStockQuantity_nonnegative (q : Z) :
  0 <= q -> NewStockQuantity q = ({| value := q |}, None).
Proof.
  intros Hq. unfold NewStockQuantity.
  destruct (Z.ltb_spec q 0); [lia | reflexivity].
Qed.

Lemma Exceeds_gt (q limit : StockQuantity) :
  Exceeds q limit = true <-> Value q > Value limit.
Proof.
  unfold Exceeds, Value. rewrite Z.ltb_lt. lia.
Qed.

(** C9: [NewStockQuantity n] fails exactly when [n < 0] and otherwise
    holds [n]; the value of [Add a b] is Go's sum of the two values, which
    is their sum whenever that fits an [int] (the bounded domain the
    contract assumes); [Exceeds] is the strict comparison of the values, so
    a quantity equal to the limit does not exceed it. *)
Theorem StockQuantity_value_semantics (n : Z) (a b limit : StockQuantity) :
  (snd (NewStockQuantity n) <> None <-> n < 0) /\
  (~ n < 0 -> NewStockQuantity n = ({| value := n |}, None) /\
              Value (fst (NewStockQuantity n)) = n) /\
  Value (Add a b) = int_add (Value a) (Value b) /\
  (is_int (Value a + Value b) -> Value (Add a b) = Value a + Value b) /\
  (Exceeds a limit = true <-> Value a > Value limit) /\
  (Value a = Value limit -> Exceeds a limit = false).
Proof.
  repeat split.
  - intros Herr. destruct (Z.lt_ge_cases n 0) as [Hn | Hn]; [exact Hn |].
    rewrite NewStockQuantity_nonnegative in Herr by exact Hn. now elim Herr.
  - intros Hn. now rewrite NewStockQuantity_negative.
  - apply NewStockQuantity_nonnegative. lia.
  - rewrite NewStockQuantity_nonnegative by lia. reflexivity.
  - intros Hfit. unfold Add, Value. simpl. now apply int_add_exact.
  - apply Exceeds_gt.
  - apply Exceeds_gt.
  - intros Heq. unfold Exceeds, Value in *. apply Z.ltb_ge. lia.
Qed.

Lemma StockQuantity_value_semantics_witness :
  NewStockQuantity 15 = ({| value := 15 |}, None) /\
  Value (Add {| value := 10 |} {| value := 15 |}) = 25 /\
  Exceeds {| value := 25 |} {| value := 25 |} = false.
Proof.
  pose proof (StockQuantity_value_semantics 15 {| value := 10 |} {| value := 15 |}
                {| value := 100 |}) as (_ & Hnew & _ & Hadd & _ & _).
  pose proof (StockQuantity_value_semantics 15 {| value := 25 |} {| value := 15 |}
                {| value := 25 |}) as (_ & _ & _ & _ & _ & Heq).
  split; [| split].
  - apply Hnew. lia.
  - apply Hadd. vm_compute. split; discriminate.
  - apply Heq. reflexivity.
Defined.

(** ** The orchestrator *)

Ltac unfold_run :=
  cbv beta iota zeta delta
    [Execute Execute_in_transaction bind ret check checked call call_at go defer
     discard_error time_Now deref_product deref_tenant store_product
     Product_AddStock Tenant_CanReceiveStock negb
     start world trace goroutines ticks fst snd status_of];
  cbn [app].

(** Follow the run along the branches that the equations at hand select. *)
Ltac follow_run :=
  unfold_run;
  repeat match goal with
         | H : ?l = _ |- context [?l] => rewrite H; unfold_run
         end.

Section ExecuteProperties.

Variable S : Type.
Variable wallclock : nat -> Time.
Variable uc : addStockUseCase S.

Lemma validateRequest_ok (req : AddStockRequest) :
  validateRequest req = None ->
  ProductID req <> EmptyString /\ TenantID req <> EmptyString /\ 0 < Quantity req.
Proof.
  unfold validateRequest.
  destruct (String.eqb_spec (ProductID req) EmptyString); [discriminate |].
  destruct (String.eqb_spec (TenantID req) EmptyString); [discriminate |].
  destruct (Z.leb_spec (Quantity req) 0); [discriminate |].
  intros _. repeat split; assumption.
Qed.

Lemma quantity_accepted (req : AddStockRequest) :
  validateRequest req = None ->
  NewStockQuantity (Quantity req) = ({| value := Quantity req |}, None).
Proof.
  intros Hv. apply validateRequest_ok in Hv as (_ & _ & Hq).
  apply NewStockQuantity_nonnegative. lia.
Qed.

(** C5, as the code has it: a request with [q <= 0] is turned down by
    the validation of step 1 with the error of the first check that
    fails, which is [ErrInvalidQuantity] when both identifiers are
    present; the run ends as it started: no call through any port (no
    [Begin], no load), nothing written. *)
Theorem nonpositive_quantity_rejected (req : AddStockRequest) (w : World S) :
  Quantity req <= 0 ->
  Execute wallclock uc req (start w) =
    (Fail (if String.eqb (ProductID req) EmptyString then ErrInvalidProductID
           else if String.eqb (TenantID req) EmptyString then ErrTenantNotFound
           else ErrInvalidQuantity),
     start w) /\
  (ProductID req <> EmptyString -> TenantID req <> EmptyString ->
   Execute wallclock uc req (start w) = (Fail ErrInvalidQuantity, start w)).
Proof.
  intros Hq.
  assert (Hv : validateRequest req =
               Some (if String.eqb (ProductID req) EmptyString then ErrInvalidProductID
                     else if String.eqb (TenantID req) EmptyString then ErrTenantNotFound
                     else ErrInvalidQuantity)).
  { unfold validateRequest.
    destruct (String.eqb (ProductID req) EmptyString); [reflexivity |].
    destruct (String.eqb (TenantID req) EmptyString); [reflexivity |].
    destruct (Z.leb_spec (Quantity req) 0); [reflexivity | lia]. }
  split.
  - unfold Execute, bind, check. rewrite Hv. reflexivity.
  - intros Hp Ht. unfold Execute, bind, check. rewrite Hv.
    destruct (String.eqb_spec (ProductID req) EmptyString); [contradiction |].
    destruct (String.eqb_spec (TenantID req) EmptyString); [contradiction |].
    reflexivity.
Qed.

(** C7: when the tenant that is loaded is inactive, [Execute] fails with
    [ErrTenantInactive] after exactly three calls: [Begin], the tenant
    lookup and the deferred [Rollback]. The product repository and the
    stock history are never called, and the world the run leaves is the
    one [Rollback] returns from the world the tenant lookup left. *)
Theorem inactive_tenant_rejected (req : AddStockRequest) (w w1 w2 w3 : World S)
  (tenant : ptr) (t : Tenant) (rolled : outcome unit) :
  validateRequest req = None ->
  Begin (uow uc) w = (Return tt, w1) ->
  Tenants_FindByID_op (Tenants (uow uc)) (TenantID req) w1 = (Return tenant, w2) ->
  tenant_at w2 tenant = Some t ->
  IsActive t = false ->
  Rollback (uow uc) w2 = (rolled, w3) ->
  rolled <> Panic ->
  Execute wallclock uc req (start w) =
    (Fail ErrTenantInactive,
     {| world := w3;
        trace := [(uow_Begin, returned_nil);
                  (Tenants_FindByID (TenantID req), returned_nil);
                  (uow_Rollback, status_of rolled)];
        goroutines := [];
        ticks := 0 |}).
Proof.
  intros Hv Hbegin Hfind Ht Hinactive Hroll Hnopanic.
  follow_run.
  destruct rolled; [reflexivity | reflexivity | contradiction].
Qed.

(** C2: when the product's stock plus the quantity exceeds the tenant's
    ceiling, [Execute] fails with [ErrStockExceedsLimit] carrying the
    current stock, the quantity, their sum and the ceiling. The calls made
    are [Begin], the two lookups and the deferred [Rollback]: neither
    [Save] nor the audit [Create] is called, and the orchestrator writes
    nothing: the steps under the deferred rollback end in the world
    exactly as the product lookup left it, the product included, and that
    is the world [Rollback] receives. *)
Theorem stock_limit_enforced (req : AddStockRequest) (w w1 w2 w3 w4 : World S)
  (tenant product : ptr) (t2 t : Tenant) (p : Product) (rolled : outcome unit) :
  validateRequest req = None ->
  Begin (uow uc) w = (Return tt, w1) ->
  Tenants_FindByID_op (Tenants (uow uc)) (TenantID req) w1 = (Return tenant, w2) ->
  tenant_at w2 tenant = Some t2 ->
  IsActive t2 = true ->
  Products_FindByID_op (Products (uow uc)) (ProductID req) w2 = (Return product, w3) ->
  product_at w3 product = Some p ->
  tenant_at w3 tenant = Some t ->
  int_add (Value (CurrentStock p)) (Quantity req) > Value (MaxStock t) ->
  Rollback (uow uc) w3 = (rolled, w4) ->
  rolled <> Panic ->
  Execute wallclock uc req (start w) =
    (Fail (ErrStockExceedsLimit (Value (CurrentStock p)) (Quantity req)
             (int_add (Value (CurrentStock p)) (Quantity req)) (Value (MaxStock t))),
     {| world := w4;
        trace := [(uow_Begin, returned_nil);
                  (Tenants_FindByID (TenantID req), returned_nil);
                  (Products_FindByID (ProductID req), returned_nil);
                  (uow_Rollback, status_of rolled)];
        goroutines := [];
        ticks := 1 |}) /\
  Execute_in_transaction wallclock uc req
    {| world := w1; trace := [(uow_Begin, returned_nil)]; goroutines := []; ticks := 0 |} =
    (Fail (ErrStockExceedsLimit (Value (CurrentStock p)) (Quantity req)
             (int_add (Value (CurrentStock p)) (Quantity req)) (Value (MaxStock t))),
     {| world := w3;
        trace := [(uow_Begin, returned_nil);
                  (Tenants_FindByID (TenantID req), returned_nil);
                  (Products_FindByID (ProductID req), returned_nil)];
        goroutines := [];
        ticks := 1 |}).
Proof.
  intros Hv Hbegin Hfind Ht2 Hactive Hload Hp Ht Hover Hroll Hnopanic.
  assert (Hexceeds : Exceeds (Add (CurrentStock p) {| value := Quantity req |}) (MaxStock t)
                     = true).
  { apply Exceeds_gt. exact Hover. }
  pose proof (quantity_accepted req Hv) as Hquantity.
  split.
  - follow_run. destruct rolled; [reflexivity | reflexivity | contradiction].
  - follow_run. reflexivity.
Qed.

End ExecuteProperties.

(** ** Every run, path by path *)

Lemma product_at_store {S : Type} (m : gmap loc Product) (t : gmap loc Tenant) (e : S)
  (l : loc) (v : Product) :
  product_at {| products := <[l := v]> m; tenants := t; ext := e |} (Some l) = Some v.
Proof. cbn. apply lookup_insert_eq. Qed.

Lemma tenant_at_store {S : Type} (m : gmap loc Product) (w : World S) (t : ptr) :
  tenant_at {| products := m; tenants := tenants w; ext := ext w |} t = tenant_at w t.
Proof. reflexivity. Qed.

Ltac innermost x :=
  lazymatch x with
  | context [match ?y with _ => _ end] => innermost y
  | _ => x
  end.

Ltac unfold_run_in H :=
  cbv beta iota zeta delta
    [Execute Execute_in_transaction bind ret check checked call call_at go defer
     discard_error time_Now deref_product deref_tenant store_product
     Product_AddStock Tenant_CanReceiveStock negb
     start world trace goroutines ticks fst snd status_of] in H;
  cbn [app products tenants ext] in H;
  rewrite ?product_at_store, ?tenant_at_store in H.

(** Split the equation of a run into one case per path through the code. *)
Ltac paths H :=
  unfold_run_in H;
  repeat (match type of H with
          | context [match ?x with _ => _ end] =>
              let y := innermost x in
              first [ match goal with E : y = _ |- _ => rewrite E in H end
                    | destruct y eqn:? ]
          end;
          unfold_run_in H).

Section EveryRun.

Variable S : Type.
Variable wallclock : nat -> Time.
Variable uc : addStockUseCase S.

(** Once [Begin] has succeeded, the calls of a run are bracketed by
    [Begin] and the deferred [Rollback], which is the last thing to touch
    the world; when a response is returned the call just before it is the
    [Commit] that succeeded, on whose world [Rollback] then runs. *)
Lemma Execute_brackets (req : AddStockRequest) (w w1 : World S)
  (r : outcome AddStockResponse) (st : St S) :
  validateRequest req = None ->
  Begin (uow uc) w = (Return tt, w1) ->
  Execute wallclock uc req (start w) = (r, st) ->
  exists (tr : list Event) (rolled : outcome unit) (w_pre : World S),
    Rollback (uow uc) w_pre = (rolled, world st) /\
    trace st = (uow_Begin, returned_nil) :: tr ++ [(uow_Rollback, status_of rolled)] /\
    (rolled = Panic -> r = Panic) /\
    (forall resp, r = Return resp ->
       exists (tr' : list Event) (w_c : World S),
         Commit (uow uc) w_c = (Return tt, w_pre) /\
         tr = tr' ++ [(uow_Commit, returned_nil)]).
Proof.
  intros Hv Hbegin Hrun.
  paths Hrun; try congruence;
    injection Hrun as <- <-; cbn [world trace];
    match goal with
    | Hroll : Rollback (uow uc) ?w_pre = (?rolled, _)
      |- context [(uow_Begin, returned_nil) :: ?l] =>
        exists (removelast l), rolled, w_pre;
        split; [exact Hroll |];
        split; [reflexivity |];
        split; [intros; congruence |];
        intros resp Hresp; try discriminate Hresp;
        match goal with
        | Hcommit : Commit (uow uc) ?w_c = (Return _, w_pre) |- _ =>
            exists (removelast (removelast l)), w_c;
            split; [repeat match goal with u : unit |- _ => destruct u end; exact Hcommit | reflexivity]
        end
    end.
Qed.

(** C4: once [Begin] has succeeded, a run that does not end with a
    response (an error returned by any later step, or a panic) ends with
    the call of [Rollback]: it is the last call recorded, after [Begin],
    and the world the run leaves is the one [Rollback] returned. *)
Theorem rollback_on_every_failed_exit (req : AddStockRequest) (w w1 : World S)
  (r : outcome AddStockResponse) (st : St S) :
  validateRequest req = None ->
  Begin (uow uc) w = (Return tt, w1) ->
  Execute wallclock uc req (start w) = (r, st) ->
  (forall resp, r <> Return resp) ->
  exists (tr : list Event) (rolled : outcome unit) (w_pre : World S),
    Rollback (uow uc) w_pre = (rolled, world st) /\
    trace st = (uow_Begin, returned_nil) :: tr ++ [(uow_Rollback, status_of rolled)].
Proof.
  intros Hv Hbegin Hrun _.
  destruct (Execute_brackets req w w1 r st Hv Hbegin Hrun)
    as (tr & rolled & w_pre & Hroll & Htrace & _).
  exists tr, rolled, w_pre. split; assumption.
Qed.

End EveryRun.

(** ** The Mongo unit of work *)

Section MongoProperties.

Variable Driver : Type.
Variable Session : Type.
Variable client_StartSession : SO Driver Session.
Variable session_StartTransaction : Session -> SO Driver unit.
Variable session_CommitTransaction : Session -> SO Driver unit.
Variable session_AbortTransaction : Session -> SO Driver unit.
Variable session_EndSession : Session -> Driver -> Driver.

Local Abbreviation Commit_ := (mongo_Commit Driver Session session_CommitTransaction session_EndSession).
Local Abbreviation Rollback_ := (mongo_Rollback Driver Session session_AbortTransaction session_EndSession).

(** A commit that returns nil leaves no session behind. *)
Lemma mongo_Commit_clears_session (u u' : mongoUnitOfWork Driver Session) :
  Commit_ u = (Return tt, u') -> session u' = None.
Proof.
  unfold mongo_Commit, bind, on_driver, EndSession, set_session.
  destruct (session u) as [s |] eqn:Hs.
  - destruct (session_CommitTransaction s (driver u)) as [[[] | e |] d];
      intros Heq; inversion Heq; reflexivity.
  - intros Heq. inversion Heq. subst. exact Hs.
Qed.

(** Without a session, [Rollback] returns nil and touches nothing: the
    driver is not called. *)
Lemma mongo_Rollback_without_session (u : mongoUnitOfWork Driver Session) :
  session u = None -> Rollback_ u = (Return tt, u).
Proof. intros Hs. unfold mongo_Rollback. now rewrite Hs. Qed.

Lemma mongo_Rollback_after_Commit (u u' : mongoUnitOfWork Driver Session) :
  Commit_ u = (Return tt, u') -> Rollback_ u' = (Return tt, u').
Proof.
  intros Hc. apply mongo_Rollback_without_session.
  exact (mongo_Commit_clears_session u u' Hc).
Qed.

End MongoProperties.

(** ** Order of the side effects *)

Lemma notifications_in_order_sound (tr : list Event) :
  forall saved created committing : bool,
    notifications_in_order saved created committing tr = true ->
    forall (pre post : list Event) (c : Call) (s : status),
      tr = pre ++ (c, s) :: post ->
      is_notification c = true ->
      (saved = true \/ exists p v, In (Products_Save p v, returned_nil) pre) /\
      (created = true \/ exists ev, In (StockHistory_Create ev, returned_nil) pre) /\
      committing = false /\
      (forall s', ~ In (uow_Commit, s') pre).
Proof.
  induction tr as [| [c0 s0] rest IH]; intros saved created committing Hmon pre post c s Heq Hc.
  - destruct pre; discriminate Heq.
  - destruct pre as [| e pre].
    + injection Heq as -> -> _. cbn in Hmon.
      destruct c; try discriminate Hc;
        apply andb_prop in Hmon as [Hmon _];
        apply andb_prop in Hmon as [Hmon Hcommitting];
        apply andb_prop in Hmon as [Hsaved Hcreated];
        apply negb_true_iff in Hcommitting;
        (repeat split; [left; assumption | left; assumption | assumption | intros s' []]).
    + injection Heq as <- Hrest.
      assert (Hstep : forall saved' created' committing',
                 notifications_in_order saved' created' committing' rest = true ->
                 (saved' = true -> saved = true \/ (exists p v, c0 = Products_Save p v /\ s0 = returned_nil)) ->
                 (created' = true -> created = true \/ (exists ev, c0 = StockHistory_Create ev /\ s0 = returned_nil)) ->
                 (committing' = false -> committing = false /\ c0 <> uow_Commit) ->
                 (saved = true \/ exists p v, In (Products_Save p v, returned_nil) ((c0, s0) :: pre)) /\
                 (created = true \/ exists ev, In (StockHistory_Create ev, returned_nil) ((c0, s0) :: pre)) /\
                 committing = false /\
                 (forall s', ~ In (uow_Commit, s') ((c0, s0) :: pre))).
      { intros saved' created' committing' Hmon' Hs Hcr Hcm.
        destruct (IH saved' created' committing' Hmon' pre post c s Hrest Hc)
          as (Hsv & Hcv & Hcmv & Hno).
        destruct (Hcm Hcmv) as [Hcommitting Hne].
        repeat split.
        - destruct Hsv as [Hsv | (p & v & Hin)].
          + destruct (Hs Hsv) as [? | (p & v & -> & ->)]; [left; assumption |].
            right. exists p, v. left. reflexivity.
          + right. exists p, v. right. exact Hin.
        - destruct Hcv as [Hcv | (ev & Hin)].
          + destruct (Hcr Hcv) as [? | (ev & -> & ->)]; [left; assumption |].
            right. exists ev. left. reflexivity.
          + right. exists ev. right. exact Hin.
        - exact Hcommitting.
        - intros s' [Hhead | Htail].
          + apply Hne. congruence.
          + exact (Hno s' Htail). }
      cbn in Hmon.
      destruct c0;
        try (apply andb_prop in Hmon as [_ Hmon]);
        (eapply Hstep; [exact Hmon | | | ]);
        try (intros H; left; exact H);
        try (intros H; split; [exact H | discriminate]);
        try discriminate.
      * intros H. apply orb_prop in H as [H | H]; [left; exact H |].
        right. destruct s0; try discriminate H. eauto.
      * intros H. apply orb_prop in H as [H | H]; [left; exact H |].
        right. destruct s0; try discriminate H. eauto.
Qed.

Section SideEffects.

Variable S : Type.
Variable wallclock : nat -> Time.
Variable uc : addStockUseCase S.

Lemma Execute_notifications_in_order (req : AddStockRequest) (w : World S)
  (r : outcome AddStockResponse) (st : St S) :
  Execute wallclock uc req (start w) = (r, st) ->
  notifications_in_order false false false (trace st) = true.
Proof.
  intros Hrun. paths Hrun; injection Hrun as <- <-; reflexivity.
Qed.

(** C3, as the code has it: an alert goroutine is started and the event
    is published only after the product [Save] and the audit [Create]
    have both returned nil, and before [Commit] is called. *)
Theorem notifications_follow_persistence (req : AddStockRequest) (w : World S)
  (r : outcome AddStockResponse) (st : St S)
  (pre post : list Event) (c : Call) (s : status) :
  Execute wallclock uc req (start w) = (r, st) ->
  trace st = pre ++ (c, s) :: post ->
  is_notification c = true ->
  (exists p v, In (Products_Save p v, returned_nil) pre) /\
  (exists ev, In (StockHistory_Create ev, returned_nil) pre) /\
  (forall s', ~ In (uow_Commit, s') pre).
Proof.
  intros Hrun Htrace Hc.
  pose proof (Execute_notifications_in_order req w r st Hrun) as Hmon.
  destruct (notifications_in_order_sound _ _ _ _ Hmon pre post c s Htrace Hc)
    as ([Hs | Hs] & [Hcr | Hcr] & _ & Hno); try discriminate.
  repeat split; assumption.
Qed.

End SideEffects.

(** ** The response and what was saved *)

Section Response.

Variable S : Type.
Variable wallclock : nat -> Time.
Variable uc : addStockUseCase S.

(** C1: a response, when one is returned, carries as [NewStock] Go's sum
    of [PreviousStock] and [Added], which is their sum whenever that fits
    an [int], and [NewStock] is the stock of the product that [Save] was
    handed during the run. The product is the run's own: the collaborators
    called after the stock addition leave it alone. *)
Theorem response_matches_saved_stock (req : AddStockRequest) (w : World S)
  (resp : AddStockResponse) (st : St S) :
  product_left_alone uc ->
  Execute wallclock uc req (start w) = (Return resp, st) ->
  NewStock resp = int_add (PreviousStock resp) (Added resp) /\
  (is_int (PreviousStock resp + Added resp) ->
   NewStock resp = PreviousStock resp + Added resp) /\
  Added resp = Quantity req /\
  exists (product : ptr) (saved : Product),
    In (Products_Save product (Some saved), returned_nil) (trace st) /\
    Value (CurrentStock saved) = NewStock resp.
Proof.
  intros Halone Hrun.
  assert (Hsum : NewStock resp = int_add (PreviousStock resp) (Added resp) /\
                 Added resp = Quantity req /\
                 exists (product : ptr) (saved : Product),
                   In (Products_Save product (Some saved), returned_nil) (trace st) /\
                   Value (CurrentStock saved) = NewStock resp).
  { paths Hrun; try discriminate Hrun; injection Hrun as <- <-;
      cbn [NewStock PreviousStock Added trace];
      match goal with
      | Hq : NewStockQuantity (Quantity req) = (_, None) |- _ =>
          unfold NewStockQuantity in Hq;
          destruct (Quantity req <? 0); [discriminate Hq |];
          injection Hq as <-
      end;
      match goal with
      | _ : product_at _ (Some ?l) = _ |- _ =>
          destruct (Halone (Some l)) as (Hsave & Hcreate & Hpublish & Hcommit)
      end;
      repeat match goal with
        | Hop : Products_Save_op _ _ ?w0 = (_, ?w'), Hd : product_at ?w' _ = _ |- _ =>
            rewrite (Hsave _ _ _ Hop) in Hd
        | Hop : StockHistory_Create_op _ _ ?w0 = (_, ?w'), Hd : product_at ?w' _ = _ |- _ =>
            rewrite (Hcreate _ _ _ _ Hop) in Hd
        | Hpub : eventPublisher uc = Some ?pub,
          Hop : Publish ?pub _ ?w0 = (_, ?w'), Hd : product_at ?w' _ = _ |- _ =>
            rewrite (Hpublish _ _ Hpub _ _ _ Hop) in Hd
        | Hop : Commit _ ?w0 = (_, ?w'), Hd : product_at ?w' _ = _ |- _ =>
            rewrite (Hcommit _ _ _ Hop) in Hd
        | Hd : product_at (mkWorld _ _ _) (Some _) = _ |- _ =>
            rewrite product_at_store in Hd
        | Hd : Some _ = Some _ |- _ => injection Hd as <-
        end;
      (split; [reflexivity |]);
      (split; [reflexivity |]);
      (eexists _, _; split;
       [ cbn [In]; repeat (first [left; reflexivity | right]) | reflexivity ]). }
  destruct Hsum as (Hsum & Hadded & Hsaved).
  repeat split; try assumption.
  intros Hfit. rewrite Hsum. apply int_add_exact. exact Hfit.
Qed.

End Response.

(** ** Rollback after commit *)

(** C10: once [Begin] has succeeded, [Rollback] is called last on every
    run, the successful one included: there the call before it is the
    [Commit] that returned nil, and [Rollback] runs on the world that
    [Commit] left. That this does no harm is the unit of work's doing:
    for the Mongo unit of work a [Rollback] after a [Commit] that returned
    nil returns nil and changes nothing. *)
Theorem rollback_runs_after_commit :
  (forall (S : Type) (wallclock : nat -> Time) (uc : addStockUseCase S)
          (req : AddStockRequest) (w w1 : World S)
          (r : outcome AddStockResponse) (st : St S),
      validateRequest req = None ->
      Begin (uow uc) w = (Return tt, w1) ->
      Execute wallclock uc req (start w) = (r, st) ->
      exists (tr : list Event) (rolled : outcome unit) (w_pre : World S),
        Rollback (uow uc) w_pre = (rolled, world st) /\
        trace st = (uow_Begin, returned_nil) :: tr ++ [(uow_Rollback, status_of rolled)] /\
        forall resp, r = Return resp ->
          rolled <> Panic /\
          exists (tr' : list Event) (w_c : World S),
            Commit (uow uc) w_c = (Return tt, w_pre) /\
            tr = tr' ++ [(uow_Commit, returned_nil)]) /\
  (forall (Driver Session X : Type)
          (client_StartSession : SO Driver Session)
          (session_StartTransaction session_CommitTransaction
             session_AbortTransaction : Session -> SO Driver unit)
          (session_EndSession : Session -> Driver -> Driver)
          (P : ProductRepository (Backend Driver Session X))
          (T : TenantRepository (Backend Driver Session X))
          (H : StockHistoryRepository (Backend Driver Session X))
          (w w' : World (Backend Driver Session X)),
      let u := NewMongoUnitOfWork Driver Session client_StartSession
                 session_StartTransaction session_CommitTransaction
                 session_AbortTransaction session_EndSession P T H in
      Commit u w = (Return tt, w') ->
      Rollback u w' = (Return tt, w')).
Proof.
  split.
  - intros S wallclock uc req w w1 r st Hv Hbegin Hrun.
    destruct (Execute_brackets S wallclock uc req w w1 r st Hv Hbegin Hrun)
      as (tr & rolled & w_pre & Hroll & Htrace & Hpanic & Hcommit).
    exists tr, rolled, w_pre.
    split; [exact Hroll |]. split; [exact Htrace |].
    intros resp Hresp. split.
    + intros Hrolled. specialize (Hpanic Hrolled). congruence.
    + exact (Hcommit resp Hresp).
  - intros Driver Session X start_session start_txn commit abort end_session P T H w w' u.
    subst u. cbn [Commit Rollback NewMongoUnitOfWork].
    unfold on_ext, on_uow.
    destruct (mongo_Commit Driver Session commit end_session (uow_state (ext w)))
      as [rc uc'] eqn:Hc.
    intros Heq. injection Heq as -> <-. cbn [ext uow_state products tenants collections].
    rewrite (mongo_Rollback_after_Commit Driver Session commit abort end_session _ _ Hc).
    reflexivity.
Qed.

(** ** The redundant construction of the quantity *)

Section Construction.

Variable S : Type.
Variable wallclock : nat -> Time.
Variable uc : addStockUseCase S.

(** C8, as the code has it: the construction rejects the negative
    quantities and only those. Reached with [q < 0], step 6 of the
    orchestrator fails with the constructor's error right after the two
    lookups, before the product is read; [q = 0] is accepted and yields
    the zero quantity. *)
Theorem negative_quantity_fails_construction (req : AddStockRequest) (st : St S)
  (w2 w3 : World S) (tenant product : ptr) (t : Tenant) :
  Quantity req < 0 ->
  Tenants_FindByID_op (Tenants (uow uc)) (TenantID req) (world st) = (Return tenant, w2) ->
  tenant_at w2 tenant = Some t ->
  IsActive t = true ->
  Products_FindByID_op (Products (uow uc)) (ProductID req) w2 = (Return product, w3) ->
  NewStockQuantity (Quantity req) =
    (StockQuantity_zero, Some (errors_New "quantity cannot be negative")) /\
  Execute_in_transaction wallclock uc req st =
    (Fail (errors_New "quantity cannot be negative"),
     {| world := w3;
        trace := trace st ++ [(Tenants_FindByID (TenantID req), returned_nil);
                              (Products_FindByID (ProductID req), returned_nil)];
        goroutines := goroutines st;
        ticks := ticks st |}) /\
  NewStockQuantity 0 = ({| value := 0 |}, None).
Proof.
  intros Hq Hfind Ht Hactive Hload.
  pose proof (NewStockQuantity_negative (Quantity req) Hq) as Hnew.
  split; [exact Hnew |]. split; [| reflexivity].
  destruct st as [w0 tr0 gs0 n0]. cbn [world] in Hfind.
  follow_run. rewrite <- app_assoc. reflexivity.
Qed.

End Construction.

(** ** Utilization *)

(** C6, as the code has it: the quotient is taken first and then scaled,
    [float64(currentStock) / float64(maxLimit) * 100], each step rounded
    to binary64; a zero limit gives 0 without any division; 25 out of 100
    is exactly 25.0 and 85 out of 100 exactly 85.0. *)
Theorem utilization_percentage (p : Product) (maxLimit : StockQuantity) :
  (Value maxLimit = 0 -> Product_UtilizationPercentage p maxLimit = 0%float) /\
  (Value maxLimit <> 0 ->
   Product_UtilizationPercentage p maxLimit =
     PrimFloat.mul (PrimFloat.div (float64_of_int (Value (CurrentStock p)))
                                  (float64_of_int (Value maxLimit)))
                   100%float) /\
  (Value maxLimit = 100 ->
   (Value (CurrentStock p) = 25 -> Product_UtilizationPercentage p maxLimit = 25%float) /\
   (Value (CurrentStock p) = 85 -> Product_UtilizationPercentage p maxLimit = 85%float)).
Proof.
  unfold Product_UtilizationPercentage. split; [| split].
  - intros ->. reflexivity.
  - intros Hne. destruct (Z.eqb_spec (Value maxLimit) 0); [contradiction | reflexivity].
  - intros ->. split; intros ->; reflexivity.
Qed.

Lemma utilization_percentage_witness :
  Product_UtilizationPercentage (mkProduct "p1" "Widget" {| value := 25 |} 0 "t1")
    {| value := 100 |} = 25%float /\
  Product_UtilizationPercentage (mkProduct "p1" "Widget" {| value := 25 |} 0 "t1")
    {| value := 0 |} = 0%float.
Proof.
  split.
  - apply (utilization_percentage (mkProduct "p1" "Widget" {| value := 25 |} 0 "t1")
             {| value := 100 |}); reflexivity.
  - apply (utilization_percentage (mkProduct "p1" "Widget" {| value := 25 |} 0 "t1")
             {| value := 0 |}); reflexivity.
Defined.

(** C6 against the code: for 7 units under a limit of 25 the specified
    [100 * 7 / 25] is exactly 28, while the code's [7 / 25 * 100] rounds
    the quotient first and lands one unit in the last place above. *)
Lemma utilization_differs_from_specified :
  100 * 7 = 28 * 25 /\
  utilization_as_specified 7 25 = 28%float /\
  Product_UtilizationPercentage (mkProduct "p1" "Widget" {| value := 7 |} 0 "t1")
    {| value := 25 |} = 0x1.c000000000001p+4%float /\
  Product_UtilizationPercentage (mkProduct "p1" "Widget" {| value := 7 |} 0 "t1")
    {| value := 25 |} <> utilization_as_specified 7 25.
Proof.
  repeat split.
  vm_compute. intros Heq. discriminate Heq.
Qed.

(** ** The properties on the test bench *)

(** The scenarios of the use-case tests, replayed on the model. *)

Example test_Execute_Success :
  let r := Bench.run true (Bench.request 15) (Bench.bench 100 10 true None) in
  fst r = Return {| resp_ProductID := "p1"; resp_ProductName := "Widget";
                    PreviousStock := 10; NewStock := 25; Added := 15;
                    MaxAllowed := 100; Utilization := 25%float |} /\
  CurrentStock <$> products (world (snd r)) !! 0%nat = Some {| value := 25 |} /\
  map (fun e => (Value (sae_Previous e), Value (sae_Current e), sae_AddedBy e, sae_Notes e))
      (mock_Events (Bench.StockHistRepo (Bench.mocks_of (world (snd r)))))
    = [(10, 25, "u1", "restock")] /\
  length (mock_Published (Bench.Publisher (Bench.mocks_of (world (snd r))))) = 1%nat /\
  goroutines (snd r) = [].
Proof. repeat split; vm_compute; reflexivity. Qed.

Example test_Execute_HighUtilizationSendsAlert :
  let r := Bench.run false (Bench.request 10) (Bench.bench 100 75 true None) in
  map (fun a => (slae_ProductID a, slae_Utilization a))
      (mock_StockAlerts (Bench.Notifier (Bench.mocks_of (Bench.drain (snd r)))))
    = [("p1", 85%float)] /\
  mock_LowStockCalls (Bench.Notifier (Bench.mocks_of (Bench.drain (snd r)))) = 0.
Proof. split; vm_compute; reflexivity. Qed.

Example test_Execute_LowStockSendsAlert :
  let r := Bench.run false (Bench.request 2) (Bench.bench 100 5 true None) in
  NewStock <$> (match fst r with Return resp => Some resp | _ => None end) = Some 7 /\
  mock_LowStockCalls (Bench.Notifier (Bench.mocks_of (Bench.drain (snd r)))) = 1 /\
  mock_StockAlerts (Bench.Notifier (Bench.mocks_of (Bench.drain (snd r)))) = [].
Proof. repeat split; vm_compute; reflexivity. Qed.

Lemma nonpositive_quantity_rejected_witness :
  Bench.run false (Bench.request 0) (Bench.bench 100 10 true None) =
    (Fail ErrInvalidQuantity, start (Bench.bench 100 10 true None)).
Proof.
  apply (nonpositive_quantity_rejected Bench.State Bench.clock (Bench.usecase false)
           (Bench.request 0) (Bench.bench 100 10 true None)).
  - vm_compute. discriminate.
  - discriminate.
  - discriminate.
Defined.

(** C5 against the code: with an empty product id a zero quantity is
    answered with [ErrInvalidProductID], not [ErrInvalidQuantity]. *)
Lemma empty_product_id_reported_first :
  Quantity (mkAddStockRequest EmptyString 0 "t1" EmptyString "u1") <= 0 /\
  fst (Bench.run false (mkAddStockRequest EmptyString 0 "t1" EmptyString "u1") (Bench.bench 100 10 true None))
    = Fail ErrInvalidProductID /\
  fst (Bench.run false (mkAddStockRequest EmptyString 0 "t1" EmptyString "u1") (Bench.bench 100 10 true None))
    <> Fail ErrInvalidQuantity.
Proof.
  split; [vm_compute; discriminate |].
  split; [reflexivity | vm_compute; discriminate].
Qed.

Lemma inactive_tenant_rejected_witness :
  fst (Bench.run false (Bench.request 5) (Bench.bench 100 10 false None))
    = Fail ErrTenantInactive /\
  map fst (trace (snd (Bench.run false (Bench.request 5) (Bench.bench 100 10 false None))))
    = [uow_Begin; Tenants_FindByID "t1"; uow_Rollback].
Proof.
  unfold Bench.run.
  erewrite (inactive_tenant_rejected Bench.State Bench.clock (Bench.usecase false)
              (Bench.request 5) (Bench.bench 100 10 false None)).
  - split; reflexivity.
  - reflexivity.
  - reflexivity.
  - reflexivity.
  - reflexivity.
  - reflexivity.
  - reflexivity.
  - discriminate.
Defined.

Lemma stock_limit_enforced_witness :
  fst (Bench.run false (Bench.request 5) (Bench.bench 10 8 true None))
    = Fail (ErrStockExceedsLimit 8 5 13 10) /\
  map fst (trace (snd (Bench.run false (Bench.request 5) (Bench.bench 10 8 true None))))
    = [uow_Begin; Tenants_FindByID "t1"; Products_FindByID "p1"; uow_Rollback] /\
  CurrentStock <$> products (world (snd (Bench.run false (Bench.request 5)
                                            (Bench.bench 10 8 true None)))) !! 0%nat
    = Some {| value := 8 |}.
Proof.
  pose proof (stock_limit_enforced Bench.State Bench.clock (Bench.usecase false)
                (Bench.request 5) (Bench.bench 10 8 true None) _ _ _ _ _ _ _ _ _ _
                eq_refl eq_refl eq_refl eq_refl eq_refl eq_refl eq_refl eq_refl
                eq_refl eq_refl ltac:(discriminate)) as [Hrun _].
  unfold Bench.run. rewrite Hrun.
  split; [reflexivity | split; reflexivity].
Defined.

(** C8 against the code: a quantity of zero passes the construction, and
    the steps that follow it carry on to a response that adds nothing. *)
Lemma zero_quantity_accepted :
  0 <= 0 /\
  NewStockQuantity 0 = ({| value := 0 |}, None) /\
  fst (Execute_in_transaction Bench.clock (Bench.usecase false) (Bench.request 0)
         (start (Bench.bench 100 10 true None)))
    = Return {| resp_ProductID := "p1"; resp_ProductName := "Widget";
                PreviousStock := 10; NewStock := 10; Added := 0;
                MaxAllowed := 100; Utilization := 10%float |}.
Proof.
  split; [lia |]. split; reflexivity.
Qed.

Lemma negative_quantity_fails_construction_witness :
  fst (Execute_in_transaction Bench.clock (Bench.usecase false) (Bench.request (-1))
         (start (Bench.bench 100 10 true None)))
    = Fail (errors_New "quantity cannot be negative").
Proof.
  pose proof (negative_quantity_fails_construction Bench.State Bench.clock
                (Bench.usecase false) (Bench.request (-1))
                (start (Bench.bench 100 10 true None)) _ _ _ _ _
                eq_refl eq_refl eq_refl eq_refl eq_refl) as (_ & Hrun & _).
  rewrite Hrun. reflexivity.
Defined.

Lemma rollback_on_every_failed_exit_witness :
  fst (Bench.run false (Bench.request 5)
         (Bench.without_product (Bench.bench 100 10 true None))) = Panic /\
  exists (tr : list Event) (rolled : outcome unit) (w_pre : World Bench.State),
    Rollback Bench.unit_of_work w_pre =
      (rolled, world (snd (Bench.run false (Bench.request 5)
                             (Bench.without_product (Bench.bench 100 10 true None))))) /\
    trace (snd (Bench.run false (Bench.request 5)
                  (Bench.without_product (Bench.bench 100 10 true None)))) =
      (uow_Begin, returned_nil) :: tr ++ [(uow_Rollback, status_of rolled)].
Proof.
  split; [reflexivity |].
  apply (rollback_on_every_failed_exit Bench.State Bench.clock (Bench.usecase false)
           (Bench.request 5) (Bench.without_product (Bench.bench 100 10 true None))
           _ Panic _ eq_refl eq_refl eq_refl).
  intros resp. discriminate.
Defined.

Lemma rollback_runs_after_commit_witness :
  exists tr : list Event,
    trace (snd (Bench.run true (Bench.request 15) (Bench.bench 100 10 true None))) =
      (uow_Begin, returned_nil) :: tr ++
        [(uow_Commit, returned_nil); (uow_Rollback, returned_nil)].
Proof.
  destruct rollback_runs_after_commit as [Hlast Hnoop].
  set (run := Bench.run true (Bench.request 15) (Bench.bench 100 10 true None)).
  assert (Hrun : Execute Bench.clock (Bench.usecase true) (Bench.request 15)
                   (start (Bench.bench 100 10 true None)) = (fst run, snd run))
    by apply surjective_pairing.
  assert (Hret : fst run = Return {| resp_ProductID := "p1"; resp_ProductName := "Widget";
                                     PreviousStock := 10; NewStock := 25; Added := 15;
                                     MaxAllowed := 100; Utilization := 25%float |})
    by (vm_compute; reflexivity).
  destruct (Hlast Bench.State Bench.clock (Bench.usecase true) (Bench.request 15)
              (Bench.bench 100 10 true None) _ (fst run) (snd run) eq_refl eq_refl Hrun)
    as (tr & rolled & w_pre & Hroll & Htrace & Hresp).
  destruct (Hresp _ Hret) as (_ & tr' & w_c & Hcommit & ->).
  pose proof (Hnoop Bench.ScriptedDriver nat Bench.Mocks Bench.StartSession
                Bench.StartTransaction Bench.CommitTransaction Bench.AbortTransaction
                Bench.EndSession Bench.products_repo Bench.tenants_repo
                Bench.history_repo w_c w_pre Hcommit) as Hroll'.
  cbv zeta in Hroll'.
  assert (Hrolled : (rolled, world (snd run)) = (Return tt, w_pre))
    by (rewrite <- Hroll; exact Hroll').
  assert (Hr : rolled = Return tt) by exact (f_equal fst Hrolled).
  subst rolled.
  exists tr'. rewrite Htrace, <- app_assoc. reflexivity.
Defined.

Lemma notifications_follow_persistence_witness :
  exists (pre post : list Event) (alert : StockLimitAlertEvent),
    trace (snd (Bench.run true (Bench.request 10) (Bench.bench 100 75 true None))) =
      pre ++ (go_SendStockAlert alert, started) :: post /\
    slae_Utilization alert = 85%float /\
    (exists p v, In (Products_Save p v, returned_nil) pre) /\
    (exists ev, In (StockHistory_Create ev, returned_nil) pre) /\
    (forall s', ~ In (uow_Commit, s') pre).
Proof.
  set (run := Bench.run true (Bench.request 10) (Bench.bench 100 75 true None)).
  assert (Hrun : Execute Bench.clock (Bench.usecase true) (Bench.request 10)
                   (start (Bench.bench 100 75 true None)) = (fst run, snd run))
    by apply surjective_pairing.
  set (alert := {| slae_ProductID := "p1"; slae_ProductName := "Widget";
                   slae_Current := {| value := 85 |};
                   slae_MaxLimit := {| value := 100 |};
                   slae_Utilization := 85%float; slae_TenantID := "t1";
                   slae_Timestamp := 3603000000000 |}).
  assert (Htrace : trace (snd run) =
                     firstn 5 (trace (snd run)) ++
                       (go_SendStockAlert alert, started) :: skipn 6 (trace (snd run)))
    by (vm_compute; reflexivity).
  exists (firstn 5 (trace (snd run))), (skipn 6 (trace (snd run))), alert.
  split; [exact Htrace |]. split; [reflexivity |].
  exact (notifications_follow_persistence Bench.State Bench.clock (Bench.usecase true)
           (Bench.request 10) (Bench.bench 100 75 true None) (fst run) (snd run)
           _ _ _ _ Hrun Htrace eq_refl).
Defined.

(** C3 against the code: the commit fails, so the transaction is never
    committed and [Execute] returns the commit error; by then the
    stock-limit alert goroutine has been started and the event has been
    published, both before [Commit] was called. *)
Lemma alert_and_event_precede_failed_commit :
  fst (Bench.run true (Bench.request 10)
         (Bench.bench 100 75 true (Some (errors_New "commit failed"))))
    = Fail (errors_New "commit failed") /\
  map (fun e : Event =>
         match e with
         | (go_SendStockAlert a, s) => ("go SendStockAlert", s)
         | (eventPublisher_Publish _, s) => ("Publish", s)
         | (uow_Commit, s) => ("Commit", s)
         | (uow_Rollback, s) => ("Rollback", s)
         | (_, s) => ("other", s)
         end)
      (skipn 5 (trace (snd (Bench.run true (Bench.request 10)
                              (Bench.bench 100 75 true (Some (errors_New "commit failed")))))))
    = [("go SendStockAlert", started); ("Publish", returned_nil);
       ("Commit", returned_err (errors_New "commit failed"));
       ("Rollback", returned_nil)] /\
  length (goroutines (snd (Bench.run true (Bench.request 10)
                             (Bench.bench 100 75 true (Some (errors_New "commit failed"))))))
    = 1%nat /\
  length (mock_Published (Bench.Publisher (Bench.mocks_of (world (snd
            (Bench.run true (Bench.request 10)
               (Bench.bench 100 75 true (Some (errors_New "commit failed")))))))))
    = 1%nat.
Proof.
  repeat split; vm_compute; reflexivity.
Qed.

(** The mocks of the bench leave the product of a run alone: [Save]
    copies it onto itself, the others keep to their own records. *)
Lemma bench_product_left_alone (with_publisher : bool) :
  product_left_alone (Bench.usecase with_publisher).
Proof.
  intros p. repeat split.
  - intros w w' r. cbn. unfold MockProductRepo_Save.
    destruct (mock_SaveErr _); [intros [= _ <-]; reflexivity |].
    destruct (mock_Product _) as [l |]; [| intros [= _ <-]; reflexivity].
    destruct (product_at w p) as [v |] eqn:Hp; [| intros [= _ <-]; exact Hp].
    intros [= _ <-]. destruct p as [l' |]; [| discriminate Hp].
    cbn in *. destruct (decide (l = l')) as [-> | Hne].
    + apply lookup_insert_eq.
    + rewrite lookup_insert_ne by exact Hne. exact Hp.
  - intros ev w w' r. cbn. unfold MockStockHistoryRepo_Create.
    destruct (mock_CreateErr _); intros [= _ <-]; reflexivity.
  - intros pub ev Hpub w w' r. destruct with_publisher; [| discriminate Hpub].
    injection Hpub as <-. cbn. intros [= _ <-]. reflexivity.
  - intros w w' r. cbn. unfold on_ext, Bench.State.
    destruct (on_uow _ _ _ _) as [r0 s0]. intros [= _ <-]. reflexivity.
Qed.

Lemma response_matches_saved_stock_witness :
  exists (resp : AddStockResponse) (st : St Bench.State),
    Bench.run true (Bench.request 15) (Bench.bench 100 10 true None) = (Return resp, st) /\
    PreviousStock resp = 10 /\ Added resp = 15 /\ NewStock resp = 25 /\
    NewStock resp = PreviousStock resp + Added resp /\
    exists (product : ptr) (saved : Product),
      In (Products_Save product (Some saved), returned_nil) (trace st) /\
      Value (CurrentStock saved) = NewStock resp.
Proof.
  set (run := Bench.run true (Bench.request 15) (Bench.bench 100 10 true None)).
  set (resp := {| resp_ProductID := "p1"; resp_ProductName := "Widget";
                  PreviousStock := 10; NewStock := 25; Added := 15;
                  MaxAllowed := 100; Utilization := 25%float |}).
  assert (Hrun : run = (Return resp, snd run)).
  { rewrite (surjective_pairing run) at 1.
    apply (f_equal2 pair); [vm_compute; reflexivity | reflexivity]. }
  exists resp, (snd run). split; [exact Hrun |].
  destruct (response_matches_saved_stock Bench.State Bench.clock (Bench.usecase true)
              (Bench.request 15) (Bench.bench 100 10 true None) resp (snd run)
              (bench_product_left_alone true) Hrun)
    as (_ & Hexact & _ & Hsaved).
  split; [reflexivity |]. split; [reflexivity |]. split; [reflexivity |].
  split; [apply Hexact; vm_compute; split; discriminate | exact Hsaved].
Defined.

(** * Further properties of the code *)

(** ** [Product.AddStock] *)

Section AddStock.

Variable S : Type.
Variable wallclock : nat -> Time.

(** X1: [AddStock] is all or nothing. It never returns through the
    error channel of the run: it panics exactly on a pointer that holds no
    product, and then touches nothing; it returns the limit error exactly
    when Go's sum of stock and quantity exceeds the limit, and then
    touches nothing; otherwise the sum is within the limit and the only
    change to the run is the product it points to, which takes the sum as
    its stock and the clock reading as [LastUpdated], and one clock
    reading taken. *)
Theorem AddStock_all_or_nothing (p : ptr) (quantity maxLimit : StockQuantity) (st : St S) :
  match Product_AddStock wallclock p quantity maxLimit st with
  | (Panic, st') => product_at (world st) p = None /\ st' = st
  | (Fail _, _) => False
  | (Return (Some e), st') =>
      exists cur : Product,
        product_at (world st) p = Some cur /\
        int_add (Value (CurrentStock cur)) (Value quantity) > Value maxLimit /\
        e = ErrStockExceedsLimit (Value (CurrentStock cur)) (Value quantity)
              (int_add (Value (CurrentStock cur)) (Value quantity)) (Value maxLimit) /\
        st' = st
  | (Return None, st') =>
      exists (l : loc) (cur : Product),
        p = Some l /\
        products (world st) !! l = Some cur /\
        int_add (Value (CurrentStock cur)) (Value quantity) <= Value maxLimit /\
        st' = {| world :=
                   {| products :=
                        <[l := {| Product_ID := Product_ID cur;
                                  Product_Name := Product_Name cur;
                                  CurrentStock := Add (CurrentStock cur) quantity;
                                  LastUpdated := wallclock (ticks st);
                                  Product_TenantID := Product_TenantID cur |}]>
                          (products (world st));
                      tenants := tenants (world st);
                      ext := ext (world st) |};
                 trace := trace st;
                 goroutines := goroutines st;
                 ticks := Datatypes.S (ticks st) |}
  end.
Proof.
  destruct st as [w tr gs n].
  unfold Product_AddStock, bind, deref_product, store_product, time_Now, ret.
  cbn [world trace goroutines ticks].
  destruct p as [l |]; [| split; reflexivity].
  cbn [product_at products].
  destruct (products w !! l) as [cur |] eqn:Hcur; [| split; reflexivity].
  destruct (Exceeds (Add (CurrentStock cur) quantity) maxLimit) eqn:Hex.
  - exists cur. split; [reflexivity |]. split; [apply Exceeds_gt in Hex; exact Hex |].
    split; reflexivity.
  - cbn [product_at products tenants ext world trace goroutines ticks]. rewrite Hcur.
    cbn [product_at products tenants ext world trace goroutines ticks].
    rewrite lookup_insert_eq.
    exists l, cur. split; [reflexivity |]. split; [exact Hcur |]. split.
    + unfold Exceeds in Hex. apply Z.ltb_ge in Hex. exact Hex.
    + rewrite insert_insert_eq. reflexivity.
Qed.

(** X2: at the top of the [int] range the limit is not enforced: when
    stock plus quantity overflows, Go's sum wraps to a negative number,
    which exceeds no non-negative limit, so [AddStock] returns nil and
    leaves the product with a negative stock. *)
Theorem AddStock_overflow_passes_limit (p : ptr) (quantity maxLimit : StockQuantity)
  (st : St S) (cur : Product) :
  product_at (world st) p = Some cur ->
  is_int (Value (CurrentStock cur)) ->
  is_int (Value quantity) ->
  int_max < Value (CurrentStock cur) + Value quantity ->
  0 <= Value maxLimit ->
  fst (Product_AddStock wallclock p quantity maxLimit st) = Return None /\
  exists new : Product,
    product_at (world (snd (Product_AddStock wallclock p quantity maxLimit st))) p = Some new /\
    Value (CurrentStock new) = Value (CurrentStock cur) + Value quantity - 2 ^ 64 /\
    Value (CurrentStock new) < 0.
Proof.
  intros Hcur Hstock Hq Hover Hmax.
  assert (Hsum : int_add (Value (CurrentStock cur)) (Value quantity)
                 = Value (CurrentStock cur) + Value quantity - 2 ^ 64).
  { unfold int_add, wrap. unfold is_int, int_min, int_max in *.
    rewrite <- (Z.mod_add _ (-1)) by lia.
    rewrite Z.mod_small by lia. lia. }
  destruct st as [w tr gs n]. cbn [world] in Hcur.
  destruct p as [l |]; [| discriminate Hcur]. cbn [product_at] in Hcur.
  assert (Hwithin : Exceeds (Add (CurrentStock cur) quantity) maxLimit = false).
  { unfold Exceeds, Add. cbn [value]. apply Z.ltb_ge. unfold Value in *.
    unfold is_int, int_min, int_max in *. lia. }
  unfold Product_AddStock, bind, deref_product, store_product, time_Now, ret.
  cbn [world trace goroutines ticks product_at products tenants ext].
  rewrite Hcur, Hwithin.
  cbn [world trace goroutines ticks product_at products tenants ext]. rewrite Hcur.
  cbn [world trace goroutines ticks product_at products tenants ext fst snd].
  rewrite lookup_insert_eq.
  cbn [world trace goroutines ticks product_at products tenants ext fst snd].
  split; [reflexivity |]. eexists. split; [apply lookup_insert_eq |].
  cbn [CurrentStock]. unfold Value in *. cbn [Add value].
  unfold is_int, int_min, int_max in *. lia.
Qed.

End AddStock.

(** ** The orchestrator, call by call *)

(** [In] over a trace that is known event by event. *)
Ltac in_trace := cbn [In]; solve [repeat (first [left; reflexivity | right])].
Ltac not_in_trace H :=
  cbn [In] in H;
  repeat match type of H with
         | _ \/ _ => destruct H as [H | H]
         end;
  try contradiction; try discriminate H.

Section CallByCall.

Variable S : Type.
Variable wallclock : nat -> Time.
Variable uc : addStockUseCase S.

(** X3: every run follows the protocol of the ports: [Begin] first, then
    the tenant lookup, the product lookup, [Save], [Create], then at most
    one stock-limit alert, at most one low-stock alert, at most one
    [Publish], then [Commit], each made only if the one before went
    through, and the deferred [Rollback] last, after whichever call the
    run stopped at. No port is called twice, nothing is called after
    [Rollback], and nothing at all after a [Begin] that failed. *)
Theorem Execute_follows_protocol (req : AddStockRequest) (w : World S) :
  follows_protocol (trace (snd (Execute wallclock uc req (start w)))) = true.
Proof.
  destruct (Execute wallclock uc req (start w)) as [r st] eqn:Hrun. cbn [snd].
  paths Hrun; injection Hrun as <- <-; reflexivity.
Qed.

(** X4: what the caller gets tells what happened to the transaction. A
    response means that [Save], [Create] and [Commit] all returned nil;
    an error means that no [Commit] returned nil. *)
Theorem response_iff_committed (req : AddStockRequest) (w : World S) :
  match Execute wallclock uc req (start w) with
  | (Return _, st) =>
      (exists p v, In (Products_Save p (Some v), returned_nil) (trace st)) /\
      (exists ev, In (StockHistory_Create ev, returned_nil) (trace st)) /\
      In (uow_Commit, returned_nil) (trace st)
  | (Fail _, st) => forall s, In (uow_Commit, s) (trace st) -> s <> returned_nil
  | (Panic, _) => True
  end.
Proof.
  destruct (Execute wallclock uc req (start w)) as [r st] eqn:Hrun.
  paths Hrun; injection Hrun as <- <-; cbn [trace];
    first [ exact I
          | intros st_commit Hcommitted; not_in_trace Hcommitted; congruence
          | split; [eexists _, _; in_trace | split; [eexists; in_trace | in_trace]] ].
Qed.

(** X5: when [Begin] fails, [Execute] returns its error and stops: the
    rollback is deferred only after a [Begin] that succeeded, so nothing
    else is called, [Rollback] included. *)
Theorem begin_failure_ends_the_run (req : AddStockRequest) (w w1 : World S) (e : error) :
  validateRequest req = None ->
  Begin (uow uc) w = (Fail e, w1) ->
  Execute wallclock uc req (start w) =
    (Fail e, {| world := w1; trace := [(uow_Begin, returned_err e)];
                goroutines := []; ticks := 0 |}).
Proof.
  intros Hv Hbegin. follow_run. reflexivity.
Qed.

(** X6: errors reach the caller as they are. An error returned by
    [Execute] is the validation error (and then nothing was called), or
    [ErrTenantInactive], or the limit error of [AddStock], or the very
    error that [Begin], a lookup, [Save], [Create] or [Commit] returned.
    The errors of [Publish] and of the deferred [Rollback] are never the
    ones returned, and the constructor's error of step 6 cannot occur. *)
Theorem errors_are_surfaced_verbatim (req : AddStockRequest) (w : World S) :
  match Execute wallclock uc req (start w) with
  | (Fail e, st) =>
      (validateRequest req = Some e /\ st = start w) \/
      e = ErrTenantInactive \/
      (exists current adding wouldBe maxAllowed,
          e = ErrStockExceedsLimit current adding wouldBe maxAllowed /\
          wouldBe > maxAllowed) \/
      (exists c, In (c, returned_err e) (trace st) /\ returns_error_of c = true)
  | _ => True
  end.
Proof.
  destruct (Execute wallclock uc req (start w)) as [r st] eqn:Hrun.
  paths Hrun; injection Hrun as <- <-; cbn [trace]; try exact I;
    try match goal with
        | Hv : validateRequest req = None,
          Hq : NewStockQuantity (Quantity req) = (_, Some _) |- _ =>
            rewrite (quantity_accepted req Hv) in Hq; discriminate Hq
        end;
    first [ left; split; reflexivity
          | right; left; reflexivity
          | right; right; left; eexists _, _, _, _; split; [reflexivity |];
            match goal with
            | Hex : Exceeds _ _ = true |- _ => apply Exceeds_gt in Hex; exact Hex
            end
          | right; right; right; eexists; split; [in_trace | reflexivity] ].
Qed.

(** X7: without an event publisher nothing is published. *)
Theorem no_publisher_no_publication (req : AddStockRequest) (w : World S)
  (ev : StockAddedEvent) (s : status) :
  eventPublisher uc = None ->
  ~ In (eventPublisher_Publish ev, s) (trace (snd (Execute wallclock uc req (start w)))).
Proof.
  intros Hnone Hin.
  destruct (Execute wallclock uc req (start w)) as [r st] eqn:Hrun. cbn [snd] in Hin.
  paths Hrun; injection Hrun as <- <-; cbn [trace] in Hin; not_in_trace Hin.
Qed.

(** X8: a failure of [Publish] is swallowed: the run goes on to call
    [Commit] as if nothing had happened, and an error that the run
    returns after that is the error of [Commit]. *)
Theorem publish_failure_is_swallowed (req : AddStockRequest) (w : World S)
  (ev : StockAddedEvent) (e : error) :
  In (eventPublisher_Publish ev, returned_err e)
     (trace (snd (Execute wallclock uc req (start w)))) ->
  exists s, In (uow_Commit, s) (trace (snd (Execute wallclock uc req (start w)))) /\
            forall e', fst (Execute wallclock uc req (start w)) = Fail e' ->
                       s = returned_err e'.
Proof.
  intros Hin.
  destruct (Execute wallclock uc req (start w)) as [r st] eqn:Hrun. cbn [fst snd] in *.
  paths Hrun; injection Hrun as <- <-; cbn [trace] in *; not_in_trace Hin;
    (eexists; split; [in_trace | intros e_ret He_ret; congruence]).
Qed.

End CallByCall.

(** ** What a successful run records and whom it alerts *)

(** Bring every reading of the product back to the one taken when it was
    stored, through the collaborators that leave it alone. *)
Ltac settle_product Hsave Hcreate Hpublish Hcommit :=
  repeat match goal with
    | Hop : Products_Save_op _ _ ?w0 = (_, ?w'), Hd : product_at ?w' _ = _ |- _ =>
        rewrite (Hsave _ _ _ Hop) in Hd
    | Hop : StockHistory_Create_op _ _ ?w0 = (_, ?w'), Hd : product_at ?w' _ = _ |- _ =>
        rewrite (Hcreate _ _ _ _ Hop) in Hd
    | Hpub : eventPublisher _ = Some ?pub,
      Hop : Publish ?pub _ ?w0 = (_, ?w'), Hd : product_at ?w' _ = _ |- _ =>
        rewrite (Hpublish _ _ Hpub _ _ _ Hop) in Hd
    | Hop : Commit _ ?w0 = (_, ?w'), Hd : product_at ?w' _ = _ |- _ =>
        rewrite (Hcommit _ _ _ Hop) in Hd
    | Hd : product_at (mkWorld _ _ _) (Some _) = _ |- _ =>
        rewrite product_at_store in Hd
    | Hd : Some _ = Some _ |- _ => injection Hd as <-
    end.

Section SuccessfulRun.

Variable S : Type.
Variable wallclock : nat -> Time.
Variable uc : addStockUseCase S.

(** X9: the audit record of a successful run. Exactly the event handed
    to [Create] describes the response: same product, the tenant, actor
    and note of the request, the quantity added, and previous and current
    stock equal to [PreviousStock] and [NewStock]; and an event that is
    published is that same event. *)
Theorem audit_event_matches_response (req : AddStockRequest) (w : World S)
  (resp : AddStockResponse) (st : St S) :
  product_left_alone uc ->
  Execute wallclock uc req (start w) = (Return resp, st) ->
  exists ev : StockAddedEvent,
    In (StockHistory_Create ev, returned_nil) (trace st) /\
    (forall ev' s, In (StockHistory_Create ev', s) (trace st) -> ev' = ev) /\
    (forall ev' s, In (eventPublisher_Publish ev', s) (trace st) -> ev' = ev) /\
    sae_ProductID ev = resp_ProductID resp /\
    sae_TenantID ev = TenantID req /\
    sae_AddedBy ev = AddedBy req /\
    sae_Notes ev = Notes req /\
    Value (sae_Quantity ev) = Added resp /\
    Value (sae_Previous ev) = PreviousStock resp /\
    Value (sae_Current ev) = NewStock resp.
Proof.
  intros Halone Hrun.
  paths Hrun; try discriminate Hrun; injection Hrun as <- <-;
    cbn [trace resp_ProductID NewStock PreviousStock Added];
    match goal with
    | _ : product_at _ (Some ?l) = _ |- _ =>
        destruct (Halone (Some l)) as (Hsave & Hcreate & Hpublish & Hcommit)
    end;
    settle_product Hsave Hcreate Hpublish Hcommit;
    (eexists; split; [in_trace |];
     split; [intros ev_other s_other Hother; not_in_trace Hother; congruence |];
     split; [intros ev_other s_other Hother; not_in_trace Hother; congruence |];
     repeat split).
Qed.

(** X10: the alerts of a successful run. The low-stock alert goroutine
    is started exactly when the new stock is below 10, the stock-limit
    alert goroutine exactly when the utilization of the response is above
    80, each at most once and nothing else is started; the stock-limit
    alert carries the utilization, the new stock and the product of the
    response. *)
Theorem alerts_match_response (req : AddStockRequest) (w : World S)
  (resp : AddStockResponse) (st : St S) :
  product_left_alone uc ->
  Execute wallclock uc req (start w) = (Return resp, st) ->
  ((exists p, In (go_SendLowStockAlert p 10, started) (trace st)) <-> NewStock resp < 10) /\
  ((exists a, In (go_SendStockAlert a, started) (trace st)) <->
   PrimFloat.ltb 80%float (Utilization resp) = true) /\
  (forall a s, In (go_SendStockAlert a, s) (trace st) ->
     slae_Utilization a = Utilization resp /\
     Value (slae_Current a) = NewStock resp /\
     slae_ProductID a = resp_ProductID resp /\
     slae_ProductName a = resp_ProductName resp /\
     slae_TenantID a = TenantID req) /\
  length (goroutines st) =
    ((if (NewStock resp <? 10)%Z then 1 else 0) +
     (if PrimFloat.ltb 80%float (Utilization resp) then 1 else 0))%nat.
Proof.
  intros Halone Hrun.
  paths Hrun; try discriminate Hrun; injection Hrun as <- <-;
    cbn [trace goroutines resp_ProductID resp_ProductName NewStock Utilization];
    match goal with
    | _ : product_at _ (Some ?l) = _ |- _ =>
        destruct (Halone (Some l)) as (Hsave & Hcreate & Hpublish & Hcommit)
    end;
    settle_product Hsave Hcreate Hpublish Hcommit;
    cbn [CurrentStock];
    repeat match goal with
           | Hlow : Product_IsLowStock _ _ = _ |- _ =>
               unfold Product_IsLowStock in Hlow; cbn [CurrentStock] in Hlow
           end;
    repeat match goal with
           | Hb : ?b = _ |- context [if ?b then _ else _] => rewrite Hb
           end;
    (split; [split; [intros [p_low Hin]; not_in_trace Hin;
                     match goal with
                     | Hlow : (_ <? 10) = true |- _ => apply Z.ltb_lt in Hlow; exact Hlow
                     end
                    | intros Hlt;
                      first [ eexists; in_trace
                            | match goal with
                              | Hlow : (_ <? 10) = false |- _ =>
                                  apply Z.ltb_ge in Hlow; lia
                              end ] ] |];
     split; [split; [intros [a_lim Hin]; not_in_trace Hin; first [assumption | reflexivity]
                    | intros Hgt; first [ eexists; in_trace | congruence ] ] |];
     split; [intros a_lim s_lim Hin; not_in_trace Hin;
             injection Hin as <- _; repeat split |];
     reflexivity).
Qed.

End SuccessfulRun.

(** ** A failing [Save] *)

(** Follow a run through the writes of [AddStock] as well. *)
Ltac follow_run_stored :=
  unfold_run;
  repeat (first [ rewrite product_at_store
                | rewrite tenant_at_store
                | rewrite insert_insert_eq
                | rewrite lookup_insert_eq
                | match goal with
                  | H : ?l = _ |- context [?l] => rewrite H
                  end ];
          unfold_run;
          cbn [products tenants ext product_at Product_ID Product_Name CurrentStock
               LastUpdated Product_TenantID]).

Section FailingSave.

Variable S : Type.
Variable wallclock : nat -> Time.
Variable uc : addStockUseCase S.

(** X11: when [Save] fails, [Execute] returns its error after [Begin],
    the two lookups, [Save] and the deferred [Rollback]: no audit record,
    no alert, no publication, no commit. The addition itself is not taken
    back: [Save] is handed the product with the new stock and the new
    [LastUpdated], and that is how the orchestrator leaves it in memory;
    what [Rollback] receives is the world as [Save] left it. *)
Theorem save_failure_keeps_the_addition (req : AddStockRequest)
  (w w1 w2 w3 w4 w5 : World S) (tenant : ptr) (l : loc) (t2 t : Tenant) (p : Product)
  (e : error) (rolled : outcome unit) :
  validateRequest req = None ->
  Begin (uow uc) w = (Return tt, w1) ->
  Tenants_FindByID_op (Tenants (uow uc)) (TenantID req) w1 = (Return tenant, w2) ->
  tenant_at w2 tenant = Some t2 ->
  IsActive t2 = true ->
  Products_FindByID_op (Products (uow uc)) (ProductID req) w2 = (Return (Some l), w3) ->
  products w3 !! l = Some p ->
  tenant_at w3 tenant = Some t ->
  int_add (Value (CurrentStock p)) (Quantity req) <= Value (MaxStock t) ->
  let updated :=
    {| Product_ID := Product_ID p;
       Product_Name := Product_Name p;
       CurrentStock := Add (CurrentStock p) {| value := Quantity req |};
       LastUpdated := wallclock 1;
       Product_TenantID := Product_TenantID p |} in
  Products_Save_op (Products (uow uc)) (Some l)
    {| products := <[l := updated]> (products w3); tenants := tenants w3; ext := ext w3 |}
    = (Fail e, w4) ->
  Rollback (uow uc) w4 = (rolled, w5) ->
  rolled <> Panic ->
  Execute wallclock uc req (start w) =
    (Fail e,
     {| world := w5;
        trace := [(uow_Begin, returned_nil);
                  (Tenants_FindByID (TenantID req), returned_nil);
                  (Products_FindByID (ProductID req), returned_nil);
                  (Products_Save (Some l) (Some updated), returned_err e);
                  (uow_Rollback, status_of rolled)];
        goroutines := [];
        ticks := 2 |}).
Proof.
  intros Hv Hbegin Hfind Ht2 Hactive Hload Hp Ht Hfits updated Hsave Hroll Hnopanic.
  assert (Hwithin : Exceeds (Add (CurrentStock p) {| value := Quantity req |}) (MaxStock t)
                    = false).
  { unfold Exceeds. apply Z.ltb_ge. exact Hfits. }
  pose proof (quantity_accepted req Hv) as Hquantity.
  subst updated. follow_run_stored.
  destruct rolled; [reflexivity | reflexivity | contradiction].
Qed.

End FailingSave.

(** ** The session of the Mongo unit of work *)

Section MongoSession.

Variable Driver : Type.
Variable Session : Type.
Variable client_StartSession : SO Driver Session.
Variable session_StartTransaction : Session -> SO Driver unit.
Variable session_CommitTransaction : Session -> SO Driver unit.
Variable session_AbortTransaction : Session -> SO Driver unit.
Variable session_EndSession : Session -> Driver -> Driver.

Local Abbreviation begin_ :=
  (mongo_Begin Driver Session client_StartSession session_StartTransaction
     session_EndSession).
Local Abbreviation commit_ :=
  (mongo_Commit Driver Session session_CommitTransaction session_EndSession).
Local Abbreviation rollback_ :=
  (mongo_Rollback Driver Session session_AbortTransaction session_EndSession).

(** X12: [Begin] keeps a session exactly when it returns nil, and it is
    the session the driver has just started with a transaction in it. A
    [Begin] that fails leaves the session field as it was; if the failure
    is that of [StartTransaction], the session just started has been
    ended. *)
Theorem mongo_Begin_keeps_session_iff_nil (u : mongoUnitOfWork Driver Session) :
  match begin_ u with
  | (Return _, u') =>
      exists s d,
        client_StartSession (driver u) = (Return s, d) /\
        session_StartTransaction s d = (Return tt, driver u') /\
        session u' = Some s
  | (Fail e, u') =>
      session u' = session u /\
      (client_StartSession (driver u) = (Fail e, driver u') \/
       exists s d d',
         client_StartSession (driver u) = (Return s, d) /\
         session_StartTransaction s d = (Fail e, d') /\
         driver u' = session_EndSession s d')
  | (Panic, u') => session u' = session u
  end.
Proof.
  unfold mongo_Begin, bind, on_driver, EndSession, set_session.
  destruct (client_StartSession (driver u)) as [[s | e |] d] eqn:Hstart; cbn.
  - destruct (session_StartTransaction s d) as [[[] | e |] d'] eqn:Htxn; cbn.
    + exists s, d. repeat split; assumption.
    + split; [reflexivity |]. right. exists s, d, d'. repeat split; assumption.
    + reflexivity.
  - split; [reflexivity |]. left. reflexivity.
  - reflexivity.
Qed.

(** A [Rollback] that returns nil leaves no session. *)
Lemma mongo_Rollback_nil_clears (u u' : mongoUnitOfWork Driver Session) :
  rollback_ u = (Return tt, u') -> session u' = None.
Proof.
  unfold mongo_Rollback, bind, on_driver, EndSession, set_session.
  destruct (session u) as [s |] eqn:Hs.
  - destruct (session_AbortTransaction s (driver u)) as [[[] | e |] d];
      intros Heq; inversion Heq; reflexivity.
  - intros Heq. inversion Heq. subst. exact Hs.
Qed.

(** A [Commit] that fails keeps the session it had. *)
Lemma mongo_Commit_failure_keeps (u u' : mongoUnitOfWork Driver Session) (e : error) :
  commit_ u = (Fail e, u') -> exists s, session u' = Some s.
Proof.
  unfold mongo_Commit, bind, on_driver, EndSession, set_session.
  destruct (session u) as [s |] eqn:Hs; [| discriminate].
  destruct (session_CommitTransaction s (driver u)) as [[[] | e0 |] d];
    intros Heq; inversion Heq; subst. exists s. reflexivity.
Qed.

(** X13: [Commit] and [Rollback] let go of the session exactly when they
    return nil, and then it has been ended. When the driver refuses the
    commit or the abort, the session is kept as it is and is not ended, so
    that the unit of work can still be rolled back. Without a session
    both return nil and do nothing. *)
Theorem mongo_session_released_iff_nil (u : mongoUnitOfWork Driver Session) :
  (match commit_ u with
   | (Return _, u') =>
       session u' = None /\
       (session u = None -> u' = u) /\
       (forall s, session u = Some s ->
          exists d, session_CommitTransaction s (driver u) = (Return tt, d) /\
                    driver u' = session_EndSession s d)
   | (r, u') =>
       exists s, session u = Some s /\ session u' = Some s /\
                 session_CommitTransaction s (driver u) = (r, driver u')
   end) /\
  (match rollback_ u with
   | (Return _, u') =>
       session u' = None /\
       (session u = None -> u' = u) /\
       (forall s, session u = Some s ->
          exists d, session_AbortTransaction s (driver u) = (Return tt, d) /\
                    driver u' = session_EndSession s d)
   | (r, u') =>
       exists s, session u = Some s /\ session u' = Some s /\
                 session_AbortTransaction s (driver u) = (r, driver u')
   end).
Proof.
  unfold mongo_Commit, mongo_Rollback, bind, on_driver, EndSession, set_session.
  destruct u as [[s |] d]; cbn.
  - split.
    + destruct (session_CommitTransaction s d) as [[[] | e |] d'] eqn:Hc; cbn.
      * split; [reflexivity |]. split; [discriminate |].
        intros s' [= <-]. exists d'. split; first [assumption | reflexivity].
      * exists s. repeat split; first [assumption | reflexivity].
      * exists s. repeat split; first [assumption | reflexivity].
    + destruct (session_AbortTransaction s d) as [[[] | e |] d'] eqn:Ha; cbn.
      * split; [reflexivity |]. split; [discriminate |].
        intros s' [= <-]. exists d'. split; first [assumption | reflexivity].
      * exists s. repeat split; first [assumption | reflexivity].
      * exists s. repeat split; first [assumption | reflexivity].
  - split; (split; [reflexivity |]; split; [reflexivity | discriminate]).
Qed.

(** X14: the deferred rollback after a commit that failed. The session
    survives the failed commit, so the [Rollback] that follows aborts that
    same session; when the abort goes through, the session is ended and
    let go. And rolling back is idempotent: after a [Rollback] that
    returned nil, another [Rollback] or a [Commit] returns nil and changes
    nothing. *)
Theorem mongo_Rollback_after_failed_Commit (u u' : mongoUnitOfWork Driver Session)
  (e : error) :
  commit_ u = (Fail e, u') ->
  exists s,
    session u' = Some s /\
    (forall d, session_AbortTransaction s (driver u') = (Return tt, d) ->
       rollback_ u' = (Return tt, {| session := None; driver := session_EndSession s d |})) /\
    (forall u'', rollback_ u' = (Return tt, u'') ->
       rollback_ u'' = (Return tt, u'') /\ commit_ u'' = (Return tt, u'')).
Proof.
  intros Hc.
  destruct (mongo_Commit_failure_keeps u u' e Hc) as [s Hs'].
  exists s. split; [exact Hs' |]. split.
  - intros d Habort. unfold mongo_Rollback, bind, on_driver, EndSession, set_session.
    rewrite Hs', Habort. reflexivity.
  - intros u'' Hr. pose proof (mongo_Rollback_nil_clears u' u'' Hr) as Hnone.
    unfold mongo_Rollback, mongo_Commit. rewrite Hnone. split; reflexivity.
Qed.

End MongoSession.

(** X15: over the Mongo unit of work, whatever the repositories do, a
    run that began a transaction and whose deferred [Rollback] returned
    nil leaves no session behind, on the successful path (where the commit
    has let it go) and on every failing one (where the rollback has). *)
Theorem no_session_left_behind (Driver Session X : Type)
  (client_StartSession : SO Driver Session)
  (session_StartTransaction session_CommitTransaction
     session_AbortTransaction : Session -> SO Driver unit)
  (session_EndSession : Session -> Driver -> Driver)
  (P : ProductRepository (Backend Driver Session X))
  (T : TenantRepository (Backend Driver Session X))
  (H : StockHistoryRepository (Backend Driver Session X))
  (wallclock : nat -> Time)
  (n : NotificationService (Backend Driver Session X))
  (pub : option (EventPublisher (Backend Driver Session X)))
  (req : AddStockRequest) (w w1 : World (Backend Driver Session X))
  (r : outcome AddStockResponse) (st : St (Backend Driver Session X)) :
  let u := NewMongoUnitOfWork Driver Session client_StartSession
             session_StartTransaction session_CommitTransaction
             session_AbortTransaction session_EndSession P T H in
  let uc := NewAddStockUseCase (Backend Driver Session X) u n pub in
  validateRequest req = None ->
  Begin u w = (Return tt, w1) ->
  Execute wallclock uc req (start w) = (r, st) ->
  last (trace st) = Some (uow_Rollback, returned_nil) ->
  session (uow_state (ext (world st))) = None.
Proof.
  intros u uc Hv Hbegin Hrun Hlast.
  destruct (Execute_brackets _ wallclock uc req w w1 r st Hv Hbegin Hrun)
    as (tr & rolled & w_pre & Hroll & Htrace & _).
  rewrite Htrace in Hlast.
  change ((uow_Begin, returned_nil) :: tr ++ [(uow_Rollback, status_of rolled)])
    with (((uow_Begin, returned_nil) :: tr) ++ [(uow_Rollback, status_of rolled)]) in Hlast.
  rewrite last_snoc in Hlast.
  destruct rolled as [[] | e |]; try discriminate Hlast.
  subst uc u. cbn [uow NewAddStockUseCase Rollback NewMongoUnitOfWork] in Hroll.
  unfold on_ext, on_uow in Hroll.
  destruct (mongo_Rollback Driver Session session_AbortTransaction session_EndSession
              (uow_state (ext w_pre))) as [rr u'] eqn:Hr.
  injection Hroll as -> <-. cbn [ext uow_state].
  exact (mongo_Rollback_nil_clears Driver Session session_AbortTransaction
           session_EndSession _ _ Hr).
Qed.

(** ** The test doubles *)

(** X16: what [Save] of the product mock stores is what its [FindByID]
    finds. A [Save] that returns nil has copied the product handed over
    onto the product the mock holds, and nothing else has changed: the
    pointer [FindByID] gives out leads to that copy. A [Save] set to fail
    returns its error and writes nothing; a mock that holds no product
    accepts anything and writes nothing; a nil product handed to a mock
    that holds one is a panic. *)
Theorem MockProductRepo_Save_then_FindByID {S : Type} (m : MockProductRepo)
  (product : ptr) (id : string) (w : World S) :
  match MockProductRepo_Save m product w with
  | (Return _, w') =>
      mock_SaveErr m = None /\
      tenants w' = tenants w /\ ext w' = ext w /\
      match mock_Product m with
      | None => w' = w
      | Some l =>
          product_at w product <> None /\
          product_at w' (Some l) = product_at w product /\
          (forall l', l' <> l -> products w' !! l' = products w !! l') /\
          (mock_product_FindErr m = None ->
           exists found, MockProductRepo_FindByID m id = Return found /\
                         product_at w' found = product_at w product)
      end
  | (Fail e, w') => mock_SaveErr m = Some e /\ w' = w
  | (Panic, w') =>
      mock_SaveErr m = None /\ mock_Product m <> None /\
      product_at w product = None /\ w' = w
  end.
Proof.
  unfold MockProductRepo_Save, MockProductRepo_FindByID.
  destruct (mock_SaveErr m) as [e |]; [split; reflexivity |].
  destruct (mock_Product m) as [l |]; [| repeat split].
  destruct (product_at w product) as [v |] eqn:Hv; [| repeat split; discriminate].
  split; [reflexivity |]. split; [reflexivity |]. split; [reflexivity |].
  split; [discriminate |]. split; [cbn; apply lookup_insert_eq |]. split.
  - intros l' Hne. cbn. apply lookup_insert_ne. congruence.
  - intros ->. exists (Some l). split; [reflexivity |]. cbn. apply lookup_insert_eq.
Qed.

(** X17: the history mock records the events it is given, in the order
    given, or nothing at all: with no error set, creating a list of events
    one after the other appends exactly that list; with an error set,
    the first [Create] returns it and no event is recorded. *)
Theorem MockStockHistoryRepo_records_in_order (evs : list StockAddedEvent)
  (m : MockStockHistoryRepo) :
  for_each MockStockHistoryRepo_Create evs m =
    match mock_CreateErr m, evs with
    | Some e, _ :: _ => (Fail e, m)
    | _, _ => (Return tt, {| mock_CreateErr := mock_CreateErr m;
                             mock_Events := mock_Events m ++ evs |})
    end.
Proof.
  revert m. induction evs as [| ev evs IH]; intros [err es].
  - cbn. unfold ret. rewrite app_nil_r. destruct err; reflexivity.
  - cbn [for_each]. unfold bind, MockStockHistoryRepo_Create at 1.
    cbn [mock_CreateErr mock_Events].
    destruct err as [e |]; [reflexivity |].
    rewrite IH. cbn [mock_CreateErr mock_Events]. rewrite <- app_assoc.
    destruct evs; reflexivity.
Qed.

(** X18: the publisher mock records every event it is given, whether it
    is set to fail or not: it returns its error after recording. Publishing
    a list of events the way [Execute] publishes one, with the error
    dropped, appends exactly that list. *)
Theorem MockEventPublisher_records_even_when_failing (evs : list StockAddedEvent)
  (m : MockEventPublisher) :
  for_each (fun ev => discard_error (MockEventPublisher_Publish ev)) evs m =
    (Return tt, {| mock_Published := mock_Published m ++ evs;
                   mock_PublishErr := mock_PublishErr m |}) /\
  forall ev, MockEventPublisher_Publish ev m =
    (result_of (mock_PublishErr m),
     {| mock_Published := mock_Published m ++ [ev];
        mock_PublishErr := mock_PublishErr m |}).
Proof.
  split; [| reflexivity].
  revert m. induction evs as [| ev evs IH]; intros m.
  - cbn. unfold ret. rewrite app_nil_r. destruct m; reflexivity.
  - cbn [for_each]. unfold bind, discard_error at 1, MockEventPublisher_Publish at 1.
    assert (Hstep : forall r : outcome unit,
               r = result_of (mock_PublishErr m) ->
               match r with Fail _ => (Return tt) | r' => r' end = Return tt).
    { intros r ->. destruct (mock_PublishErr m); reflexivity. }
    destruct (result_of (mock_PublishErr m)) as [[] | e |] eqn:Hres;
      try (destruct (mock_PublishErr m); discriminate Hres);
      rewrite IH; cbn [mock_Published mock_PublishErr]; rewrite <- app_assoc; reflexivity.
Qed.

(** X19: the notification mock counts low-stock calls the way Go counts:
    after [n] calls the counter holds the count it started from plus [n],
    wrapped around like any [int]; the stock alerts it has recorded are
    untouched. *)
Theorem MockNotificationService_counts_calls (calls : list (ptr * Z))
  (m : MockNotificationService) :
  snd (for_each (fun c => discard_error
                            (MockNotificationService_SendLowStockAlert (fst c) (snd c)))
                calls m) =
    {| mock_SendStockAlertErr := mock_SendStockAlertErr m;
       mock_SendLowStockAlertErr := mock_SendLowStockAlertErr m;
       mock_StockAlerts := mock_StockAlerts m;
       mock_LowStockCalls :=
         if decide (calls = []) then mock_LowStockCalls m
         else wrap (mock_LowStockCalls m + Z.of_nat (length calls)) |}.
Proof.
  revert m. induction calls as [| c calls IH]; intros [e1 e2 alerts n].
  - reflexivity.
  - cbn [for_each]. unfold bind, discard_error at 1,
      MockNotificationService_SendLowStockAlert at 1.
    cbn [mock_SendStockAlertErr mock_SendLowStockAlertErr mock_StockAlerts
         mock_LowStockCalls].
    destruct e2 as [e |]; cbn [result_of]; rewrite IH;
    cbn [mock_SendStockAlertErr mock_SendLowStockAlertErr mock_StockAlerts
         mock_LowStockCalls];
    (f_equal;
     destruct (decide (c :: calls = [])) as [Hnil | _]; [discriminate Hnil |];
     destruct calls as [| c' calls'];
     [ destruct (decide (@nil (ptr * Z) = [])) as [_ | Hne]; [reflexivity | contradiction]
     | destruct (decide (c' :: calls' = [])) as [Hnil | _]; [discriminate Hnil |];
       unfold int_add, wrap; cbn [length];
       rewrite !Nat2Z.inj_succ;
       replace (n + Z.succ (Z.succ (Z.of_nat (length calls'))) + 2 ^ 63)
         with ((n + 1 + 2 ^ 63) + Z.succ (Z.of_nat (length calls'))) by lia;
       replace ((n + 1 + 2 ^ 63) `mod` 2 ^ 64 - 2 ^ 63 +
                Z.succ (Z.of_nat (length calls')) + 2 ^ 63)
         with ((n + 1 + 2 ^ 63) `mod` 2 ^ 64 +
               Z.succ (Z.of_nat (length calls'))) by lia;
       rewrite Zplus_mod_idemp_l; reflexivity ]).
Qed.

(** ** The HTTP handler on top of the use case *)

Lemma handleError_status (err : error) :
  reply_status (handleError err) = 400 \/
  reply_status (handleError err) = 404 \/
  reply_status (handleError err) = 500.
Proof. destruct err; cbn; auto. Qed.

Section Handler.

Variable S : Type.
Variable wallclock : nat -> Time.
Variable format_RFC3339 : Time -> string.
Variable uc : addStockUseCase S.

Local Abbreviation handler := (AddStock_handler wallclock format_RFC3339 uc).

(** X20: requests that are turned down before anything is touched. A
    body that does not parse is answered 400; a body with an empty
    product id is answered 500 with nothing but "Internal server error",
    because [ErrInvalidProductID] is not among the errors the handler
    maps (the message goes to the log); an empty tenant id is answered
    404 [TENANT_NOT_FOUND]; a quantity of zero or less is answered 400
    [INVALID_QUANTITY]. The validation tags of the DTO play no part: it
    is the use case that refuses. In all four cases no port is called
    and the world is as it was. *)
Theorem requests_turned_down_at_the_door (c : fiber_Ctx) (w : World S)
  (req : http_AddStockRequest) (userID : string) :
  (BodyParser c = None ->
   handler c (start w) =
     (Return {| reply_status := 400;
                reply_body := json_ErrorResponse
                                (mkErrorResponse "Invalid request format" EmptyString
                                                 EmptyString);
                logged := [] |},
      start w)) /\
  (BodyParser c = Some req -> Locals_user_id c = Some userID ->
   (body_product_id req = EmptyString ->
    handler c (start w) =
      (Return {| reply_status := 500;
                 reply_body := json_ErrorResponse
                                 (mkErrorResponse "Internal server error" EmptyString
                                                  EmptyString);
                 logged := ["Internal error: invalid product id"] |},
       start w)) /\
   (body_product_id req <> EmptyString -> body_tenant_id req = EmptyString ->
    handler c (start w) =
      (Return {| reply_status := 404;
                 reply_body := json_ErrorResponse
                                 (mkErrorResponse "Tenant not found" "TENANT_NOT_FOUND"
                                                  EmptyString);
                 logged := [] |},
       start w)) /\
   (body_product_id req <> EmptyString -> body_tenant_id req <> EmptyString ->
    body_quantity req <= 0 ->
    handler c (start w) =
      (Return {| reply_status := 400;
                 reply_body := json_ErrorResponse
                                 (mkErrorResponse "Quantity must be positive"
                                                  "INVALID_QUANTITY" EmptyString);
                 logged := [] |},
       start w))).
Proof.
  unfold AddStock_handler, StockHandler_AddStock, AddStockUseCase_Execute,
    Execute, bind, check, validateRequest.
  split; [intros ->; reflexivity |].
  intros -> ->. cbn [ProductID TenantID Quantity]. split; [| split].
  - intros ->. reflexivity.
  - intros Hp ->. destruct (String.eqb_spec (body_product_id req) EmptyString);
      [contradiction | reflexivity].
  - intros Hp Ht Hq.
    destruct (String.eqb_spec (body_product_id req) EmptyString); [contradiction |].
    destruct (String.eqb_spec (body_tenant_id req) EmptyString); [contradiction |].
    destruct (Z.leb_spec (body_quantity req) 0); [reflexivity | lia].
Qed.

(** X21: a request over the ceiling, end to end. When the stock plus the
    quantity of the body exceeds the tenant's ceiling, the handler answers
    400 [STOCK_LIMIT_EXCEEDED], and the error text spells out the ceiling,
    the current stock, the quantity and the sum in decimal; nothing was
    saved, recorded or committed, and the transaction was rolled back. *)
Theorem over_the_limit_is_answered_400 (c : fiber_Ctx) (req : http_AddStockRequest)
  (userID : string) (w w1 w2 w3 w4 : World S) (tenant product : ptr) (t2 t : Tenant)
  (p : Product) (rolled : outcome unit) :
  BodyParser c = Some req ->
  Locals_user_id c = Some userID ->
  body_product_id req <> EmptyString ->
  body_tenant_id req <> EmptyString ->
  0 < body_quantity req ->
  Begin (uow uc) w = (Return tt, w1) ->
  Tenants_FindByID_op (Tenants (uow uc)) (body_tenant_id req) w1 = (Return tenant, w2) ->
  tenant_at w2 tenant = Some t2 ->
  IsActive t2 = true ->
  Products_FindByID_op (Products (uow uc)) (body_product_id req) w2 = (Return product, w3) ->
  product_at w3 product = Some p ->
  tenant_at w3 tenant = Some t ->
  int_add (Value (CurrentStock p)) (body_quantity req) > Value (MaxStock t) ->
  Rollback (uow uc) w3 = (rolled, w4) ->
  rolled <> Panic ->
  handler c (start w) =
    (Return {| reply_status := 400;
               reply_body :=
                 json_ErrorResponse
                   (mkErrorResponse
                      ("cannot exceed max stock of " +:+ fmt_d (Value (MaxStock t)) +:+
                       ". Current: " +:+ fmt_d (Value (CurrentStock p)) +:+
                       ", Adding: " +:+ fmt_d (body_quantity req) +:+
                       ", Would be: " +:+
                       fmt_d (int_add (Value (CurrentStock p)) (body_quantity req)))
                      "STOCK_LIMIT_EXCEEDED" EmptyString);
               logged := [] |},
     {| world := w4;
        trace := [(uow_Begin, returned_nil);
                  (Tenants_FindByID (body_tenant_id req), returned_nil);
                  (Products_FindByID (body_product_id req), returned_nil);
                  (uow_Rollback, status_of rolled)];
        goroutines := [];
        ticks := 1 |}).
Proof.
  intros Hbody Huser Hpid Htid Hq Hbegin Hfind Ht2 Hactive Hload Hp Ht Hover Hroll Hnopanic.
  set (appReq := {| ProductID := body_product_id req; Quantity := body_quantity req;
                    TenantID := body_tenant_id req; Notes := body_notes req;
                    AddedBy := userID |}).
  assert (Hv : validateRequest appReq = None).
  { unfold validateRequest, appReq. cbn [ProductID TenantID Quantity].
    destruct (String.eqb_spec (body_product_id req) EmptyString); [contradiction |].
    destruct (String.eqb_spec (body_tenant_id req) EmptyString); [contradiction |].
    destruct (Z.leb_spec (body_quantity req) 0); [lia | reflexivity]. }
  assert (Hexceeds : Exceeds (Add (CurrentStock p) {| value := Quantity appReq |}) (MaxStock t)
                     = true).
  { apply Exceeds_gt. exact Hover. }
  pose proof (quantity_accepted appReq Hv) as Hquantity.
  assert (Hrun : Execute wallclock uc appReq (start w) =
                 (Fail (ErrStockExceedsLimit (Value (CurrentStock p)) (body_quantity req)
                          (int_add (Value (CurrentStock p)) (body_quantity req))
                          (Value (MaxStock t))),
                  {| world := w4;
                     trace := [(uow_Begin, returned_nil);
                               (Tenants_FindByID (body_tenant_id req), returned_nil);
                               (Products_FindByID (body_product_id req), returned_nil);
                               (uow_Rollback, status_of rolled)];
                     goroutines := [];
                     ticks := 1 |})).
  { change (body_tenant_id req) with (TenantID appReq) in Hfind |- *.
    change (body_product_id req) with (ProductID appReq) in Hload |- *.
    follow_run. destruct rolled; [reflexivity | reflexivity | contradiction]. }
  unfold AddStock_handler, StockHandler_AddStock, AddStockUseCase_Execute.
  rewrite Hbody, Huser. fold appReq. rewrite Hrun. reflexivity.
Qed.

(** X22: a 200 means a committed transaction. Whenever the handler
    answers, the status is 200, 400, 404 or 500, and the handler itself
    never returns an error. With 200 the body says success and carries
    the quantity of the request as added, [Save], [Create] and [Commit]
    have all returned nil, and the audit record names the user of the
    request context as the actor and carries the note and the quantity of
    the body. With any other status no [Commit] has returned nil. *)
Theorem status_200_means_committed (c : fiber_Ctx) (w : World S) :
  match handler c (start w) with
  | (Return h, st) =>
      (reply_status h = 200 \/ reply_status h = 400 \/
       reply_status h = 404 \/ reply_status h = 500) /\
      (reply_status h = 200 ->
         exists req userID r ev,
           BodyParser c = Some req /\ Locals_user_id c = Some userID /\
           reply_body h = json_AddStockResponse r /\
           json_success r = true /\
           json_added r = body_quantity req /\
           In (StockHistory_Create ev, returned_nil) (trace st) /\
           sae_AddedBy ev = userID /\
           sae_Notes ev = body_notes req /\
           Value (sae_Quantity ev) = body_quantity req /\
           (exists p v, In (Products_Save p (Some v), returned_nil) (trace st)) /\
           In (uow_Commit, returned_nil) (trace st)) /\
      (reply_status h <> 200 ->
         forall s, In (uow_Commit, s) (trace st) -> s <> returned_nil)
  | (Fail _, _) => False
  | (Panic, _) => True
  end.
Proof.
  unfold AddStock_handler, StockHandler_AddStock, AddStockUseCase_Execute.
  destruct (BodyParser c) as [req |]; cbn;
    [| split; [auto | split; [discriminate | intros _ s []]]].
  destruct (Locals_user_id c) as [userID |]; [| exact I].
  set (appReq := {| ProductID := body_product_id req; Quantity := body_quantity req;
                    TenantID := body_tenant_id req; Notes := body_notes req;
                    AddedBy := userID |}).
  destruct (Execute wallclock uc appReq (start w)) as [r st] eqn:Hrun.
  paths Hrun; injection Hrun as <- <-; try exact I;
    unfold bind, time_Now, ret; cbn [reply_status reply_body trace];
    first
      [ (* an error: mapped by handleError *)
        split; [right; apply handleError_status |];
        split; [intros H200;
                match goal with
                | H200 : reply_status (handleError ?e) = 200 |- _ =>
                    destruct (handleError_status e) as [Hs | [Hs | Hs]];
                    rewrite Hs in H200; discriminate H200
                end |];
        intros _ st_commit Hcommitted; not_in_trace Hcommitted; congruence
      | (* a response *)
        split; [left; reflexivity |];
        split; [| intros Hne; contradiction Hne; reflexivity];
        intros _;
        match goal with
        | Hq : NewStockQuantity (Quantity appReq) = (_, None) |- _ =>
            unfold NewStockQuantity in Hq;
            destruct (Quantity appReq <? 0); [discriminate Hq |];
            injection Hq as <-
        end;
        eexists req, userID, _, _;
        split; [reflexivity |]; split; [reflexivity |]; split; [reflexivity |];
        split; [reflexivity |]; split; [reflexivity |];
        split; [in_trace |];
        split; [reflexivity |]; split; [reflexivity |]; split; [reflexivity |];
        split; [eexists _, _; in_trace | in_trace] ].
Qed.

End Handler.

(** ** The further properties on the test bench *)

Lemma AddStock_overflow_passes_limit_witness :
  fst (Product_AddStock Bench.clock (Some 0%nat) {| value := 1 |} {| value := 100 |}
         (start (Bench.bench 100 9223372036854775807 true None))) = Return None /\
  exists new : Product,
    product_at (world (snd (Product_AddStock Bench.clock (Some 0%nat) {| value := 1 |}
                              {| value := 100 |}
                              (start (Bench.bench 100 9223372036854775807 true None)))))
               (Some 0%nat) = Some new /\
    Value (CurrentStock new) = 9223372036854775807 + 1 - 2 ^ 64 /\
    Value (CurrentStock new) < 0.
Proof.
  apply (AddStock_overflow_passes_limit Bench.State Bench.clock (Some 0%nat)
           {| value := 1 |} {| value := 100 |}
           (start (Bench.bench 100 9223372036854775807 true None))
           (mkProduct "p1" "Widget" {| value := 9223372036854775807 |} 0 "t1")).
  - reflexivity.
  - vm_compute. split; discriminate.
  - vm_compute. split; discriminate.
  - reflexivity.
  - vm_compute. discriminate.
Defined.

Lemma begin_failure_ends_the_run_witness :
  fst (Bench.run false (Bench.request 5)
         (bench_with_driver
            (Bench.mkScriptedDriver (Some (errors_New "no session")) None None None [])
            (Bench.bench 100 10 true None)))
    = Fail (errors_New "no session") /\
  trace (snd (Bench.run false (Bench.request 5)
                (bench_with_driver
                   (Bench.mkScriptedDriver (Some (errors_New "no session")) None None None [])
                   (Bench.bench 100 10 true None))))
    = [(uow_Begin, returned_err (errors_New "no session"))].
Proof.
  pose proof (begin_failure_ends_the_run Bench.State Bench.clock (Bench.usecase false)
                (Bench.request 5)
                (bench_with_driver
                   (Bench.mkScriptedDriver (Some (errors_New "no session")) None None None [])
                   (Bench.bench 100 10 true None))
                _ _ eq_refl eq_refl) as Hrun.
  unfold Bench.run. rewrite Hrun. split; reflexivity.
Defined.

Lemma no_publisher_no_publication_witness :
  eventPublisher (Bench.usecase false) = None /\
  ~ In (eventPublisher_Publish
          (mkStockAddedEvent "p1" "t1" {| value := 15 |} {| value := 10 |} {| value := 25 |}
                             "u1" 3602000000000 "restock"),
        returned_nil)
       (trace (snd (Execute Bench.clock (Bench.usecase false) (Bench.request 15)
                      (start (Bench.bench 100 10 true None))))).
Proof.
  split; [reflexivity |].
  apply (no_publisher_no_publication Bench.State Bench.clock (Bench.usecase false)).
  reflexivity.
Defined.

Lemma publish_failure_is_swallowed_witness :
  fst (Bench.run true (Bench.request 15)
         (bench_with_publisher (mkMockEventPublisher [] (Some (errors_New "sink down")))
            (Bench.bench 100 10 true None)))
    = Return {| resp_ProductID := "p1"; resp_ProductName := "Widget";
                PreviousStock := 10; NewStock := 25; Added := 15;
                MaxAllowed := 100; Utilization := 25%float |} /\
  exists s, In (uow_Commit, s)
              (trace (snd (Bench.run true (Bench.request 15)
                             (bench_with_publisher
                                (mkMockEventPublisher [] (Some (errors_New "sink down")))
                                (Bench.bench 100 10 true None))))).
Proof.
  split; [vm_compute; reflexivity |].
  destruct (publish_failure_is_swallowed Bench.State Bench.clock (Bench.usecase true)
              (Bench.request 15)
              (bench_with_publisher (mkMockEventPublisher [] (Some (errors_New "sink down")))
                 (Bench.bench 100 10 true None))
              (mkStockAddedEvent "p1" "t1" {| value := 15 |} {| value := 10 |}
                                 {| value := 25 |} "u1" 3602000000000 "restock")
              (errors_New "sink down")) as (s & Hin & _).
  - vm_compute. do 5 right. left. reflexivity.
  - exists s. exact Hin.
Defined.

Lemma audit_event_matches_response_witness :
  exists (resp : AddStockResponse) (ev : StockAddedEvent),
    fst (Bench.run true (Bench.request 15) (Bench.bench 100 10 true None)) = Return resp /\
    In (StockHistory_Create ev, returned_nil)
       (trace (snd (Bench.run true (Bench.request 15) (Bench.bench 100 10 true None)))) /\
    sae_AddedBy ev = "u1" /\
    Value (sae_Previous ev) = PreviousStock resp /\
    Value (sae_Current ev) = NewStock resp.
Proof.
  set (run := Bench.run true (Bench.request 15) (Bench.bench 100 10 true None)).
  set (resp := {| resp_ProductID := "p1"; resp_ProductName := "Widget";
                  PreviousStock := 10; NewStock := 25; Added := 15;
                  MaxAllowed := 100; Utilization := 25%float |}).
  assert (Hrun : run = (Return resp, snd run)).
  { rewrite (surjective_pairing run) at 1.
    apply (f_equal2 pair); [vm_compute; reflexivity | reflexivity]. }
  destruct (audit_event_matches_response Bench.State Bench.clock (Bench.usecase true)
              (Bench.request 15) (Bench.bench 100 10 true None) resp (snd run)
              (bench_product_left_alone true) Hrun)
    as (ev & Hin & _ & _ & _ & _ & Hby & _ & _ & Hprev & Hcur).
  exists resp, ev.
  split; [exact (f_equal fst Hrun) |]. split; [exact Hin |].
  split; [exact Hby |]. split; [exact Hprev | exact Hcur].
Defined.

Lemma alerts_match_response_witness :
  exists resp : AddStockResponse,
    fst (Bench.run false (Bench.request 2) (Bench.bench 100 5 true None)) = Return resp /\
    NewStock resp = 7 /\
    (exists p, In (go_SendLowStockAlert p 10, started)
                 (trace (snd (Bench.run false (Bench.request 2)
                                (Bench.bench 100 5 true None))))) /\
    length (goroutines (snd (Bench.run false (Bench.request 2)
                               (Bench.bench 100 5 true None)))) = 1%nat.
Proof.
  set (run := Bench.run false (Bench.request 2) (Bench.bench 100 5 true None)).
  set (resp := {| resp_ProductID := "p1"; resp_ProductName := "Widget";
                  PreviousStock := 5; NewStock := 7; Added := 2;
                  MaxAllowed := 100; Utilization := 0x1.c000000000001p+2%float |}).
  assert (Hrun : run = (Return resp, snd run)).
  { rewrite (surjective_pairing run) at 1.
    apply (f_equal2 pair); [vm_compute; reflexivity | reflexivity]. }
  destruct (alerts_match_response Bench.State Bench.clock (Bench.usecase false)
              (Bench.request 2) (Bench.bench 100 5 true None) resp (snd run)
              (bench_product_left_alone false) Hrun)
    as (Hlow & _ & _ & Hcount).
  exists resp.
  split; [exact (f_equal fst Hrun) |]. split; [reflexivity |].
  split; [apply Hlow; reflexivity | exact Hcount].
Defined.

Lemma save_failure_keeps_the_addition_witness :
  fst (Bench.run false (Bench.request 3)
         (bench_with_product_repo
            (mkMockProductRepo (Some 0%nat) None (Some (errors_New "save product failed")))
            (Bench.bench 100 5 true None)))
    = Fail (errors_New "save product failed") /\
  CurrentStock <$>
    products (world (snd (Bench.run false (Bench.request 3)
                (bench_with_product_repo
                   (mkMockProductRepo (Some 0%nat) None
                                      (Some (errors_New "save product failed")))
                   (Bench.bench 100 5 true None))))) !! 0%nat
    = Some {| value := 8 |}.
Proof.
  pose proof (save_failure_keeps_the_addition Bench.State Bench.clock (Bench.usecase false)
                (Bench.request 3)
                (bench_with_product_repo
                   (mkMockProductRepo (Some 0%nat) None
                                      (Some (errors_New "save product failed")))
                   (Bench.bench 100 5 true None))
                _ _ _ _ _ _ _ _ _ _ _ _
                eq_refl eq_refl eq_refl eq_refl eq_refl eq_refl eq_refl eq_refl
                ltac:(vm_compute; discriminate) eq_refl eq_refl ltac:(discriminate)) as Hrun.
  unfold Bench.run. rewrite Hrun. split; reflexivity.
Defined.

Lemma mongo_Rollback_after_failed_Commit_witness :
  exists s,
    session (snd (mongo_Commit Bench.ScriptedDriver nat Bench.CommitTransaction
                    Bench.EndSession
                    {| session := Some 1%nat;
                       driver := Bench.mkScriptedDriver
                                   None None (Some (errors_New "commit failed")) None [] |}))
      = Some s /\
    fst (mongo_Rollback Bench.ScriptedDriver nat Bench.AbortTransaction Bench.EndSession
           (snd (mongo_Commit Bench.ScriptedDriver nat Bench.CommitTransaction
                   Bench.EndSession
                   {| session := Some 1%nat;
                      driver := Bench.mkScriptedDriver
                                  None None (Some (errors_New "commit failed")) None [] |})))
      = Return tt.
Proof.
  destruct (mongo_Rollback_after_failed_Commit Bench.ScriptedDriver nat
              Bench.CommitTransaction Bench.AbortTransaction Bench.EndSession
              {| session := Some 1%nat;
                 driver := Bench.mkScriptedDriver
                             None None (Some (errors_New "commit failed")) None [] |}
              _ _ eq_refl) as (s & Hs & Hrollback & _).
  exists s. split; [exact Hs |].
  exact (f_equal fst (Hrollback _ eq_refl)).
Defined.

Lemma no_session_left_behind_witness :
  fst (Bench.run true (Bench.request 15)
         (Bench.bench 100 10 true (Some (errors_New "commit failed"))))
    = Fail (errors_New "commit failed") /\
  session (uow_state (ext (world (snd (Bench.run true (Bench.request 15)
             (Bench.bench 100 10 true (Some (errors_New "commit failed")))))))) = None.
Proof.
  split; [vm_compute; reflexivity |].
  set (run := Bench.run true (Bench.request 15)
                (Bench.bench 100 10 true (Some (errors_New "commit failed")))).
  apply (no_session_left_behind Bench.ScriptedDriver nat Bench.Mocks
           Bench.StartSession Bench.StartTransaction Bench.CommitTransaction
           Bench.AbortTransaction Bench.EndSession
           Bench.products_repo Bench.tenants_repo Bench.history_repo
           Bench.clock Bench.notifier (Some Bench.publisher)
           (Bench.request 15)
           (Bench.bench 100 10 true (Some (errors_New "commit failed")))
           (snd (Begin Bench.unit_of_work
                   (Bench.bench 100 10 true (Some (errors_New "commit failed")))))
           (fst run) (snd run)).
  - reflexivity.
  - vm_compute. reflexivity.
  - exact (surjective_pairing run).
  - vm_compute. reflexivity.
Defined.

Lemma requests_turned_down_at_the_door_witness :
  fst (AddStock_handler Bench.clock bench_format (Bench.usecase true)
         (bench_ctx "p1" 0 "t1") (start (Bench.bench 100 10 true None)))
    = Return {| reply_status := 400;
                reply_body := json_ErrorResponse
                                (mkErrorResponse "Quantity must be positive"
                                                 "INVALID_QUANTITY" EmptyString);
                logged := [] |} /\
  fst (AddStock_handler Bench.clock bench_format (Bench.usecase true)
         (bench_ctx EmptyString 5 "t1") (start (Bench.bench 100 10 true None)))
    = Return {| reply_status := 500;
                reply_body := json_ErrorResponse
                                (mkErrorResponse "Internal server error" EmptyString
                                                 EmptyString);
                logged := ["Internal error: invalid product id"] |}.
Proof.
  split.
  - destruct (requests_turned_down_at_the_door Bench.State Bench.clock bench_format
                (Bench.usecase true) (bench_ctx "p1" 0 "t1")
                (Bench.bench 100 10 true None)
                (mkHttpAddStockRequest "p1" 0 "t1" "restock") "u1")
      as (_ & Hdoor).
    destruct (Hdoor eq_refl eq_refl) as (_ & _ & Hquantity).
    rewrite Hquantity; [reflexivity | discriminate | discriminate | cbn; lia].
  - destruct (requests_turned_down_at_the_door Bench.State Bench.clock bench_format
                (Bench.usecase true) (bench_ctx EmptyString 5 "t1")
                (Bench.bench 100 10 true None)
                (mkHttpAddStockRequest EmptyString 5 "t1" "restock") "u1")
      as (_ & Hdoor).
    destruct (Hdoor eq_refl eq_refl) as (Hproduct & _).
    rewrite Hproduct; reflexivity.
Defined.

Lemma over_the_limit_is_answered_400_witness :
  fst (AddStock_handler Bench.clock bench_format (Bench.usecase true)
         (bench_ctx "p1" 5 "t1") (start (Bench.bench 10 8 true None)))
    = Return {| reply_status := 400;
                reply_body :=
                  json_ErrorResponse
                    (mkErrorResponse
                       "cannot exceed max stock of 10. Current: 8, Adding: 5, Would be: 13"
                       "STOCK_LIMIT_EXCEEDED" EmptyString);
                logged := [] |}.
Proof.
  pose proof (over_the_limit_is_answered_400 Bench.State Bench.clock bench_format
                (Bench.usecase true) (bench_ctx "p1" 5 "t1")
                (mkHttpAddStockRequest "p1" 5 "t1" "restock") "u1"
                (Bench.bench 10 8 true None) _ _ _ _ _ _ _ _ _ _
                eq_refl eq_refl ltac:(discriminate) ltac:(discriminate) ltac:(cbn; lia)
                eq_refl eq_refl eq_refl eq_refl eq_refl eq_refl eq_refl
                ltac:(vm_compute; reflexivity) eq_refl ltac:(discriminate)) as Hreply.
  rewrite Hreply. vm_compute. reflexivity.
Defined.

(** ** The steps of a successful run *)

Lemma product_at_frame {S : Type} (w w' : World S) (p : ptr) :
  products w' = products w -> product_at w' p = product_at w p.
Proof. intros Heq. destruct p; cbn; [rewrite Heq |]; reflexivity. Qed.

Lemma tenant_at_frame {S : Type} (w w' : World S) (t : ptr) :
  tenants w' = tenants w -> tenant_at w' t = tenant_at w t.
Proof. intros Heq. destruct t; cbn; [rewrite Heq |]; reflexivity. Qed.

(** Bring every reading of an entity back to the world in which the
    product was stored, through the collaborators that keep the entities. *)
Ltac settle_entities Hsave Hcreate Hpublish Hcommit :=
  repeat match goal with
    | Hop : Products_Save_op _ _ ?w0 = (_, ?w'), Hd : product_at ?w' _ = _ |- _ =>
        rewrite (product_at_frame _ _ _ (proj1 (Hsave _ _ _ _ Hop))) in Hd
    | Hop : Products_Save_op _ _ ?w0 = (_, ?w'), Hd : tenant_at ?w' _ = _ |- _ =>
        rewrite (tenant_at_frame _ _ _ (proj2 (Hsave _ _ _ _ Hop))) in Hd
    | Hop : StockHistory_Create_op _ _ ?w0 = (_, ?w'), Hd : product_at ?w' _ = _ |- _ =>
        rewrite (product_at_frame _ _ _ (proj1 (Hcreate _ _ _ _ Hop))) in Hd
    | Hop : StockHistory_Create_op _ _ ?w0 = (_, ?w'), Hd : tenant_at ?w' _ = _ |- _ =>
        rewrite (tenant_at_frame _ _ _ (proj2 (Hcreate _ _ _ _ Hop))) in Hd
    | Hpub : eventPublisher _ = Some ?pub,
      Hop : Publish ?pub _ ?w0 = (_, ?w'), Hd : product_at ?w' _ = _ |- _ =>
        rewrite (product_at_frame _ _ _ (proj1 (Hpublish _ _ Hpub _ _ _ Hop))) in Hd
    | Hpub : eventPublisher _ = Some ?pub,
      Hop : Publish ?pub _ ?w0 = (_, ?w'), Hd : tenant_at ?w' _ = _ |- _ =>
        rewrite (tenant_at_frame _ _ _ (proj2 (Hpublish _ _ Hpub _ _ _ Hop))) in Hd
    | Hop : Commit _ ?w0 = (_, ?w'), Hd : product_at ?w' _ = _ |- _ =>
        rewrite (product_at_frame _ _ _ (proj1 (Hcommit _ _ _ Hop))) in Hd
    | Hop : Commit _ ?w0 = (_, ?w'), Hd : tenant_at ?w' _ = _ |- _ =>
        rewrite (tenant_at_frame _ _ _ (proj2 (Hcommit _ _ _ Hop))) in Hd
    | Hd : product_at (mkWorld _ _ _) (Some _) = _ |- _ =>
        rewrite product_at_store in Hd
    | Hd : tenant_at (mkWorld _ _ _) _ = _ |- _ =>
        rewrite tenant_at_store in Hd
    | Hd : Some _ = Some _ |- _ => injection Hd as <-
    end.

Section SuccessfulRunSteps.

Variable S : Type.
Variable wallclock : nat -> Time.
Variable uc : addStockUseCase S.

(** A successful run, step by step, when the collaborators called after
    the stock addition keep the entities: the calls that returned nil, the
    worlds between them, and the response in terms of the product and the
    tenant as they were loaded. *)
Lemma successful_run_steps (req : AddStockRequest) (w : World S)
  (resp : AddStockResponse) (st : St S) :
  entities_left_alone uc ->
  Execute wallclock uc req (start w) = (Return resp, st) ->
  exists (w1 w2 w3 w4 w5 : World S) (tenant : ptr) (l : loc) (t : Tenant) (p : Product)
         (updated created : Time),
    0 < Quantity req /\
    Begin (uow uc) w = (Return tt, w1) /\
    Tenants_FindByID_op (Tenants (uow uc)) (TenantID req) w1 = (Return tenant, w2) /\
    Products_FindByID_op (Products (uow uc)) (ProductID req) w2 = (Return (Some l), w3) /\
    (exists t2, tenant_at w2 tenant = Some t2 /\ IsActive t2 = true) /\
    tenant_at w3 tenant = Some t /\
    product_at w3 (Some l) = Some p /\
    Products_Save_op (Products (uow uc)) (Some l)
      {| products :=
           <[l := {| Product_ID := Product_ID p;
                     Product_Name := Product_Name p;
                     CurrentStock := {| value := NewStock resp |};
                     LastUpdated := updated;
                     Product_TenantID := Product_TenantID p |}]> (products w3);
         tenants := tenants w3;
         ext := ext w3 |} = (Return tt, w4) /\
    StockHistory_Create_op (StockHistory (uow uc))
      {| sae_ProductID := Product_ID p;
         sae_TenantID := TenantID req;
         sae_Quantity := {| value := Quantity req |};
         sae_Previous := CurrentStock p;
         sae_Current := {| value := NewStock resp |};
         sae_AddedBy := AddedBy req;
         sae_Timestamp := created;
         sae_Notes := Notes req |} w4 = (Return tt, w5) /\
    resp_ProductID resp = Product_ID p /\
    resp_ProductName resp = Product_Name p /\
    PreviousStock resp = Value (CurrentStock p) /\
    NewStock resp = int_add (Value (CurrentStock p)) (Quantity req) /\
    Added resp = Quantity req /\
    MaxAllowed resp = Value (MaxStock t) /\
    NewStock resp <= MaxAllowed resp.
Proof.
  intros Halone Hrun.
  paths Hrun; try discriminate Hrun; injection Hrun as <- <-;
    cbn [resp_ProductID resp_ProductName NewStock PreviousStock Added MaxAllowed];
    destruct Halone as (Hsave & Hcreate & Hpublish & Hcommit);
    settle_entities Hsave Hcreate Hpublish Hcommit;
    repeat match goal with
           | H1 : tenant_at ?w0 ?x = Some _, H2 : tenant_at ?w0 ?x = Some _ |- _ =>
               rewrite H1 in H2; injection H2 as <-
           end;
    match goal with
    | Hv : validateRequest req = None |- _ =>
        pose proof (validateRequest_ok req Hv) as (_ & _ & Hpositive);
        pose proof (quantity_accepted req Hv) as Hquantity
    end;
    match goal with
    | Hq : NewStockQuantity (Quantity req) = (_, None) |- _ =>
        rewrite Hquantity in Hq; injection Hq as <-
    end;
    repeat match goal with u : unit |- _ => destruct u end;
    match goal with
    | Hexceeds : Exceeds _ _ = false |- _ =>
        unfold Exceeds in Hexceeds; apply Z.ltb_ge in Hexceeds
    end;
    cbn [Product_ID Product_Name CurrentStock LastUpdated Product_TenantID
         Add Value value] in *;
    match goal with
    | Hstored : Products_Save_op _ _ _ = _ |- _ => rewrite insert_insert_eq in Hstored
    end;
    (eexists _, _, _, _, _, _, _, _, _, _, _;
     split; [exact Hpositive |];
     split; [first [reflexivity | eassumption] |];
     split; [first [reflexivity | eassumption] |];
     split; [first [reflexivity | eassumption] |];
     split; [eexists; split; eassumption |];
     split; [first [reflexivity | eassumption] |];
     split; [first [reflexivity | eassumption] |];
     split; [first [reflexivity | eassumption] |];
     split; [first [reflexivity | eassumption] |];
     repeat split; first [reflexivity | assumption]).
Qed.

End SuccessfulRunSteps.

(** ** The Mongo repositories *)

Lemma NewStockQuantity_clamps (q : Z) :
  fst (NewStockQuantity q) = {| value := Z.max 0 q |}.
Proof.
  unfold NewStockQuantity, StockQuantity_zero.
  destruct (Z.ltb_spec q 0); cbn [fst]; f_equal; lia.
Qed.

Section MongoRepositoriesProperties.

Variable Driver : Type.
Variable Session : Type.
Variable ObjectID : Type.
Variable X : Type.
Variable primitive_ObjectIDFromHex : string -> ObjectID * option error.
Variable ObjectID_Hex : ObjectID -> string.
Variable products_FindOne : option Session -> ObjectID -> SO Driver (product_document ObjectID).
Variable products_UpdateOne : option Session -> ObjectID -> product_update -> SO Driver unit.
Variable tenants_FindOne : option Session -> string -> SO Driver tenant_document.
Variable stock_history_InsertOne :
  option Session -> history_document ObjectID -> SO Driver unit.

Local Abbreviation Db := (Backend Driver Session X).
Local Abbreviation session_of w := (session (uow_state (ext w))).
Local Abbreviation driver_of w := (driver (uow_state (ext w))).

(** A call to the driver changes the state of the driver and nothing
    else. *)
Lemma with_session_frame (A : Type) (f : option Session -> SO Driver A)
  (w w' : World Db) (r : outcome A) :
  with_session Driver Session X f w = (r, w') ->
  f (session_of w) (driver_of w) = (r, driver_of w') /\
  products w' = products w /\ tenants w' = tenants w /\
  session_of w' = session_of w /\
  collections (ext w') = collections (ext w).
Proof.
  unfold with_session, on_ext, on_uow, on_driver.
  destruct (f (session_of w) (driver_of w)) as [r0 d] eqn:Hf.
  intros [= <- <-]. cbn. repeat split; reflexivity.
Qed.

(** X23: what [FindByID] of the product repository returns. A product is
    never nil beside a nil error: it is a new one, built from the document
    found under the ObjectID of the hex string, and its stock is the
    stored one when that is not negative and zero otherwise, the error of
    [NewStockQuantity] being dropped. A string that is no ObjectID is
    answered [ErrInvalidProductID] without a call to the driver; the
    driver's [ErrNoDocuments] becomes [ErrProductNotFound], and any other
    error of the driver is wrapped as a database error. The products and
    tenants already loaded are left as they are. *)
Theorem mongo_FindByID_builds_a_new_product (productID : string) (w : World Db) :
  match mongoProductRepository_FindByID Driver Session ObjectID X
          primitive_ObjectIDFromHex ObjectID_Hex products_FindOne productID w with
  | (Return p, w') =>
      exists (l : loc) (objID : ObjectID) (doc : product_document ObjectID),
        p = Some l /\
        products w !! l = None /\
        products w' =
          <[l := {| Product_ID := ObjectID_Hex (bson_id doc);
                    Product_Name := bson_name doc;
                    CurrentStock := {| value := Z.max 0 (bson_current_stock doc) |};
                    LastUpdated := bson_last_updated doc;
                    Product_TenantID := bson_tenant_id doc |}]> (products w) /\
        tenants w' = tenants w /\
        primitive_ObjectIDFromHex productID = (objID, None) /\
        products_FindOne (session_of w) objID (driver_of w) = (Return doc, driver_of w')
  | (Fail e, w') =>
      products w' = products w /\ tenants w' = tenants w /\
      ((e = ErrInvalidProductID /\ w' = w /\
        exists objID e0, primitive_ObjectIDFromHex productID = (objID, Some e0)) \/
       (e = ErrProductNotFound /\
        exists objID err, products_FindOne (session_of w) objID (driver_of w)
                          = (Fail err, driver_of w') /\
                          is_ErrNoDocuments err = true) \/
       (exists objID err, products_FindOne (session_of w) objID (driver_of w)
                          = (Fail err, driver_of w') /\
                          is_ErrNoDocuments err = false /\
                          e = errors_New ("database error: " +:+ error_Error err)))
  | (Panic, w') => products w' = products w /\ tenants w' = tenants w
  end.
Proof.
  unfold mongoProductRepository_FindByID.
  destruct (primitive_ObjectIDFromHex productID) as [objID [e0 |]] eqn:Hhex.
  - split; [reflexivity |]. split; [reflexivity |]. left.
    split; [reflexivity |]. split; [reflexivity |]. exists objID, e0. reflexivity.
  - destruct (with_session Driver Session X (fun s => products_FindOne s objID) w)
      as [[doc | err |] w1] eqn:Hfind;
      apply with_session_frame in Hfind as (Hcall & Hproducts & Htenants & _ & _).
    + unfold new_product. cbn [products tenants ext].
      exists (fresh (dom (products w1))), objID, doc.
      split; [reflexivity |].
      split; [rewrite <- Hproducts; apply not_elem_of_dom, is_fresh |].
      split; [rewrite NewStockQuantity_clamps, Hproducts; reflexivity |].
      split; [exact Htenants |]. split; [reflexivity | exact Hcall].
    + destruct (is_ErrNoDocuments err) eqn:Hno.
      * split; [exact Hproducts |]. split; [exact Htenants |]. right. left.
        split; [reflexivity |]. exists objID, err. split; assumption.
      * split; [exact Hproducts |]. split; [exact Htenants |]. right. right.
        exists objID, err. repeat split; assumption.
    + split; assumption.
Qed.

(** X24: what [FindByID] of the tenant repository returns. The tenant is
    looked up under the string itself. A tenant is never nil beside a nil
    error; its stock limit is the stored one when that is not negative and
    zero otherwise. The driver's [ErrNoDocuments] becomes
    [ErrTenantNotFound], any other error of the driver is wrapped as a
    database error. *)
Theorem mongo_FindByID_builds_a_new_tenant (tenantID : string) (w : World Db) :
  match mongoTenantRepository_FindByID Driver Session X tenants_FindOne tenantID w with
  | (Return t, w') =>
      exists (l : loc) (doc : tenant_document),
        t = Some l /\
        tenants w !! l = None /\
        tenants w' =
          <[l := {| Tenant_ID := tenant_bson_id doc;
                    Tenant_Name := tenant_bson_name doc;
                    MaxStock := {| value := Z.max 0 (bson_max_stock doc) |};
                    IsActive := bson_is_active doc |}]> (tenants w) /\
        products w' = products w /\
        tenants_FindOne (session_of w) tenantID (driver_of w) = (Return doc, driver_of w')
  | (Fail e, w') =>
      products w' = products w /\ tenants w' = tenants w /\
      exists err, tenants_FindOne (session_of w) tenantID (driver_of w)
                  = (Fail err, driver_of w') /\
                  e = (if is_ErrNoDocuments err then ErrTenantNotFound
                       else errors_New ("database error: " +:+ error_Error err))
  | (Panic, w') => products w' = products w /\ tenants w' = tenants w
  end.
Proof.
  unfold mongoTenantRepository_FindByID.
  destruct (with_session Driver Session X (fun s => tenants_FindOne s tenantID) w)
    as [[doc | err |] w1] eqn:Hfind;
    apply with_session_frame in Hfind as (Hcall & Hproducts & Htenants & _ & _).
  - unfold new_tenant. cbn [products tenants ext].
    exists (fresh (dom (tenants w1))), doc.
    split; [reflexivity |].
    split; [rewrite <- Htenants; apply not_elem_of_dom, is_fresh |].
    split; [rewrite NewStockQuantity_clamps, Htenants; reflexivity |].
    split; [exact Hproducts | exact Hcall].
  - destruct (is_ErrNoDocuments err) eqn:Hno;
      (split; [exact Hproducts |]; split; [exact Htenants |];
       exists err; rewrite Hno; split; [exact Hcall | reflexivity]).
  - split; assumption.
Qed.


(** What the writes hand to the driver. *)
Lemma mongo_Save_calls_UpdateOne (product : ptr) (p : Product) (w w' : World Db)
  (r : outcome unit) :
  product_at w product = Some p ->
  mongoProductRepository_Save Driver Session ObjectID X primitive_ObjectIDFromHex
    products_UpdateOne product w = (r, w') ->
  products_UpdateOne (session_of w) (fst (primitive_ObjectIDFromHex (Product_ID p)))
    {| set_current_stock := Value (CurrentStock p);
       set_last_updated := LastUpdated p;
       inc_total_added := Value (CurrentStock p) |} (driver_of w) = (r, driver_of w') /\
  session_of w' = session_of w.
Proof.
  unfold mongoProductRepository_Save. intros ->. intros Hcall.
  apply with_session_frame in Hcall as (Hcall & _ & _ & Hsession & _).
  split; assumption.
Qed.

Lemma mongo_Save_keeps_entities (product : ptr) :
  keeps_entities (mongoProductRepository_Save Driver Session ObjectID X
                    primitive_ObjectIDFromHex products_UpdateOne product).
Proof.
  intros w w' r. unfold mongoProductRepository_Save.
  destruct (product_at w product).
  - intros Hcall. apply with_session_frame in Hcall as (_ & Hp & Ht & _). split; assumption.
  - intros [= _ <-]. split; reflexivity.
Qed.

Lemma mongo_Create_calls_InsertOne (event : StockAddedEvent) (w w' : World Db)
  (r : outcome unit) :
  mongoStockHistoryRepository_Create Driver Session ObjectID X primitive_ObjectIDFromHex
    stock_history_InsertOne event w = (r, w') ->
  stock_history_InsertOne (session_of w)
    {| bson_product_id := fst (primitive_ObjectIDFromHex (sae_ProductID event));
       history_bson_tenant_id := sae_TenantID event;
       bson_quantity := Value (sae_Quantity event);
       bson_previous_stock := Value (sae_Previous event);
       bson_new_stock := Value (sae_Current event);
       bson_added_by := sae_AddedBy event;
       bson_notes := sae_Notes event;
       bson_created_at := sae_Timestamp event;
       bson_operation := "stock_add" |} (driver_of w) = (r, driver_of w') /\
  products w' = products w /\ tenants w' = tenants w.
Proof.
  unfold mongoStockHistoryRepository_Create. intros Hcall.
  apply with_session_frame in Hcall as (Hcall & Hp & Ht & _). repeat split; assumption.
Qed.

Lemma mongo_FindByID_product_returns (productID : string) (p : ptr) (w w' : World Db) :
  mongoProductRepository_FindByID Driver Session ObjectID X
    primitive_ObjectIDFromHex ObjectID_Hex products_FindOne productID w = (Return p, w') ->
  exists (l : loc) (objID : ObjectID) (doc : product_document ObjectID),
    p = Some l /\
    products w' !! l =
      Some {| Product_ID := ObjectID_Hex (bson_id doc);
              Product_Name := bson_name doc;
              CurrentStock := {| value := Z.max 0 (bson_current_stock doc) |};
              LastUpdated := bson_last_updated doc;
              Product_TenantID := bson_tenant_id doc |} /\
    tenants w' = tenants w /\
    session_of w' = session_of w /\
    primitive_ObjectIDFromHex productID = (objID, None) /\
    products_FindOne (session_of w) objID (driver_of w) = (Return doc, driver_of w').
Proof.
  unfold mongoProductRepository_FindByID.
  destruct (primitive_ObjectIDFromHex productID) as [objID [e0 |]]; [discriminate |].
  destruct (with_session Driver Session X (fun s => products_FindOne s objID) w)
    as [[doc | err |] w1] eqn:Hfind; [| destruct (is_ErrNoDocuments err) |]; try discriminate.
  apply with_session_frame in Hfind as (Hcall & _ & Htenants & Hsession & _).
  unfold new_product. intros [= <- <-]. cbn [products tenants ext].
  exists (fresh (dom (products w1))), objID, doc.
  split; [reflexivity |].
  split; [rewrite lookup_insert_eq, NewStockQuantity_clamps; reflexivity |].
  repeat split; assumption.
Qed.

Lemma mongo_FindByID_tenant_returns (tenantID : string) (t : ptr) (w w' : World Db) :
  mongoTenantRepository_FindByID Driver Session X tenants_FindOne tenantID w
    = (Return t, w') ->
  exists (l : loc) (doc : tenant_document),
    t = Some l /\
    tenants w' !! l =
      Some {| Tenant_ID := tenant_bson_id doc;
              Tenant_Name := tenant_bson_name doc;
              MaxStock := {| value := Z.max 0 (bson_max_stock doc) |};
              IsActive := bson_is_active doc |} /\
    session_of w' = session_of w /\
    tenants_FindOne (session_of w) tenantID (driver_of w) = (Return doc, driver_of w').
Proof.
  unfold mongoTenantRepository_FindByID.
  destruct (with_session Driver Session X (fun s => tenants_FindOne s tenantID) w)
    as [[doc | err |] w1] eqn:Hfind; [| destruct (is_ErrNoDocuments err) |]; try discriminate.
  apply with_session_frame in Hfind as (Hcall & _ & _ & Hsession & _).
  unfold new_tenant. intros [= <- <-]. cbn [products tenants ext].
  exists (fresh (dom (tenants w1))), doc.
  split; [reflexivity |].
  split; [rewrite lookup_insert_eq, NewStockQuantity_clamps; reflexivity |].
  split; assumption.
Qed.

(** *** The use case over the Mongo unit of work and its repositories *)

Variable client_StartSession : SO Driver Session.
Variable session_StartTransaction : Session -> SO Driver unit.
Variable session_CommitTransaction : Session -> SO Driver unit.
Variable session_AbortTransaction : Session -> SO Driver unit.
Variable session_EndSession : Session -> Driver -> Driver.
Variable UpdateStock : string -> StockQuantity -> Op Db unit.
Variable wallclock : nat -> Time.
Variable n : NotificationService Db.
Variable pub : option (EventPublisher Db).

Local Abbreviation mongo_uow :=
  (NewMongoUnitOfWork Driver Session client_StartSession session_StartTransaction
     session_CommitTransaction session_AbortTransaction session_EndSession
     (mongoProductRepository Driver Session ObjectID X primitive_ObjectIDFromHex
        ObjectID_Hex products_FindOne products_UpdateOne UpdateStock)
     (mongoTenantRepository Driver Session X tenants_FindOne)
     (mongoStockHistoryRepository Driver Session ObjectID X primitive_ObjectIDFromHex
        stock_history_InsertOne)).
Local Abbreviation mongo_uc := (NewAddStockUseCase Db mongo_uow n pub).

Lemma on_uow_frame (A : Type) (f : SO (mongoUnitOfWork Driver Session) A)
  (w w' : World Db) (r : outcome A) :
  on_ext (on_uow Driver Session f) w = (r, w') ->
  f (uow_state (ext w)) = (r, uow_state (ext w')) /\
  products w' = products w /\ tenants w' = tenants w.
Proof.
  unfold on_ext, on_uow.
  destruct (f (uow_state (ext w))) as [r0 u] eqn:Hf.
  intros [= <- <-]. cbn. repeat split; reflexivity.
Qed.

Lemma mongo_Begin_returns (u u' : mongoUnitOfWork Driver Session) :
  mongo_Begin Driver Session client_StartSession session_StartTransaction
    session_EndSession u = (Return tt, u') ->
  exists s d,
    client_StartSession (driver u) = (Return s, d) /\
    session_StartTransaction s d = (Return tt, driver u') /\
    session u' = Some s.
Proof.
  unfold mongo_Begin, bind, on_driver, EndSession, set_session.
  destruct (client_StartSession (driver u)) as [[s | e |] d] eqn:Hstart; cbn;
    [| discriminate | discriminate].
  destruct (session_StartTransaction s d) as [[[] | e |] d'] eqn:Htxn; cbn;
    [| discriminate | discriminate].
  intros [= <-]. exists s, d. repeat split; assumption.
Qed.

Lemma mongo_wiring_keeps_entities :
  (forall pb ev, pub = Some pb -> keeps_entities (Publish pb ev)) ->
  entities_left_alone mongo_uc.
Proof.
  intros Hpub. split; [| split; [| split]].
  - intros p. apply mongo_Save_keeps_entities.
  - intros ev w w' r Hcall.
    apply mongo_Create_calls_InsertOne in Hcall as (_ & Hp & Ht). split; assumption.
  - intros pb ev Hsome. exact (Hpub pb ev Hsome).
  - intros w w' r Hcall.
    apply on_uow_frame in Hcall as (_ & Hp & Ht). split; assumption.
Qed.

(** X25: with the Mongo unit of work and its repositories, the product
    that a run has loaded is the run's own: [Save], [Create] and [Commit]
    talk to the driver and write to no product and no tenant in memory. So
    does the use case over this wiring leave the product alone, whenever
    its publisher, if it has one, does. *)
Theorem mongo_wiring_leaves_product_alone :
  (forall pb ev, pub = Some pb -> keeps_entities (Publish pb ev)) ->
  product_left_alone mongo_uc /\ entities_left_alone mongo_uc.
Proof.
  intros Hpub.
  pose proof (mongo_wiring_keeps_entities Hpub) as Halone.
  split; [| exact Halone].
  destruct Halone as (Hsave & Hcreate & Hpublish & Hcommit).
  intros p. repeat split.
  - intros w w' r Hcall. apply product_at_frame, (Hsave _ _ _ _ Hcall).
  - intros ev w w' r Hcall. apply product_at_frame, (Hcreate _ _ _ _ Hcall).
  - intros pb ev Hsome w w' r Hcall.
    apply product_at_frame, (Hpublish _ _ Hsome _ _ _ Hcall).
  - intros w w' r Hcall. apply product_at_frame, (Hcommit _ _ _ Hcall).
Qed.

(** X26: a successful run over the Mongo wiring, seen from the driver.
    The session that [Begin] started is the one every call of the run
    carries; the calls follow one another on the driver: the tenant is
    found under the tenant id of the request, the product under the
    ObjectID of its product id, the product is updated and the history
    document inserted. The update sets [current_stock] to the [NewStock]
    of the response and increments [total_added] by that same new stock,
    not by the quantity added; the history document carries the
    quantities of the response and the actor and note of the request. The
    response counts a negative stored stock or limit as zero, and the new
    stock, Go's sum of previous stock and quantity, is within the limit;
    the tenant found is active. *)
Theorem mongo_run_writes_what_it_reports (req : AddStockRequest) (w : World Db)
  (resp : AddStockResponse) (st : St Db) :
  (forall pb ev, pub = Some pb -> keeps_entities (Publish pb ev)) ->
  Execute wallclock mongo_uc req (start w) = (Return resp, st) ->
  exists (s : Session) (objID : ObjectID) (tenant : tenant_document)
         (product : product_document ObjectID)
         (d0 d1 d2 d3 d4 d5 : Driver) (updated created : Time),
    client_StartSession (driver_of w) = (Return s, d0) /\
    session_StartTransaction s d0 = (Return tt, d1) /\
    tenants_FindOne (Some s) (TenantID req) d1 = (Return tenant, d2) /\
    primitive_ObjectIDFromHex (ProductID req) = (objID, None) /\
    products_FindOne (Some s) objID d2 = (Return product, d3) /\
    products_UpdateOne (Some s) (fst (primitive_ObjectIDFromHex (resp_ProductID resp)))
      {| set_current_stock := NewStock resp;
         set_last_updated := updated;
         inc_total_added := NewStock resp |} d3 = (Return tt, d4) /\
    stock_history_InsertOne (Some s)
      {| bson_product_id := fst (primitive_ObjectIDFromHex (resp_ProductID resp));
         history_bson_tenant_id := TenantID req;
         bson_quantity := Added resp;
         bson_previous_stock := PreviousStock resp;
         bson_new_stock := NewStock resp;
         bson_added_by := AddedBy req;
         bson_notes := Notes req;
         bson_created_at := created;
         bson_operation := "stock_add" |} d4 = (Return tt, d5) /\
    bson_is_active tenant = true /\
    resp_ProductID resp = ObjectID_Hex (bson_id product) /\
    resp_ProductName resp = bson_name product /\
    PreviousStock resp = Z.max 0 (bson_current_stock product) /\
    MaxAllowed resp = Z.max 0 (bson_max_stock tenant) /\
    Added resp = Quantity req /\
    NewStock resp = int_add (PreviousStock resp) (Added resp) /\
    NewStock resp <= MaxAllowed resp.
Proof.
  intros Hpub Hrun.
  destruct (successful_run_steps Db wallclock mongo_uc req w resp st
              (mongo_wiring_keeps_entities Hpub) Hrun)
    as (w1 & w2 & w3 & w4 & w5 & t_ptr & l & t & p & updated & created &
        _ & Hbegin & Hfind_t & Hfind_p & (t2 & Ht2 & Hactive) & Ht & Hp &
        Hsave & Hcreate & Hid & Hname & Hprev & Hnew & Hadded & Hmax & Hle).
  cbn [uow NewAddStockUseCase NewMongoUnitOfWork Begin Tenants Products StockHistory
       mongoProductRepository mongoTenantRepository mongoStockHistoryRepository
       Products_FindByID_op Products_Save_op Tenants_FindByID_op StockHistory_Create_op]
    in Hbegin, Hfind_t, Hfind_p, Hsave, Hcreate.
  apply on_uow_frame in Hbegin as (Hbegin & _ & _).
  apply mongo_Begin_returns in Hbegin as (s & d0 & Hstart & Htxn & Hs1).
  apply mongo_FindByID_tenant_returns in Hfind_t
    as (lt & tdoc & -> & Hlt & Hs2 & Hcall_t).
  apply mongo_FindByID_product_returns in Hfind_p
    as (lp & objID & pdoc & [= <-] & Hlp & Htenants3 & Hs3 & Hhex & Hcall_p).
  cbn [product_at tenant_at] in Hp, Ht, Ht2.
  rewrite Hlp in Hp. injection Hp as <-.
  rewrite Hlt in Ht2. injection Ht2 as <-.
  rewrite Htenants3, Hlt in Ht. injection Ht as <-.
  eapply mongo_Save_calls_UpdateOne in Hsave as (Hupdate & Hs4);
    [| cbn [product_at products]; apply lookup_insert_eq ].
  apply mongo_Create_calls_InsertOne in Hcreate as (Hinsert & _ & _).
  cbn [ext Product_ID CurrentStock LastUpdated Value value
       sae_ProductID sae_TenantID sae_Quantity sae_Previous sae_Current sae_AddedBy
       sae_Notes sae_Timestamp IsActive MaxStock] in *.
  rewrite Hs1 in Hs2. rewrite Hs2 in Hs3. rewrite Hs3 in Hs4.
  rewrite Hs1 in Hcall_t. rewrite Hs2 in Hcall_p. rewrite Hs3 in Hupdate.
  rewrite Hs4 in Hinsert.
  exists s, objID, tdoc, pdoc, d0, (driver_of w1), (driver_of w2), (driver_of w3),
    (driver_of w4), (driver_of w5), updated, created.
  rewrite Hmax in Hle. rewrite Hid, Hadded, Hprev, Hmax.
  repeat split; assumption.
Qed.

End MongoRepositoriesProperties.

(** ** The Mongo wiring on the bench *)

Lemma mongo_wiring_leaves_product_alone_witness :
  product_left_alone MongoBench.usecase /\ entities_left_alone MongoBench.usecase.
Proof.
  apply (mongo_wiring_leaves_product_alone MongoBench.MemoryDriver nat string unit
           MongoBench.ObjectIDFromHex MongoBench.Hex
           MongoBench.products_FindOne MongoBench.products_UpdateOne
           MongoBench.tenants_FindOne MongoBench.stock_history_InsertOne).
  discriminate.
Defined.

Lemma mongo_run_writes_what_it_reports_witness :
  fst (Execute Bench.clock MongoBench.usecase (MongoBench.request 15)
         (start (MongoBench.bench 100 (-3))))
    = Return {| resp_ProductID := "65f000000000000000000001";
                resp_ProductName := "Widget";
                PreviousStock := 0; NewStock := 15; Added := 15;
                MaxAllowed := 100; Utilization := 15%float |} /\
  exists (d3 d4 : MongoBench.MemoryDriver) (updated : Time),
    MongoBench.products_UpdateOne (Some 1%nat) "65f000000000000000000001"
      {| set_current_stock := 15; set_last_updated := updated; inc_total_added := 15 |} d3
    = (Return tt, d4).
Proof.
  set (run := Execute Bench.clock MongoBench.usecase (MongoBench.request 15)
                (start (MongoBench.bench 100 (-3)))).
  set (resp := {| resp_ProductID := "65f000000000000000000001";
                  resp_ProductName := "Widget";
                  PreviousStock := 0; NewStock := 15; Added := 15;
                  MaxAllowed := 100; Utilization := 15%float |}).
  assert (Hrun : run = (Return resp, snd run)).
  { rewrite (surjective_pairing run) at 1.
    apply (f_equal2 pair); [vm_compute; reflexivity | reflexivity]. }
  split; [exact (f_equal fst Hrun) |].
  destruct (mongo_run_writes_what_it_reports MongoBench.MemoryDriver nat string unit
              MongoBench.ObjectIDFromHex MongoBench.Hex
              MongoBench.products_FindOne MongoBench.products_UpdateOne
              MongoBench.tenants_FindOne MongoBench.stock_history_InsertOne
              _ _ _ _ _ _ Bench.clock _ None
              (MongoBench.request 15) (MongoBench.bench 100 (-3)) resp (snd run)
              ltac:(discriminate) Hrun)
    as (s & objID & tenant & product & d0 & d1 & d2 & d3 & d4 & d5 & updated & created &
        Hstart & _ & _ & _ & _ & Hupdate & _).
  injection Hstart as <- _.
  exists d3, d4, updated. exact Hupdate.
Defined.
